(** * Dota2Draft: the suggestion scoring engine

    A shallow embedding of the draft analyzers of the repository
    (advanced-draft-analyzer, draft-integration and draft-logic) together
    with the properties of the scoring engine that are proved about them.

    Conventions of the embedding.
    - A JavaScript [number] that carries a score, a rate or a duration is an
      exact rational ([Q]); equality of scores is [==].  Every division of
      the source is guarded against a zero divisor, so no infinity or NaN is
      produced from finite inputs.
    - A [number] that is an identifier, a position or a count is an integer
      ([Z]) or a natural number.
    - A TypeScript union of string literals is an inductive type; an optional
      field is an [option].
    - A class is a [Module] holding its methods; a method that can raise
      returns a [Result]. *)

From Stdlib Require Import QArith Qround ZArith List String Bool Lia Lqa.
From Stdlib Require Import Permutation Sorted.
From stdpp Require Import gmap.
Import ListNotations.

Local Open Scope Q_scope.

(* ------------------------------------------------------------------ *)
(** ** JavaScript numbers and arrays *)

Module Js.

(** [Math.min] and [Math.max] on two arguments. *)
Definition min (a b : Q) : Q := if Qle_bool a b then a else b.
Definition max (a b : Q) : Q := if Qle_bool a b then b else a.

(** [Math.round]: the nearest integer, a half rounded up. *)
Definition round (x : Q) : Q := inject_Z (Qfloor (x + 0.5)).

(** [Number(x.toFixed(2))]: the nearest multiple of [0.01]; the sign is
    split off first and a half of the magnitude is rounded up.  This is the
    rounding of the exact value.  The code rounds the double that holds
    [x], so where [x] is within a rounding error of a tie its result can be
    the neighbouring multiple of [0.01]; the statements about win rates
    leave room for that. *)
Definition toFixed2 (x : Q) : Q :=
  if Qle_bool 0 x
  then inject_Z (Qfloor (x * 100 + 0.5)) / 100
  else - (inject_Z (Qfloor ((- x) * 100 + 0.5)) / 100).

(** Truthiness of a number: [0] is falsy. *)
Definition truthy (x : Q) : bool := negb (Qeq_bool x 0).

(** [a || b] on numbers. *)
Definition or_else (a b : Q) : Q := if truthy a then a else b.

Definition lt (a b : Q) : bool := negb (Qle_bool b a).
Definition gt (a b : Q) : bool := lt b a.
Definition le (a b : Q) : bool := Qle_bool a b.
Definition ge (a b : Q) : bool := Qle_bool b a.

(** [arr.includes(s)] on an array of strings. *)
Definition includes (arr : list string) (s : string) : bool :=
  existsb (String.eqb s) arr.

(** [arr.slice(0, end)] for an integer [end]: a negative [end] counts from
    the back of the array. *)
Definition slice0 {A : Type} (arr : list A) (end_ : Z) : list A :=
  let len := Z.of_nat (length arr) in
  let final :=
    if (end_ <? 0)%Z then Z.max (len + end_) 0 else Z.min end_ len in
  firstn (Z.to_nat final) arr.

(** [arr.sort((a, b) => score(b) - score(a))]: the sort is stable, so the
    result is the stable arrangement by descending score.  [insertDesc]
    puts [x] in front of the first element whose score is not above its
    own. *)
Section Sort.
Context {A : Type} (score : A -> Q).

Fixpoint insertDesc (x : A) (l : list A) : list A :=
  match l with
  | [] => [x]
  | y :: l' =>
      if lt (score x) (score y) then y :: insertDesc x l' else x :: l
  end.

Definition sortDesc (l : list A) : list A := foldr insertDesc [] l.
End Sort.

(** [s.endsWith(suffix)]. *)
Definition endsWith (s suffix : string) : bool :=
  let n := String.length s in
  let m := String.length suffix in
  (m <=? n)%nat && String.eqb (String.substring (n - m) m s) suffix.

(** [s.toLowerCase()] on an ASCII string: the letters A to Z become a to z. *)
Definition toLowerAscii (c : Ascii.ascii) : Ascii.ascii :=
  let n := Ascii.nat_of_ascii c in
  if (65 <=? n)%nat && (n <=? 90)%nat then Ascii.ascii_of_nat (n + 32) else c.

Fixpoint toLowerCase (s : string) : string :=
  match s with
  | EmptyString => EmptyString
  | String c s' => String (toLowerAscii c) (toLowerCase s')
  end.

(** [s.includes(sub)] on strings: [sub] occurs somewhere in [s]. *)
Fixpoint includesSub (s sub : string) : bool :=
  String.prefix sub s
  || match s with
     | EmptyString => false
     | String _ s' => includesSub s' sub
     end.

End Js.

(* ------------------------------------------------------------------ *)
(** ** Exceptions *)

(** The outcome of a computation that may raise. *)
Inductive Result (A : Type) : Type :=
| Ok (a : A)
| Throw (error : string).
Arguments Ok {A} a.
Arguments Throw {A} error.

#[global] Instance Result_ret : MRet Result := fun A a => Ok a.
#[global] Instance Result_bind : MBind Result :=
  fun A B f r => match r with Ok a => f a | Throw e => Throw e end.

(** [try { body } catch (error) { handler }]. *)
Definition try_catch {A : Type} (body : Result A) (handler : string -> Result A)
  : Result A :=
  match body with
  | Ok a => Ok a
  | Throw e => handler e
  end.

(* ------------------------------------------------------------------ *)
(** ** The data model (types.ts and the interfaces of the analyzers) *)

Inductive PrimaryAttr : Type := agi | str | int | all.
Inductive AttackType : Type := Melee | Ranged.

Definition PrimaryAttr_eqb (a b : PrimaryAttr) : bool :=
  match a, b with
  | agi, agi | str, str | int, int | all, all => true
  | _, _ => false
  end.

Definition AttackType_eqb (a b : AttackType) : bool :=
  match a, b with
  | Melee, Melee | Ranged, Ranged => true
  | _, _ => false
  end.

Module Hero.
Record t : Type := mk {
  id : Z;
  name : string;
  localized_name : string;
  primary_attr : PrimaryAttr;
  attack_type : AttackType;
  roles : list string
}.
End Hero.
Abbreviation Hero := Hero.t.

Module HeroStats.
(** The numeric fields of the interface; the descriptive fields it shares
    with [Hero] and the trend arrays are not read by the analyzers. *)
Record t : Type := mk {
  id : Z;
  pub_pick : Q;
  pub_win : Q;
  pro_pick : Q;
  pro_win : Q;
  pro_ban : Q;
  turbo_picks : Q;
  turbo_wins : Q;
  _1_pick : Q; _1_win : Q;
  _2_pick : Q; _2_win : Q;
  _3_pick : Q; _3_win : Q;
  _4_pick : Q; _4_win : Q;
  _5_pick : Q; _5_win : Q;
  _6_pick : Q; _6_win : Q;
  _7_pick : Q; _7_win : Q;
  _8_pick : Q; _8_win : Q
}.

(** [Object.keys(heroStat)]: the keys of the interface, in its order. *)
Definition keys : list string :=
  [ "id"; "name"; "localized_name"; "primary_attr"; "attack_type"; "roles";
    "img"; "icon";
    "pub_pick"; "pub_win"; "pub_pick_trend"; "pub_win_trend";
    "pro_pick"; "pro_win"; "pro_ban";
    "turbo_picks"; "turbo_wins"; "turbo_picks_trend"; "turbo_wins_trend";
    "1_pick"; "1_win"; "2_pick"; "2_win"; "3_pick"; "3_win";
    "4_pick"; "4_win"; "5_pick"; "5_win"; "6_pick"; "6_win";
    "7_pick"; "7_win"; "8_pick"; "8_win" ]%string.

(** [heroStat[key] as number] for the keys that hold a pick count. *)
Definition pickCount (s : t) (key : string) : Q :=
  if String.eqb key "pub_pick" then pub_pick s
  else if String.eqb key "pro_pick" then pro_pick s
  else if String.eqb key "1_pick" then _1_pick s
  else if String.eqb key "2_pick" then _2_pick s
  else if String.eqb key "3_pick" then _3_pick s
  else if String.eqb key "4_pick" then _4_pick s
  else if String.eqb key "5_pick" then _5_pick s
  else if String.eqb key "6_pick" then _6_pick s
  else if String.eqb key "7_pick" then _7_pick s
  else if String.eqb key "8_pick" then _8_pick s
  else 0.
End HeroStats.
Abbreviation HeroStats := HeroStats.t.

Module HeroMatchupData.
Record t : Type := mk {
  hero_id : Z;
  games_played : Q;
  wins : Q
}.
End HeroMatchupData.
Abbreviation HeroMatchupData := HeroMatchupData.t.

Inductive DraftPhase : Type := pick | completed.

Module DraftState.
Record t : Type := mk {
  yourTeam : list (option Hero);
  enemyTeam : list (option Hero);
  currentPhase : DraftPhase;
  currentPick : Z
}.
End DraftState.
Abbreviation DraftState := DraftState.t.

Inductive Phase : Type := early | mid | late.
Inductive Playstyle : Type := aggressive | defensive | balanced.

Module ItemStrategy.
Inductive t : Type := early | scaling | utility.
End ItemStrategy.

Module GameContext.
Record t : Type := mk {
  expectedDuration : option Q;
  preferredLanes : option (list Z);
  playstyle : option Playstyle;
  itemStrategy : option ItemStrategy.t
}.
(** The default argument [{}]. *)
Definition empty : t := mk None None None None.
End GameContext.
Abbreviation GameContext := GameContext.t.

Module ItemBuild.
Record t : Type := mk {
  name : string;
  items : list string;
  timing : list Q;
  effectiveness : Q;
  gamePhase : Phase
}.
End ItemBuild.
Abbreviation ItemBuild := ItemBuild.t.

Module LaneAssignment.
Record t : Type := mk {
  position : Z;
  hero : Hero;
  confidence : Q;
  reasoning : list string
}.
End LaneAssignment.
Abbreviation LaneAssignment := LaneAssignment.t.

Module TimingWindow.
Record t : Type := mk {
  phase : Phase;
  start : Q;
  end_ : Q;
  powerLevel : Q;
  keyItems : list string;
  objectives : list string
}.
End TimingWindow.
Abbreviation TimingWindow := TimingWindow.t.

Module ProPattern.
Record t : Type := mk {
  pickOrder : Q;
  banPriority : Q;
  firstPickRate : Q;
  situationalPickRate : Q;
  (** [{ heroId, synergy }] and [{ heroId, effectiveness }]. *)
  pairings : list (Z * Q);
  counters : list (Z * Q)
}.
End ProPattern.
Abbreviation ProPattern := ProPattern.t.

Module ScoreBreakdown.
Record t : Type := mk {
  meta : Q;
  counter : Q;
  synergy : Q;
  itemSynergy : Q;
  laneOptimization : Q;
  timing : Q;
  proPattern : Q;
  mlSynergy : Q
}.

(** [Object.entries(breakdown)]: the keys in the order the object literal
    lists them. *)
Definition entries (b : t) : list (string * Q) :=
  [ ("meta"%string, meta b);
    ("counter"%string, counter b);
    ("synergy"%string, synergy b);
    ("itemSynergy"%string, itemSynergy b);
    ("laneOptimization"%string, laneOptimization b);
    ("timing"%string, timing b);
    ("proPattern"%string, proPattern b);
    ("mlSynergy"%string, mlSynergy b) ].
End ScoreBreakdown.
Abbreviation ScoreBreakdown := ScoreBreakdown.t.

Module AdvancedSuggestion.
Record t : Type := mk {
  hero : Hero;
  score : Q;
  reasons : list string;
  breakdown : ScoreBreakdown;
  itemSynergy : list ItemBuild;
  laneOptimization : list LaneAssignment;
  timingWindows : list TimingWindow;
  proPatterns : ProPattern
}.
End AdvancedSuggestion.
Abbreviation AdvancedSuggestion := AdvancedSuggestion.t.

Module ContextualFactors.
Record t : Type := mk {
  patchTrend : Q;
  metaPosition : Q;
  adaptability : Q
}.
End ContextualFactors.

Module AdvancedHeroAnalysis.
Record t : Type := mk {
  hero : Hero;
  itemBuilds : list ItemBuild;
  laneFlexibility : list LaneAssignment;
  timingWindows : list TimingWindow;
  proPatterns : ProPattern;
  mlSynergyScore : Q;
  contextualFactors : ContextualFactors.t
}.
End AdvancedHeroAnalysis.
Abbreviation AdvancedHeroAnalysis := AdvancedHeroAnalysis.t.

Definition Phase_eqb (a b : Phase) : bool :=
  match a, b with
  | early, early | mid, mid | late, late => true
  | _, _ => false
  end.

Inductive Confidence : Type := high | medium | low.

Module DraftSuggestion.
Record t : Type := mk {
  hero : Hero;
  score : Q;
  win_rate : Q;
  confidence : Confidence;
  reasoning : list string;
  counters : list string;
  synergies : list string
}.
End DraftSuggestion.
Abbreviation DraftSuggestion := DraftSuggestion.t.

(** [AdvancedDraftSuggestion extends DraftSuggestion]. *)
Module AdvancedDraftSuggestion.
Record t : Type := mk {
  base : DraftSuggestion;
  advancedBreakdown : ScoreBreakdown;
  itemRecommendations : list string;
  optimalLane : Z;
  timingWindow : Phase;
  proPickRate : Q
}.
Definition hero (s : t) : Hero := DraftSuggestion.hero (base s).
Definition score (s : t) : Q := DraftSuggestion.score (base s).
End AdvancedDraftSuggestion.
Abbreviation AdvancedDraftSuggestion := AdvancedDraftSuggestion.t.

(** [team.filter((h) => h !== null)]: the heroes of the occupied slots. *)
Definition pickedHeroes (team : list (option Hero)) : list Hero :=
  omap (fun h => h) team.

(* ------------------------------------------------------------------ *)
(** ** MLSynergyPredictor *)

Module MLSynergyPredictor.

Definition supportRoles : list string := ["Support"; "Disabler"]%string.
Definition coreRoles : list string := ["Carry"; "Nuker"; "Pusher"]%string.

Definition predictHeroSynergy (hero1 hero2 : Hero) : Q :=
  let synergy := 0.5 in
  let hero1IsSupport :=
    existsb (fun role => Js.includes supportRoles role) (Hero.roles hero1) in
  let hero2IsCore :=
    existsb (fun role => Js.includes coreRoles role) (Hero.roles hero2) in
  let synergy :=
    if hero1IsSupport && hero2IsCore then synergy + 0.2 else synergy in
  let synergy :=
    if negb (AttackType_eqb (Hero.attack_type hero1) (Hero.attack_type hero2))
    then synergy + 0.05 else synergy in
  Js.min 1 (Js.max 0 synergy).

(** The inner loop [for (j = i + 1; ...)]: [hi] against every later hero,
    threading the two accumulators. *)
Definition innerLoop (hi : Hero) (later : list Hero) (acc : Q * nat)
  : Q * nat :=
  fold_left
    (fun '(totalSynergy, pairCount) hj =>
       (totalSynergy + predictHeroSynergy hi hj, S pairCount))
    later acc.

(** The outer loop [for (i = 0; ...)]. *)
Fixpoint outerLoop (heroes : list Hero) (acc : Q * nat) : Q * nat :=
  match heroes with
  | [] => acc
  | hi :: later => outerLoop later (innerLoop hi later acc)
  end.

Definition predictTeamSynergy (heroes : list Hero) : Q :=
  if (length heroes <? 2)%nat then 0.5
  else
    let '(totalSynergy, pairCount) := outerLoop heroes (0, O) in
    if (0 <? pairCount)%nat
    then totalSynergy / inject_Z (Z.of_nat pairCount)
    else 0.5.

End MLSynergyPredictor.

(* ------------------------------------------------------------------ *)
(** ** ItemBuildAnalyzer *)

Module ItemBuildAnalyzer.

(** [gameContext.expectedDuration && gameContext.expectedDuration < 30]
    and its [> 45] sibling, read as conditions. *)
Definition isEarlyGame (gameContext : GameContext) : bool :=
  match GameContext.expectedDuration gameContext with
  | Some d => Js.truthy d && Js.lt d 30
  | None => false
  end.

Definition isLateGame (gameContext : GameContext) : bool :=
  match GameContext.expectedDuration gameContext with
  | Some d => Js.truthy d && Js.gt d 45
  | None => false
  end.

Definition isAggressive (gameContext : GameContext) : bool :=
  match GameContext.playstyle gameContext with
  | Some aggressive => true
  | _ => false
  end.

Definition carryBuild (gameContext : GameContext) : ItemBuild :=
  let isEarlyGame := isEarlyGame gameContext in
  {| ItemBuild.name :=
       (if isEarlyGame then "Early Game Carry" else "Carry Build")%string;
     ItemBuild.items :=
       (if isEarlyGame
        then ["power_treads"; "drums"; "black_king_bar"; "desolator"]
        else ["power_treads"; "battle_fury"; "black_king_bar"; "daedalus"]
       )%string;
     ItemBuild.timing :=
       if isEarlyGame then [6; 12; 20; 28] else [8; 18; 25; 35];
     ItemBuild.effectiveness :=
       if isAggressive gameContext then 0.9 else 0.85;
     ItemBuild.gamePhase := if isEarlyGame then early else mid |}.

Definition supportBuild : ItemBuild :=
  {| ItemBuild.name := "Support Build"%string;
     ItemBuild.items :=
       ["arcane_boots"; "force_staff"; "glimmer_cape"; "aether_lens"]%string;
     ItemBuild.timing := [6; 15; 25; 35];
     ItemBuild.effectiveness := 0.8;
     ItemBuild.gamePhase := early |}.

Definition initiatorBuild : ItemBuild :=
  {| ItemBuild.name := "Initiator Build"%string;
     ItemBuild.items :=
       ["blink_dagger"; "black_king_bar"; "pipe"; "crimson_guard"]%string;
     ItemBuild.timing := [12; 20; 30; 40];
     ItemBuild.effectiveness := 0.75;
     ItemBuild.gamePhase := mid |}.

Definition nukerBuild (gameContext : GameContext) : ItemBuild :=
  {| ItemBuild.name := "Nuker Build"%string;
     ItemBuild.items :=
       ["arcane_boots"; "aether_lens"; "aghanims_scepter"; "refresher"
       ]%string;
     ItemBuild.timing := [10; 18; 28; 45];
     ItemBuild.effectiveness := 0.9;
     ItemBuild.gamePhase := if isLateGame gameContext then late else mid |}.

(** The builds are pushed in the order Carry, Support, Initiator, Nuker. *)
Definition generateItemBuilds (hero : Hero) (gameContext : GameContext)
  : list ItemBuild :=
  let has role := Js.includes (Hero.roles hero) role in
  (if has "Carry"%string then [carryBuild gameContext] else [])
  ++ (if has "Support"%string then [supportBuild] else [])
  ++ (if has "Initiator"%string then [initiatorBuild] else [])
  ++ (if has "Nuker"%string then [nukerBuild gameContext] else []).

Definition calculateItemSynergy (hero : Hero) (teamHeroes : list Hero) : Q :=
  let synergy := 0.5 in
  let synergy :=
    if Js.includes (Hero.roles hero) "Support"
       && existsb (fun h => Js.includes (Hero.roles h) "Carry") teamHeroes
    then synergy + 0.3 else synergy in
  Js.min 1 synergy.

End ItemBuildAnalyzer.

(* ------------------------------------------------------------------ *)
(** ** LaneOptimizer *)

Module LaneOptimizer.

(** The body of [teamHeroes.forEach] in [determineOptimalPosition]: the
    positions one hero adds to [takenPositions]. *)
Definition claim (takenPositions : gset Z) (h : Hero) : gset Z :=
  let add (role : string) (pos : Z) (s : gset Z) : gset Z :=
    if Js.includes (Hero.roles h) role then {[ pos ]} ∪ s else s in
  add "Support"%string 5%Z
    (add "Initiator"%string 3%Z
       (add "Nuker"%string 2%Z
          (add "Carry"%string 1%Z takenPositions))).

Definition takenPositions (teamHeroes : list Hero) : gset Z :=
  fold_left claim teamHeroes ∅.

Definition has (s : gset Z) (pos : Z) : bool := bool_decide (pos ∈ s).

Definition determineOptimalPosition (hero : Hero) (teamHeroes : list Hero)
  : Z :=
  let taken := takenPositions teamHeroes in
  let tagged role := Js.includes (Hero.roles hero) role in
  if tagged "Carry"%string && negb (has taken 1) then 1%Z
  else if tagged "Nuker"%string && negb (has taken 2) then 2%Z
  else if tagged "Initiator"%string && negb (has taken 3) then 3%Z
  else if tagged "Support"%string && negb (has taken 5) then 5%Z
  else
    (* for (let pos = 1; pos <= 5; pos++) *)
    match List.find (fun pos => negb (has taken pos)) [1; 2; 3; 4; 5]%Z with
    | Some pos => pos
    | None => 4%Z
    end.

Definition calculatePositionConfidence (hero : Hero) (position : Z) : Q :=
  let tagged role := Js.includes (Hero.roles hero) role in
  let attr a := PrimaryAttr_eqb (Hero.primary_attr hero) a in
  let bump (cond : bool) (d : Q) (c : Q) : Q := if cond then c + d else c in
  let confidence := 0.5 in
  let confidence :=
    bump ((position =? 1)%Z && tagged "Carry"%string) 0.4 confidence in
  let confidence :=
    bump ((position =? 2)%Z && tagged "Nuker"%string) 0.4 confidence in
  let confidence :=
    bump ((position =? 3)%Z && tagged "Initiator"%string) 0.4 confidence in
  let confidence :=
    bump ((position =? 4)%Z && tagged "Support"%string) 0.3 confidence in
  let confidence :=
    bump ((position =? 5)%Z && tagged "Support"%string) 0.4 confidence in
  let confidence := bump ((position =? 1)%Z && attr agi) 0.1 confidence in
  let confidence := bump ((position =? 2)%Z && attr int) 0.1 confidence in
  let confidence := bump ((position =? 3)%Z && attr str) 0.1 confidence in
  Js.min 1 confidence.

Definition getPositionReasoning (hero : Hero) (position : Z) : list string :=
  let reason (pos : Z) (text : string) : list string :=
    if (position =? pos)%Z then [text] else [] in
  reason 1%Z "Strong late game scaling"%string
  ++ reason 2%Z "High burst damage potential"%string
  ++ reason 3%Z "Initiator and space creator"%string
  ++ reason 4%Z "Utility and roaming potential"%string
  ++ reason 5%Z "Strong support abilities"%string.

Definition optimizeLanes (heroes : list Hero) : list LaneAssignment :=
  map
    (fun hero =>
       let position := determineOptimalPosition hero heroes in
       {| LaneAssignment.position := position;
          LaneAssignment.hero := hero;
          LaneAssignment.confidence :=
            calculatePositionConfidence hero position;
          LaneAssignment.reasoning := getPositionReasoning hero position |})
    heroes.

End LaneOptimizer.

(* ------------------------------------------------------------------ *)
(** ** TimingAnalyzer *)

Module TimingAnalyzer.

Definition calculateEarlyPower (hero : Hero) : Q :=
  let tagged role := Js.includes (Hero.roles hero) role in
  let power := 0.5 in
  let power :=
    if PrimaryAttr_eqb (Hero.primary_attr hero) str
    then power + 0.2 else power in
  let power := if tagged "Support"%string then power + 0.1 else power in
  let power := if tagged "Nuker"%string then power + 0.15 else power in
  Js.min 1 power.

Definition calculateMidPower (hero : Hero) : Q :=
  let tagged role := Js.includes (Hero.roles hero) role in
  let power := 0.6 in
  let power := if tagged "Initiator"%string then power + 0.2 else power in
  let power := if tagged "Nuker"%string then power + 0.15 else power in
  let power := if tagged "Pusher"%string then power + 0.1 else power in
  Js.min 1 power.

Definition calculateLatePower (hero : Hero) : Q :=
  let tagged role := Js.includes (Hero.roles hero) role in
  let power := 0.5 in
  let power := if tagged "Carry"%string then power + 0.3 else power in
  let power :=
    if PrimaryAttr_eqb (Hero.primary_attr hero) agi
    then power + 0.15 else power in
  let power := if tagged "Durable"%string then power + 0.1 else power in
  Js.min 1 power.

Definition analyzeTimingWindows (hero : Hero) (gameContext : GameContext)
  : list TimingWindow :=
  (* gameContext.expectedDuration || 40 *)
  let expectedDuration :=
    match GameContext.expectedDuration gameContext with
    | Some d => Js.or_else d 40
    | None => 40
    end in
  let isAggressive :=
    match GameContext.playstyle gameContext with
    | Some aggressive => true
    | _ => false
    end in
  let strategyIsEarly :=
    match GameContext.itemStrategy gameContext with
    | Some ItemStrategy.early => true
    | _ => false
    end in
  [ {| TimingWindow.phase := early;
       TimingWindow.start := 0;
       TimingWindow.end_ := if isAggressive then 12 else 15;
       TimingWindow.powerLevel := calculateEarlyPower hero;
       TimingWindow.keyItems :=
         (if strategyIsEarly
          then ["boots"; "magic_wand"; "bracer"]
          else ["boots"; "magic_wand"])%string;
       TimingWindow.objectives :=
         (if isAggressive
          then ["Laning"; "Early fights"; "Tower pressure"]
          else ["Laning"; "Last hitting"])%string |};
    {| TimingWindow.phase := mid;
       TimingWindow.start := 15;
       TimingWindow.end_ := 35;
       TimingWindow.powerLevel := calculateMidPower hero;
       TimingWindow.keyItems := ["blink_dagger"; "black_king_bar"]%string;
       TimingWindow.objectives := ["Team fights"; "Objectives"]%string |};
    {| TimingWindow.phase := late;
       TimingWindow.start := 35;
       TimingWindow.end_ := Js.max 60 expectedDuration;
       TimingWindow.powerLevel := calculateLatePower hero;
       TimingWindow.keyItems := ["luxury_items"]%string;
       TimingWindow.objectives := ["High ground"; "Ancient"]%string |} ].

End TimingAnalyzer.

(* ------------------------------------------------------------------ *)
(** ** ProSceneAnalyzer *)

Module ProSceneAnalyzer.

(** [hero.roles?.length || 1]. *)
Definition rolesLengthOr1 (hero : Hero) : Q :=
  Js.or_else (inject_Z (Z.of_nat (length (Hero.roles hero)))) 1.

Definition calculatePickOrder (hero : Hero) : Q := rolesLengthOr1 hero.

Definition calculateBanPriority (hero : Hero) : Q :=
  Js.min 10 (rolesLengthOr1 hero * 2).

Definition calculateFirstPickRate (hero : Hero) : Q :=
  if Js.includes (Hero.roles hero) "Support" then 0.3 else 0.1.

Definition complexHeroes : list string :=
  ["invoker"; "meepo"; "chen"; "visage"]%string.

Definition calculateSituationalRate (hero : Hero) : Q :=
  let rate := 0.4 in
  let rate := rate + rolesLengthOr1 hero * 0.1 in
  let rate :=
    if Js.includes complexHeroes (Hero.name hero) then rate + 0.2 else rate in
  Js.min 0.9 rate.

Definition getCommonPairings (hero : Hero) : list (Z * Q) :=
  (if Js.includes (Hero.roles hero) "Carry"
   then [(1%Z, 0.8); (2%Z, 0.7)] else [])
  ++ (if Js.includes (Hero.roles hero) "Support"
      then [(3%Z, 0.8); (4%Z, 0.7)] else []).

Definition getEffectiveCounters (hero : Hero) : list (Z * Q) :=
  (if AttackType_eqb (Hero.attack_type hero) Melee
   then [(5%Z, 0.7); (6%Z, 0.6)] else [])
  ++ (if Js.includes (Hero.roles hero) "Carry"
      then [(7%Z, 0.8); (8%Z, 0.7)] else []).

Definition analyzeProPatterns (hero : Hero) : ProPattern :=
  {| ProPattern.pickOrder := calculatePickOrder hero;
     ProPattern.banPriority := calculateBanPriority hero;
     ProPattern.firstPickRate := calculateFirstPickRate hero;
     ProPattern.situationalPickRate := calculateSituationalRate hero;
     ProPattern.pairings := getCommonPairings hero;
     ProPattern.counters := getEffectiveCounters hero |}.

End ProSceneAnalyzer.

(* ------------------------------------------------------------------ *)
(** ** AdvancedDraftAnalyzer *)

Module AdvancedDraftAnalyzer.

(** An instance of the class.  The methods of the five analyzers held in
    the private fields [mlPredictor], [itemAnalyzer], [laneOptimizer],
    [timingAnalyzer] and [proAnalyzer] are the calls the aggregator
    delegates; a delegated call may raise. *)
Record t : Type := mk {
  mlPredictor_predictTeamSynergy : list Hero -> Result Q;
  itemAnalyzer_generateItemBuilds :
    Hero -> GameContext -> Result (list ItemBuild);
  itemAnalyzer_calculateItemSynergy : Hero -> list Hero -> Result Q;
  laneOptimizer_optimizeLanes : list Hero -> Result (list LaneAssignment);
  timingAnalyzer_analyzeTimingWindows :
    Hero -> GameContext -> Result (list TimingWindow);
  proAnalyzer_analyzeProPatterns : Hero -> Result ProPattern;
  heroes : list Hero;
  heroStats : list HeroStats
}.

(** The constructor: the fields are initialised with fresh instances of
    the analyzer classes of the file, none of whose methods raises. *)
Definition new (heroes : list Hero) (heroStats : list HeroStats) : t :=
  {| mlPredictor_predictTeamSynergy :=
       fun hs => Ok (MLSynergyPredictor.predictTeamSynergy hs);
     itemAnalyzer_generateItemBuilds :=
       fun h gc => Ok (ItemBuildAnalyzer.generateItemBuilds h gc);
     itemAnalyzer_calculateItemSynergy :=
       fun h team => Ok (ItemBuildAnalyzer.calculateItemSynergy h team);
     laneOptimizer_optimizeLanes :=
       fun hs => Ok (LaneOptimizer.optimizeLanes hs);
     timingAnalyzer_analyzeTimingWindows :=
       fun h gc => Ok (TimingAnalyzer.analyzeTimingWindows h gc);
     proAnalyzer_analyzeProPatterns :=
       fun h => Ok (ProSceneAnalyzer.analyzeProPatterns h);
     heroes := heroes;
     heroStats := heroStats |}.

(** The object literal [weights] of [calculateTotalScore]. *)
Definition weights : list (string * Q) :=
  [ ("meta"%string, 0.15);
    ("counter"%string, 0.2);
    ("synergy"%string, 0.2);
    ("itemSynergy"%string, 0.15);
    ("laneOptimization"%string, 0.1);
    ("timing"%string, 0.1);
    ("proPattern"%string, 0.05);
    ("mlSynergy"%string, 0.05) ].

(** [weights[key]]; every key of a breakdown is in the table (a key
    outside it would make the product NaN, which [None] stands for). *)
Definition weight (key : string) : option Q :=
  option_map snd (List.find (fun kw => String.eqb (fst kw) key) weights).

(** The reducer of [calculateTotalScore]. *)
Definition addWeighted (total : Q) (entry : string * Q) : Q :=
  let '(key, value) := entry in
  match weight key with
  | Some w => total + value * w
  | None => total
  end.

Definition calculateTotalScore (breakdown : ScoreBreakdown) : Q :=
  fold_left addWeighted (ScoreBreakdown.entries breakdown) 0.

Definition generateReasons (hero : Hero) (breakdown : ScoreBreakdown)
  : list string :=
  let reason (value : Q) (text : string) : list string :=
    if Js.gt value 0.7 then [text] else [] in
  reason (ScoreBreakdown.counter breakdown)
    "Strong counter to enemy heroes"%string
  ++ reason (ScoreBreakdown.synergy breakdown)
       "Excellent synergy with team"%string
  ++ reason (ScoreBreakdown.itemSynergy breakdown)
       "Great item synergy potential"%string
  ++ reason (ScoreBreakdown.timing breakdown) "Perfect timing window"%string
  ++ reason (ScoreBreakdown.meta breakdown) "Currently meta"%string.

Definition matchesRoleFilter (hero : Hero) (roleFilter : list string)
  : bool :=
  existsb (fun role => Js.includes roleFilter role) (Hero.roles hero).

Definition metaHeroes : list string :=
  ["pudge"; "invoker"; "phantom_assassin"; "sniper"]%string.

Definition calculateMetaScore (hero : Hero) : Q :=
  if Js.includes metaHeroes (Hero.name hero) then 0.8 else 0.5.

Definition calculateCounterScore (hero : Hero) (enemyTeam : list Hero) : Q :=
  if (length enemyTeam =? 0)%nat then 0.5
  else
    let counterScore :=
      fold_left
        (fun counterScore enemy =>
           if AttackType_eqb (Hero.attack_type hero) Ranged
              && AttackType_eqb (Hero.attack_type enemy) Melee
           then counterScore + 0.1 else counterScore)
        enemyTeam 0 in
    Js.min 1 (counterScore + 0.5).

(** [h?.id === hero.id] inside [team.some(...)]. *)
Definition teamHas (team : list (option Hero)) (hero : Hero) : bool :=
  existsb
    (fun h : option Hero =>
       match h with
       | Some h => (Hero.id h =? Hero.id hero)%Z
       | None => false
       end)
    team.

Section Methods.
Variable self : t.

Definition calculateSynergyScore (hero : Hero) (yourTeam : list Hero)
  : Result Q :=
  if (length yourTeam =? 0)%nat then Ok 0.5
  else mlPredictor_predictTeamSynergy self (yourTeam ++ [hero]).

Definition calculateLaneOptimizationScore (hero : Hero)
  (yourTeam : list Hero) : Result Q :=
  assignments ← laneOptimizer_optimizeLanes self (yourTeam ++ [hero]);
  let heroAssignment :=
    List.find
      (fun a => (Hero.id (LaneAssignment.hero a) =? Hero.id hero)%Z)
      assignments in
  mret match heroAssignment with
       | Some a => Js.or_else (LaneAssignment.confidence a) 0.5
       | None => 0.5
       end.

(** The timing analyzer of the file always returns three windows, so the
    divisor [windows.length] is 3. *)
Definition calculateTimingScore (hero : Hero) (gameContext : GameContext)
  : Result Q :=
  windows ← timingAnalyzer_analyzeTimingWindows self hero gameContext;
  let avgPower :=
    fold_left (fun sum w => sum + TimingWindow.powerLevel w) windows 0
    / inject_Z (Z.of_nat (length windows)) in
  mret avgPower.

Definition calculateProPatternScore (hero : Hero) : Result Q :=
  patterns ← proAnalyzer_analyzeProPatterns self hero;
  mret ((ProPattern.firstPickRate patterns
         + ProPattern.situationalPickRate patterns) / 2).

(** The fields of the returned literal are evaluated in source order. *)
Definition calculateAdvancedScore (hero : Hero) (draftState : DraftState)
  (gameContext : GameContext) : Result ScoreBreakdown :=
  let yourTeam := pickedHeroes (DraftState.yourTeam draftState) in
  let enemyTeam := pickedHeroes (DraftState.enemyTeam draftState) in
  let meta := calculateMetaScore hero in
  let counter := calculateCounterScore hero enemyTeam in
  synergy ← calculateSynergyScore hero yourTeam;
  itemSynergy ← itemAnalyzer_calculateItemSynergy self hero yourTeam;
  laneOptimization ← calculateLaneOptimizationScore hero yourTeam;
  timing ← calculateTimingScore hero gameContext;
  proPattern ← calculateProPatternScore hero;
  mlSynergy ← mlPredictor_predictTeamSynergy self (yourTeam ++ [hero]);
  mret {| ScoreBreakdown.meta := meta;
          ScoreBreakdown.counter := counter;
          ScoreBreakdown.synergy := synergy;
          ScoreBreakdown.itemSynergy := itemSynergy;
          ScoreBreakdown.laneOptimization := laneOptimization;
          ScoreBreakdown.timing := timing;
          ScoreBreakdown.proPattern := proPattern;
          ScoreBreakdown.mlSynergy := mlSynergy |}.

(** The predicate of [this.heroes.filter]. *)
Definition isAvailable (draftState : DraftState)
  (roleFilter : option (list string)) (hero : Hero) : bool :=
  negb (teamHas (DraftState.yourTeam draftState) hero)
  && negb (teamHas (DraftState.enemyTeam draftState) hero)
  && match roleFilter with
     | None => true
     | Some roleFilter =>
         (length roleFilter =? 0)%nat || matchesRoleFilter hero roleFilter
     end.

(** The callback of [availableHeroes.map]. *)
Definition suggest (draftState : DraftState) (gameContext : GameContext)
  (hero : Hero) : Result AdvancedSuggestion :=
  breakdown ← calculateAdvancedScore hero draftState gameContext;
  let totalScore := calculateTotalScore breakdown in
  let reasons := generateReasons hero breakdown in
  itemSynergy ← itemAnalyzer_generateItemBuilds self hero gameContext;
  laneOptimization ←
    laneOptimizer_optimizeLanes self
      (pickedHeroes (DraftState.yourTeam draftState) ++ [hero]);
  timingWindows ← timingAnalyzer_analyzeTimingWindows self hero gameContext;
  proPatterns ← proAnalyzer_analyzeProPatterns self hero;
  mret {| AdvancedSuggestion.hero := hero;
          AdvancedSuggestion.score := totalScore;
          AdvancedSuggestion.reasons := reasons;
          AdvancedSuggestion.breakdown := breakdown;
          AdvancedSuggestion.itemSynergy := itemSynergy;
          AdvancedSuggestion.laneOptimization := laneOptimization;
          AdvancedSuggestion.timingWindows := timingWindows;
          AdvancedSuggestion.proPatterns := proPatterns |}.

Definition generateAdvancedSuggestions (draftState : DraftState)
  (gameContext : GameContext) (roleFilter : option (list string))
  : Result (list AdvancedSuggestion) :=
  let availableHeroes :=
    List.filter (isAvailable draftState roleFilter) (heroes self) in
  suggestions ← mapM (suggest draftState gameContext) availableHeroes;
  mret (Js.slice0 (Js.sortDesc AdvancedSuggestion.score suggestions) 10).

Definition popularHeroes : list string :=
  ["pudge"; "invoker"; "phantom_assassin"]%string.

Definition recentlyUpdated : list string :=
  ["dawnbreaker"; "marci"; "primal_beast"]%string.

Definition calculatePatchTrend (hero : Hero) : Q :=
  let trend := 0.5 in
  let trend :=
    if Js.includes popularHeroes (Hero.name hero) then trend + 0.2
    else trend in
  let trend :=
    if Js.includes recentlyUpdated (Hero.name hero) then trend + 0.3
    else trend in
  Js.min 1 trend.

Definition strongMetaHeroes : list string :=
  ["pudge"; "sniper"; "phantom_assassin"; "invoker"]%string.

Definition calculateMetaPosition (hero : Hero) : Q :=
  let position := 0.5 in
  let position :=
    if Js.includes strongMetaHeroes (Hero.name hero) then position + 0.3
    else position in
  let position :=
    if Js.includes (Hero.roles hero) "Carry" then position + 0.1
    else position in
  let position :=
    if Js.includes (Hero.roles hero) "Support" then position + 0.05
    else position in
  Js.min 1 position.

(** [(hero.roles?.length || 1) / 5]. *)
Definition calculateAdaptability (hero : Hero) : Q :=
  Js.or_else (inject_Z (Z.of_nat (length (Hero.roles hero)))) 1 / 5.

Definition analyzeHero (hero : Hero) (gameContext : GameContext)
  : Result AdvancedHeroAnalysis :=
  itemBuilds ← itemAnalyzer_generateItemBuilds self hero gameContext;
  laneFlexibility ← laneOptimizer_optimizeLanes self [hero];
  timingWindows ← timingAnalyzer_analyzeTimingWindows self hero gameContext;
  proPatterns ← proAnalyzer_analyzeProPatterns self hero;
  mlSynergyScore ← mlPredictor_predictTeamSynergy self [hero];
  mret {| AdvancedHeroAnalysis.hero := hero;
          AdvancedHeroAnalysis.itemBuilds := itemBuilds;
          AdvancedHeroAnalysis.laneFlexibility := laneFlexibility;
          AdvancedHeroAnalysis.timingWindows := timingWindows;
          AdvancedHeroAnalysis.proPatterns := proPatterns;
          AdvancedHeroAnalysis.mlSynergyScore := mlSynergyScore;
          AdvancedHeroAnalysis.contextualFactors :=
            {| ContextualFactors.patchTrend := calculatePatchTrend hero;
               ContextualFactors.metaPosition := calculateMetaPosition hero;
               ContextualFactors.adaptability :=
                 calculateAdaptability hero |} |}.

End Methods.

End AdvancedDraftAnalyzer.

(* ------------------------------------------------------------------ *)
(** ** DraftAnalyzerIntegration *)

Module DraftAnalyzerIntegration.

Record t : Type := mk {
  advancedAnalyzer : AdvancedDraftAnalyzer.t
}.

Definition new (heroes : list Hero) (heroStats : list HeroStats) : t :=
  {| advancedAnalyzer := AdvancedDraftAnalyzer.new heroes heroStats |}.

(** The [options] argument of [getEnhancedRecommendations]. *)
Module Options.
Record t : Type := mk {
  gameContext : option GameContext;
  roleFilter : option (list string);
  includeItemBuilds : option bool;
  includeLaneOptimization : option bool;
  includeTimingAnalysis : option bool;
  includeProPatterns : option bool
}.
End Options.

Definition noProPatterns : ProPattern :=
  {| ProPattern.pickOrder := 0;
     ProPattern.banPriority := 0;
     ProPattern.firstPickRate := 0;
     ProPattern.situationalPickRate := 0;
     ProPattern.pairings := [];
     ProPattern.counters := [] |}.

Definition getEnhancedRecommendations (self : t) (draftState : DraftState)
  (options : Options.t) : Result (list AdvancedSuggestion) :=
  let gameContext :=
    default GameContext.empty (Options.gameContext options) in
  let roleFilter := Options.roleFilter options in
  let includeItemBuilds := default true (Options.includeItemBuilds options) in
  let includeLaneOptimization :=
    default true (Options.includeLaneOptimization options) in
  let includeTimingAnalysis :=
    default true (Options.includeTimingAnalysis options) in
  let includeProPatterns :=
    default true (Options.includeProPatterns options) in
  try_catch
    (suggestions ←
       AdvancedDraftAnalyzer.generateAdvancedSuggestions
         (advancedAnalyzer self) draftState gameContext roleFilter;
     mret
       (map
          (fun suggestion =>
             {| AdvancedSuggestion.hero :=
                  AdvancedSuggestion.hero suggestion;
                AdvancedSuggestion.score :=
                  AdvancedSuggestion.score suggestion;
                AdvancedSuggestion.reasons :=
                  AdvancedSuggestion.reasons suggestion;
                AdvancedSuggestion.breakdown :=
                  AdvancedSuggestion.breakdown suggestion;
                AdvancedSuggestion.itemSynergy :=
                  if includeItemBuilds
                  then AdvancedSuggestion.itemSynergy suggestion else [];
                AdvancedSuggestion.laneOptimization :=
                  if includeLaneOptimization
                  then AdvancedSuggestion.laneOptimization suggestion
                  else [];
                AdvancedSuggestion.timingWindows :=
                  if includeTimingAnalysis
                  then AdvancedSuggestion.timingWindows suggestion else [];
                AdvancedSuggestion.proPatterns :=
                  if includeProPatterns
                  then AdvancedSuggestion.proPatterns suggestion
                  else noProPatterns |})
          suggestions))
    (fun _ => Ok []).

(** The default [options = {}]. *)
Definition noOptions : Options.t :=
  {| Options.gameContext := None;
     Options.roleFilter := None;
     Options.includeItemBuilds := None;
     Options.includeLaneOptimization := None;
     Options.includeTimingAnalysis := None;
     Options.includeProPatterns := None |}.

Definition analyzeHeroInDepth (self : t) (hero : Hero)
  (gameContext : GameContext) : Result (option AdvancedHeroAnalysis) :=
  try_catch
    (analysis ←
       AdvancedDraftAnalyzer.analyzeHero (advancedAnalyzer self)
         hero gameContext;
     mret (Some analysis))
    (fun _ => Ok None).

(** The [switch] of [getContextForScenario]. *)
Definition getContextForScenario (scenario : string) : GameContext :=
  let context (d : Q) (p : Playstyle) (i : ItemStrategy.t) : GameContext :=
    {| GameContext.expectedDuration := Some d;
       GameContext.preferredLanes := None;
       GameContext.playstyle := Some p;
       GameContext.itemStrategy := Some i |} in
  if String.eqb scenario "early_game"
  then context 25 aggressive ItemStrategy.early
  else if String.eqb scenario "late_game"
  then context 60 defensive ItemStrategy.scaling
  else if String.eqb scenario "team_fight"
  then context 40 aggressive ItemStrategy.utility
  else if String.eqb scenario "push_strategy"
  then context 35 aggressive ItemStrategy.early
  else if String.eqb scenario "defensive"
  then context 50 defensive ItemStrategy.utility
  else GameContext.empty.

Definition getScenarioRecommendations (self : t) (draftState : DraftState)
  (scenario : string) : Result (list AdvancedSuggestion) :=
  let gameContext := getContextForScenario scenario in
  getEnhancedRecommendations self draftState
    {| Options.gameContext := Some gameContext;
       Options.roleFilter := None;
       Options.includeItemBuilds := Some true;
       Options.includeLaneOptimization := Some true;
       Options.includeTimingAnalysis := Some true;
       Options.includeProPatterns := Some false |}.

(** [reasons.some((reason) => reason.toLowerCase().includes(text))]. *)
Definition someReasonIncludes (reasons : list string) (text : string)
  : bool :=
  existsb (fun reason => Js.includesSub (Js.toLowerCase reason) text) reasons.

(** The filter of [getCounterPickRecommendations]. *)
Definition isCounterPick (targetEnemyHero : Hero)
  (suggestion : AdvancedSuggestion) : bool :=
  let reasons := AdvancedSuggestion.reasons suggestion in
  let isGoodCounter :=
    Js.gt (ScoreBreakdown.counter (AdvancedSuggestion.breakdown suggestion))
      0.6 in
  let hasCounterReason := someReasonIncludes reasons "counter" in
  let targetEnemyName :=
    Js.toLowerCase (Hero.localized_name targetEnemyHero) in
  let mentionsTarget :=
    existsb
      (fun reason =>
         Js.includesSub (Js.toLowerCase reason) targetEnemyName
         || Js.includesSub (Js.toLowerCase reason) "effective vs")
      reasons in
  isGoodCounter || hasCounterReason || mentionsTarget.

Definition counterOf (suggestion : AdvancedSuggestion) : Q :=
  ScoreBreakdown.counter (AdvancedSuggestion.breakdown suggestion).

Definition getCounterPickRecommendations (self : t) (draftState : DraftState)
  (targetEnemyHero : Hero) : Result (list AdvancedSuggestion) :=
  suggestions ←
    getEnhancedRecommendations self draftState
      {| Options.gameContext := None;
         Options.roleFilter := None;
         Options.includeItemBuilds := None;
         Options.includeLaneOptimization := None;
         Options.includeTimingAnalysis := None;
         Options.includeProPatterns := Some true |};
  mret (Js.slice0
          (Js.sortDesc counterOf
             (List.filter (isCounterPick targetEnemyHero) suggestions))
          5).

(** The filter and the sort key of [getSynergyRecommendations]. *)
Definition hasSynergy (focusHero : option Hero)
  (suggestion : AdvancedSuggestion) : bool :=
  let breakdown := AdvancedSuggestion.breakdown suggestion in
  let hasSynergy :=
    Js.gt (ScoreBreakdown.synergy breakdown) 0.6
    || Js.gt (ScoreBreakdown.mlSynergy breakdown) 0.6
    || Js.gt (ScoreBreakdown.itemSynergy breakdown) 0.6 in
  match focusHero with
  | Some _ =>
      hasSynergy
      || someReasonIncludes (AdvancedSuggestion.reasons suggestion) "synerg"
  | None => hasSynergy
  end.

Definition synergyTotal (suggestion : AdvancedSuggestion) : Q :=
  let breakdown := AdvancedSuggestion.breakdown suggestion in
  ScoreBreakdown.synergy breakdown + ScoreBreakdown.mlSynergy breakdown
  + ScoreBreakdown.itemSynergy breakdown.

Definition getSynergyRecommendations (self : t) (draftState : DraftState)
  (focusHero : option Hero) : Result (list AdvancedSuggestion) :=
  suggestions ←
    getEnhancedRecommendations self draftState
      {| Options.gameContext := None;
         Options.roleFilter := None;
         Options.includeItemBuilds := Some true;
         Options.includeLaneOptimization := Some true;
         Options.includeTimingAnalysis := None;
         Options.includeProPatterns := None |};
  mret (Js.slice0
          (Js.sortDesc synergyTotal
             (List.filter (hasSynergy focusHero) suggestions))
          5).

(** [suggestion.laneOptimization.find((la) => la.hero.id ===
    suggestion.hero.id)]. *)
Definition ownAssignment (suggestion : AdvancedSuggestion)
  : option LaneAssignment :=
  List.find
    (fun la =>
       (Hero.id (LaneAssignment.hero la)
        =? Hero.id (AdvancedSuggestion.hero suggestion))%Z)
    (AdvancedSuggestion.laneOptimization suggestion).

(** The filter and the sort key of [getLaneRecommendations]. *)
Definition fitsLane (lane : Z) (suggestion : AdvancedSuggestion) : bool :=
  match ownAssignment suggestion with
  | Some laneAssignment =>
      (LaneAssignment.position laneAssignment =? lane)%Z
      && Js.gt (LaneAssignment.confidence laneAssignment) 0.6
  | None => false
  end.

Definition laneConfidence (suggestion : AdvancedSuggestion) : Q :=
  match ownAssignment suggestion with
  | Some la => Js.or_else (LaneAssignment.confidence la) 0
  | None => 0
  end.

Definition getLaneRecommendations (self : t) (draftState : DraftState)
  (lane : Z) : Result (list AdvancedSuggestion) :=
  suggestions ←
    getEnhancedRecommendations self draftState
      {| Options.gameContext := None;
         Options.roleFilter := None;
         Options.includeItemBuilds := None;
         Options.includeLaneOptimization := Some true;
         Options.includeTimingAnalysis := Some true;
         Options.includeProPatterns := None |};
  mret (Js.slice0
          (Js.sortDesc laneConfidence
             (List.filter (fitsLane lane) suggestions))
          5).

(** The game context that [getTimingRecommendations] builds. *)
Definition contextForPhase (targetPhase : Phase) : GameContext :=
  {| GameContext.expectedDuration :=
       Some match targetPhase with early => 25 | mid => 40 | late => 60 end;
     GameContext.preferredLanes := None;
     GameContext.playstyle :=
       Some match targetPhase with early => aggressive | _ => balanced end;
     GameContext.itemStrategy :=
       Some match targetPhase with
            | early => ItemStrategy.early
            | late => ItemStrategy.scaling
            | mid => ItemStrategy.utility
            end |}.

(** [suggestion.timingWindows.find((w) => w.phase === targetPhase)]. *)
Definition windowOf (targetPhase : Phase) (suggestion : AdvancedSuggestion)
  : option TimingWindow :=
  List.find
    (fun w => Phase_eqb (TimingWindow.phase w) targetPhase)
    (AdvancedSuggestion.timingWindows suggestion).

(** The filter and the sort key of [getTimingRecommendations]. *)
Definition strongIn (targetPhase : Phase) (suggestion : AdvancedSuggestion)
  : bool :=
  match windowOf targetPhase suggestion with
  | Some targetWindow => Js.gt (TimingWindow.powerLevel targetWindow) 0.6
  | None => false
  end.

Definition powerIn (targetPhase : Phase) (suggestion : AdvancedSuggestion)
  : Q :=
  match windowOf targetPhase suggestion with
  | Some w => Js.or_else (TimingWindow.powerLevel w) 0
  | None => 0
  end.

Definition getTimingRecommendations (self : t) (draftState : DraftState)
  (targetPhase : Phase) : Result (list AdvancedSuggestion) :=
  let gameContext := contextForPhase targetPhase in
  suggestions ←
    getEnhancedRecommendations self draftState
      {| Options.gameContext := Some gameContext;
         Options.roleFilter := None;
         Options.includeItemBuilds := Some true;
         Options.includeLaneOptimization := None;
         Options.includeTimingAnalysis := Some true;
         Options.includeProPatterns := None |};
  mret (Js.slice0
          (Js.sortDesc (powerIn targetPhase)
             (List.filter (strongIn targetPhase) suggestions))
          5).

End DraftAnalyzerIntegration.

(* ------------------------------------------------------------------ *)
(** ** opendota.ts *)

Module OpenDota.

Definition calculateWinRate (wins games : Q) : Q :=
  if Qeq_bool games 0 then 0
  else Js.toFixed2 ((wins / games) * 100).

End OpenDota.

(* ------------------------------------------------------------------ *)
(** ** DraftAnalyzer (draft-logic.ts) *)

Module DraftAnalyzer.

Record t : Type := mk {
  heroes : list Hero;
  heroStats : list HeroStats;
  matchupData : gmap Z (list HeroMatchupData);
  integration : DraftAnalyzerIntegration.t
}.

Definition new (heroes : list Hero) (heroStats : list HeroStats) : t :=
  {| heroes := heroes;
     heroStats := heroStats;
     matchupData := ∅;
     integration := DraftAnalyzerIntegration.new heroes heroStats |}.

Definition setMatchupData (self : t) (heroId : Z)
  (matchups : list HeroMatchupData) : t :=
  {| heroes := heroes self;
     heroStats := heroStats self;
     matchupData := <[ heroId := matchups ]> (matchupData self);
     integration := integration self |}.

Definition getConfidenceLevel (score : Q) (enemyPickCount : nat)
  : Confidence :=
  if (4 <=? enemyPickCount)%nat && Js.gt score 70 then high
  else if (2 <=? enemyPickCount)%nat && Js.gt score 60 then medium
  else low.

Section Methods.
Variable self : t.

Definition findStat (heroId : Z) : option HeroStats :=
  List.find (fun stat => (HeroStats.id stat =? heroId)%Z) (heroStats self).

Definition getMetaScore (heroId : Z) : Q :=
  match findStat heroId with
  | None => 50
  | Some heroStat =>
      let currentWinRate :=
        OpenDota.calculateWinRate
          (HeroStats.pub_win heroStat) (HeroStats.pub_pick heroStat) in
      let normalizedWinRate := ((currentWinRate - 45) / 10) * 100 in
      let totalPicks :=
        fold_left
          (fun sum key => sum + HeroStats.pickCount heroStat key)
          (List.filter (fun key => Js.endsWith key "_pick") HeroStats.keys)
          0 in
      let normalizedPickRate :=
        Js.min
          ((HeroStats.pub_pick heroStat / Js.max totalPicks 1) * 100) 100 in
      Js.max 0 (Js.min 100 ((normalizedWinRate + normalizedPickRate) / 2))
  end.

(** The loop of [getCounterScore], one enemy at a time, on the two
    accumulators [totalScore] and [validMatchups]. *)
Definition counterStep (matchups : list HeroMatchupData)
  (acc : Q * nat) (enemy : Hero) : Q * nat :=
  let '(totalScore, validMatchups) := acc in
  match
    List.find
      (fun m => (HeroMatchupData.hero_id m =? Hero.id enemy)%Z) matchups
  with
  | Some matchup =>
      if Js.gt (HeroMatchupData.games_played matchup) 10
      then
        let winRate :=
          OpenDota.calculateWinRate
            (HeroMatchupData.wins matchup)
            (HeroMatchupData.games_played matchup) in
        (totalScore + winRate, S validMatchups)
      else acc
  | None => acc
  end.

Definition getCounterScore (heroId : Z) (enemyHeroes : list Hero) : Q :=
  if (length enemyHeroes =? 0)%nat then 50
  else
    match matchupData self !! heroId with
    | None => 50
    | Some matchups =>
        let '(totalScore, validMatchups) :=
          fold_left (counterStep matchups) enemyHeroes (0, O) in
        if (0 <? validMatchups)%nat
        then totalScore / inject_Z (Z.of_nat validMatchups)
        else 50
    end.

Definition getSynergyScore (heroId : Z) (teamHeroes : list Hero) : Q :=
  if (length teamHeroes =? 0)%nat then 50
  else
    match List.find (fun h => (Hero.id h =? heroId)%Z) (heroes self) with
    | None => 50
    | Some hero =>
        let heroRoles := Hero.roles hero in
        let teamRoles := flat_map Hero.roles teamHeroes in
        let bonus (mine theirs : string) (d : Q) (s : Q) : Q :=
          if Js.includes heroRoles mine && Js.includes teamRoles theirs
          then s + d else s in
        let synergyScore := 50 in
        let synergyScore :=
          bonus "Support"%string "Carry"%string 10 synergyScore in
        let synergyScore :=
          bonus "Initiator"%string "Nuker"%string 8 synergyScore in
        let synergyScore :=
          bonus "Disabler"%string "Carry"%string 6 synergyScore in
        let roleOverlap :=
          length
            (List.filter (fun role => Js.includes teamRoles role)
               heroRoles) in
        let synergyScore :=
          synergyScore - inject_Z (Z.of_nat roleOverlap) * 5 in
        Js.max 0 (Js.min 100 synergyScore)
    end.

Definition getProScore (heroId : Z) : Q :=
  match findStat heroId with
  | None => 50
  | Some heroStat =>
      let totalPicks :=
        HeroStats.pub_pick heroStat + HeroStats.pro_pick heroStat
        + HeroStats.turbo_picks heroStat in
      let pickRate :=
        if Js.gt totalPicks 0
        then (HeroStats.pub_pick heroStat / totalPicks) * 100 else 50 in
      Js.min pickRate 100
  end.

Definition generateReasoning (hero : Hero)
  (enemyHeroes teamHeroes : list Hero)
  (metaScore counterScore synergyScore proScore : Q)
  : list string * list string * list string :=
  let meta :=
    if Js.gt metaScore 70 then ["Strong in current meta"%string]
    else if Js.lt metaScore 40
         then ["Below average meta performance"%string]
         else [] in
  let counter :=
    if Js.gt counterScore 65
    then ["Good matchups against enemy picks"%string]
    else if Js.lt counterScore 45
         then ["Difficult matchups against enemy team"%string]
         else [] in
  let counters :=
    if Js.gt counterScore 65
    then map
           (fun enemy =>
              String.append "Effective vs " (Hero.localized_name enemy))
           enemyHeroes
    else [] in
  let synergy :=
    if Js.gt synergyScore 60
    then ["Good synergy with team composition"%string] else [] in
  let synergies :=
    if Js.gt synergyScore 60
    then map
           (fun teammate =>
              String.append "Synergizes with "
                (Hero.localized_name teammate))
           teamHeroes
    else [] in
  let role (r text : string) : list string :=
    if Js.includes (Hero.roles hero) r then [text] else [] in
  (meta ++ counter ++ synergy
   ++ role "Carry"%string "Strong late-game potential"%string
   ++ role "Support"%string "Provides team utility"%string
   ++ role "Initiator"%string "Good team fight initiation"%string,
   counters, synergies).

Definition winRateOf (heroId : Z) : Q :=
  match findStat heroId with
  | Some heroStat =>
      OpenDota.calculateWinRate
        (HeroStats.pub_win heroStat) (HeroStats.pub_pick heroStat)
  | None => 50
  end.

Definition calculateHeroScore (hero : Hero) (draftState : DraftState)
  : DraftSuggestion :=
  let enemyHeroes := pickedHeroes (DraftState.enemyTeam draftState) in
  let teamHeroes := pickedHeroes (DraftState.yourTeam draftState) in
  let metaScore := getMetaScore (Hero.id hero) in
  let counterScore := getCounterScore (Hero.id hero) enemyHeroes in
  let synergyScore := getSynergyScore (Hero.id hero) teamHeroes in
  let proScore := getProScore (Hero.id hero) in
  let finalScore :=
    metaScore * 0.2 + counterScore * 0.4 + synergyScore * 0.3
    + proScore * 0.1 in
  let confidence := getConfidenceLevel finalScore (length enemyHeroes) in
  let '(positive, counters, synergies) :=
    generateReasoning hero enemyHeroes teamHeroes
      metaScore counterScore synergyScore proScore in
  {| DraftSuggestion.hero := hero;
     DraftSuggestion.score := Js.round finalScore;
     DraftSuggestion.win_rate := winRateOf (Hero.id hero);
     DraftSuggestion.confidence := confidence;
     DraftSuggestion.reasoning := positive;
     DraftSuggestion.counters := counters;
     DraftSuggestion.synergies := synergies |}.

(** [new Set([...yourTeam ids, ...enemyTeam ids])]. *)
Definition pickedIds (draftState : DraftState) : gset Z :=
  list_to_set
    (map Hero.id (pickedHeroes (DraftState.yourTeam draftState))
     ++ map Hero.id (pickedHeroes (DraftState.enemyTeam draftState))).

(** The test of the [for] loop that lets a hero through the role
    filter. *)
Definition passesRoleFilter (roleFilter : option (list string))
  (hero : Hero) : bool :=
  match roleFilter with
  | None => true
  | Some roleFilter =>
      if (0 <? length roleFilter)%nat
      then existsb
             (fun filterRole => Js.includes (Hero.roles hero) filterRole)
             roleFilter
      else true
  end.

Definition generateSuggestions (draftState : DraftState)
  (roleFilter : option (list string)) (limit : option Z)
  : list DraftSuggestion :=
  let limit := default 10%Z limit in
  let pickedHeroes := pickedIds draftState in
  let availableHeroes :=
    List.filter
      (fun hero => negb (bool_decide (Hero.id hero ∈ pickedHeroes)))
      (heroes self) in
  let suggestions :=
    map (fun hero => calculateHeroScore hero draftState)
      (List.filter (passesRoleFilter roleFilter) availableHeroes) in
  Js.slice0 (Js.sortDesc DraftSuggestion.score suggestions) limit.

Definition neutralBreakdown : ScoreBreakdown :=
  {| ScoreBreakdown.meta := 0.5;
     ScoreBreakdown.counter := 0.5;
     ScoreBreakdown.synergy := 0.5;
     ScoreBreakdown.itemSynergy := 0.5;
     ScoreBreakdown.laneOptimization := 0.5;
     ScoreBreakdown.timing := 0.5;
     ScoreBreakdown.proPattern := 0.5;
     ScoreBreakdown.mlSynergy := 0.5 |}.

(** The callback of [advancedSuggestions.map]. *)
Definition convert (suggestion : AdvancedSuggestion)
  : AdvancedDraftSuggestion :=
  let hero := AdvancedSuggestion.hero suggestion in
  let score := AdvancedSuggestion.score suggestion in
  let breakdown := AdvancedSuggestion.breakdown suggestion in
  {| AdvancedDraftSuggestion.base :=
       {| DraftSuggestion.hero := hero;
          DraftSuggestion.score := score;
          DraftSuggestion.win_rate := winRateOf (Hero.id hero);
          DraftSuggestion.confidence :=
            if Js.gt score 0.8 then high
            else if Js.gt score 0.6 then medium else low;
          DraftSuggestion.reasoning :=
            AdvancedSuggestion.reasons suggestion;
          DraftSuggestion.counters := [];
          DraftSuggestion.synergies := [] |};
     AdvancedDraftSuggestion.advancedBreakdown :=
       {| ScoreBreakdown.meta := ScoreBreakdown.meta breakdown;
          ScoreBreakdown.counter := ScoreBreakdown.counter breakdown;
          ScoreBreakdown.synergy := ScoreBreakdown.synergy breakdown;
          ScoreBreakdown.itemSynergy :=
            ScoreBreakdown.itemSynergy breakdown;
          ScoreBreakdown.laneOptimization :=
            ScoreBreakdown.laneOptimization breakdown;
          ScoreBreakdown.timing := ScoreBreakdown.timing breakdown;
          ScoreBreakdown.proPattern := ScoreBreakdown.proPattern breakdown;
          ScoreBreakdown.mlSynergy := ScoreBreakdown.mlSynergy breakdown |};
     AdvancedDraftSuggestion.itemRecommendations :=
       match AdvancedSuggestion.itemSynergy suggestion with
       | build :: _ => ItemBuild.items build
       | [] => []
       end;
     AdvancedDraftSuggestion.optimalLane :=
       match
         List.find
           (fun la => (Hero.id (LaneAssignment.hero la) =? Hero.id hero)%Z)
           (AdvancedSuggestion.laneOptimization suggestion)
       with
       | Some la =>
           if (LaneAssignment.position la =? 0)%Z then 1%Z
           else LaneAssignment.position la
       | None => 1%Z
       end;
     AdvancedDraftSuggestion.timingWindow :=
       match AdvancedSuggestion.timingWindows suggestion with
       | first :: rest =>
           TimingWindow.phase
             (fold_left
                (fun best current =>
                   if Js.gt (TimingWindow.powerLevel current)
                        (TimingWindow.powerLevel best)
                   then current else best)
                rest first)
       | [] => mid
       end;
     AdvancedDraftSuggestion.proPickRate :=
       ProPattern.firstPickRate (AdvancedSuggestion.proPatterns suggestion)
       + ProPattern.situationalPickRate
           (AdvancedSuggestion.proPatterns suggestion) |}.

(** The callback of the fallback's [map]. *)
Definition degrade (suggestion : DraftSuggestion)
  : AdvancedDraftSuggestion :=
  {| AdvancedDraftSuggestion.base := suggestion;
     AdvancedDraftSuggestion.advancedBreakdown := neutralBreakdown;
     AdvancedDraftSuggestion.itemRecommendations := [];
     AdvancedDraftSuggestion.optimalLane := 1%Z;
     AdvancedDraftSuggestion.timingWindow := mid;
     AdvancedDraftSuggestion.proPickRate := 0.3 |}.

Definition generateAdvancedSuggestions (draftState : DraftState)
  (gameContext : option GameContext) (roleFilter : option (list string))
  (limit : option Z) : Result (list AdvancedDraftSuggestion) :=
  let gameContext := default GameContext.empty gameContext in
  let limit := default 10%Z limit in
  try_catch
    (let advancedContext :=
       {| GameContext.expectedDuration :=
            GameContext.expectedDuration gameContext;
          GameContext.preferredLanes :=
            GameContext.preferredLanes gameContext;
          GameContext.playstyle := GameContext.playstyle gameContext;
          GameContext.itemStrategy :=
            GameContext.itemStrategy gameContext |} in
     advancedSuggestions ←
       DraftAnalyzerIntegration.getEnhancedRecommendations
         (integration self) draftState
         {| DraftAnalyzerIntegration.Options.gameContext :=
              Some advancedContext;
            DraftAnalyzerIntegration.Options.roleFilter := roleFilter;
            DraftAnalyzerIntegration.Options.includeItemBuilds :=
              Some true;
            DraftAnalyzerIntegration.Options.includeLaneOptimization :=
              Some true;
            DraftAnalyzerIntegration.Options.includeTimingAnalysis :=
              Some true;
            DraftAnalyzerIntegration.Options.includeProPatterns :=
              Some true |};
     let convertedSuggestions := map convert advancedSuggestions in
     mret (Js.slice0 convertedSuggestions limit))
    (fun _ =>
       Ok (map degrade (generateSuggestions draftState roleFilter
                          (Some limit)))).

(** The callback of the [map] in [getCounterPickSuggestions] and its three
    siblings: like [convert], with the breakdown object shared. *)
Definition convertShared (suggestion : AdvancedSuggestion)
  : AdvancedDraftSuggestion :=
  {| AdvancedDraftSuggestion.base :=
       AdvancedDraftSuggestion.base (convert suggestion);
     AdvancedDraftSuggestion.advancedBreakdown :=
       AdvancedSuggestion.breakdown suggestion;
     AdvancedDraftSuggestion.itemRecommendations :=
       AdvancedDraftSuggestion.itemRecommendations (convert suggestion);
     AdvancedDraftSuggestion.optimalLane :=
       AdvancedDraftSuggestion.optimalLane (convert suggestion);
     AdvancedDraftSuggestion.timingWindow :=
       AdvancedDraftSuggestion.timingWindow (convert suggestion);
     AdvancedDraftSuggestion.proPickRate :=
       AdvancedDraftSuggestion.proPickRate (convert suggestion) |}.

Definition getCounterPickSuggestions (draftState : DraftState)
  (targetEnemyHero : Hero) : Result (list AdvancedDraftSuggestion) :=
  suggestions ←
    DraftAnalyzerIntegration.getCounterPickRecommendations
      (integration self) draftState targetEnemyHero;
  mret (map convertShared suggestions).

Definition getSynergyPickSuggestions (draftState : DraftState)
  : Result (list AdvancedDraftSuggestion) :=
  suggestions ←
    DraftAnalyzerIntegration.getSynergyRecommendations
      (integration self) draftState None;
  mret (map convertShared suggestions).

Definition getLaneSpecificSuggestions (draftState : DraftState) (lane : Z)
  : Result (list AdvancedDraftSuggestion) :=
  suggestions ←
    DraftAnalyzerIntegration.getLaneRecommendations
      (integration self) draftState lane;
  mret (map convertShared suggestions).

Definition getTimingBasedSuggestions (draftState : DraftState)
  (targetPhase : Phase) : Result (list AdvancedDraftSuggestion) :=
  suggestions ←
    DraftAnalyzerIntegration.getTimingRecommendations
      (integration self) draftState targetPhase;
  mret (map convertShared suggestions).

(** *** The private scorers on the 0 to 100 scale *)

Definition getOptimalLane (hero : Hero) : Z :=
  if Js.includes (Hero.roles hero) "Carry" then 1%Z
  else if Js.includes (Hero.roles hero) "Support" then 5%Z
  else if Js.includes (Hero.roles hero) "Initiator" then 3%Z
  else if PrimaryAttr_eqb (Hero.primary_attr hero) int then 2%Z
  else 4%Z.

Definition getTimingWindow (hero : Hero) (gameContext : GameContext)
  : Phase :=
  if Js.includes (Hero.roles hero) "Support"
     || Js.includes (Hero.roles hero) "Disabler"
  then early
  else if Js.includes (Hero.roles hero) "Carry"
  then match GameContext.itemStrategy gameContext with
       | Some ItemStrategy.early => mid
       | _ => late
       end
  else mid.

Definition getItemRecommendations (hero : Hero) (gameContext : GameContext)
  : list string :=
  let strategyIs (i : ItemStrategy.t) : bool :=
    match GameContext.itemStrategy gameContext, i with
    | Some ItemStrategy.early, ItemStrategy.early
    | Some ItemStrategy.scaling, ItemStrategy.scaling
    | Some ItemStrategy.utility, ItemStrategy.utility => true
    | _, _ => false
    end in
  let items :=
    if Js.includes (Hero.roles hero) "Carry"
    then ["Power Treads"%string; "Battle Fury"%string;
          "Black King Bar"%string]
         ++ (if strategyIs ItemStrategy.scaling
             then ["Heart of Tarrasque"%string; "Satanic"%string] else [])
    else if Js.includes (Hero.roles hero) "Support"
    then ["Arcane Boots"%string; "Force Staff"%string;
          "Glimmer Cape"%string]
         ++ (if strategyIs ItemStrategy.utility
             then ["Aether Lens"%string; "Ghost Scepter"%string] else [])
    else if Js.includes (Hero.roles hero) "Initiator"
    then ["Blink Dagger"%string; "Pipe of Insight"%string;
          "Crimson Guard"%string]
    else ["Bottle"%string; "Boots of Travel"%string;
          "Black King Bar"%string] in
  Js.slice0 items 5.

Definition getProPickRate (heroId : Z) : Q :=
  match findStat heroId with
  | None => 0
  | Some heroStat =>
      let proPicks := Js.or_else (HeroStats.pro_pick heroStat) 0 in
      let totalProGames := 1000 in
      (proPicks / totalProGames) * 100
  end.

Definition calculateItemSynergyScore (hero : Hero) (teamHeroes : list Hero)
  (gameContext : GameContext) : Q :=
  let tagged role := Js.includes (Hero.roles hero) role in
  let teamHas role :=
    existsb (fun h => Js.includes (Hero.roles h) role) teamHeroes in
  let synergyScore := 50 in
  let synergyScore :=
    if tagged "Carry"%string && teamHas "Support"%string
    then synergyScore + 15 else synergyScore in
  let synergyScore :=
    if tagged "Support"%string && teamHas "Carry"%string
    then synergyScore + 20 else synergyScore in
  let synergyScore :=
    match GameContext.itemStrategy gameContext with
    | Some ItemStrategy.early =>
        if tagged "Support"%string then synergyScore + 10 else synergyScore
    | Some ItemStrategy.scaling =>
        if tagged "Carry"%string then synergyScore + 15 else synergyScore
    | _ => synergyScore
    end in
  Js.min 100 (Js.max 0 synergyScore).

Definition calculateLaneOptimizationScore (hero : Hero)
  (draftState : DraftState) (gameContext : GameContext) : Q :=
  let laneScore := 50 in
  let optimalLane := getOptimalLane hero in
  let laneScore :=
    match GameContext.preferredLanes gameContext with
    | Some preferredLanes =>
        if existsb (Z.eqb optimalLane) preferredLanes
        then laneScore + 20 else laneScore
    | None => laneScore
    end in
  let teamHeroes := pickedHeroes (DraftState.yourTeam draftState) in
  let laneConflicts :=
    length
      (List.filter
         (fun teammate => (getOptimalLane teammate =? optimalLane)%Z)
         teamHeroes) in
  let laneScore := laneScore - inject_Z (Z.of_nat laneConflicts) * 15 in
  Js.min 100 (Js.max 0 laneScore).

Definition calculateTimingScore (hero : Hero) (gameContext : GameContext)
  : Q :=
  match GameContext.expectedDuration gameContext with
  | None => 50
  | Some expectedDuration =>
      if negb (Js.truthy expectedDuration) then 50
      else
        let timingWindow := getTimingWindow hero gameContext in
        if Js.le expectedDuration 25 && Phase_eqb timingWindow early then 85
        else if Js.ge expectedDuration 25 && Js.le expectedDuration 45
                && Phase_eqb timingWindow mid then 80
        else if Js.ge expectedDuration 45 && Phase_eqb timingWindow late
        then 90
        else 60
  end.

Definition calculateProPatternScore (heroId : Z) : Q :=
  match findStat heroId with
  | None => 50
  | Some heroStat =>
      let proWinRate :=
        Js.or_else (HeroStats.pro_win heroStat) (HeroStats.pub_win heroStat) in
      let proPicks :=
        Js.or_else (HeroStats.pro_pick heroStat) (HeroStats.pub_pick heroStat)
      in
      if Qeq_bool proPicks 0 then 30
      else
        let winRate := (proWinRate / proPicks) * 100 in
        Js.min 100 (Js.max 0 winRate)
  end.

Definition calculateMLSynergyScore (hero : Hero) (teamHeroes : list Hero)
  : Q :=
  if (length teamHeroes =? 0)%nat then 50
  else
    let supportRoles := ["Support"; "Disabler"]%string in
    let coreRoles := ["Carry"; "Nuker"]%string in
    let synergyScore :=
      fold_left
        (fun synergyScore teammate =>
           let pairSynergy := 50 in
           let pairSynergy :=
             if negb (PrimaryAttr_eqb (Hero.primary_attr hero)
                        (Hero.primary_attr teammate))
             then pairSynergy + 10 else pairSynergy in
           let heroIsSupport :=
             existsb (fun role => Js.includes supportRoles role)
               (Hero.roles hero) in
           let teammateIsCore :=
             existsb (fun role => Js.includes coreRoles role)
               (Hero.roles teammate) in
           let pairSynergy :=
             if heroIsSupport && teammateIsCore
             then pairSynergy + 20 else pairSynergy in
           let pairSynergy :=
             if negb (AttackType_eqb (Hero.attack_type hero)
                        (Hero.attack_type teammate))
             then pairSynergy + 5 else pairSynergy in
           synergyScore + pairSynergy)
        teamHeroes 0 in
    Js.min 100
      (Js.max 0 (synergyScore / inject_Z (Z.of_nat (length teamHeroes)))).

Definition generateAdvancedReasoning (hero : Hero)
  (breakdown : ScoreBreakdown) (gameContext : GameContext)
  : list string * list string * list string :=
  let above (value threshold : Q) (text : string) : list string :=
    if Js.gt value threshold then [text] else [] in
  let positive :=
    above (ScoreBreakdown.meta breakdown) 70 "Strong in current meta"%string
    ++ above (ScoreBreakdown.counter breakdown) 70
         "Excellent counter to enemy team"%string
    ++ above (ScoreBreakdown.synergy breakdown) 70
         "Great synergy with team composition"%string
    ++ above (ScoreBreakdown.itemSynergy breakdown) 70
         "Strong item build synergies"%string
    ++ above (ScoreBreakdown.laneOptimization breakdown) 75
         "Optimal lane assignment available"%string
    ++ above (ScoreBreakdown.timing breakdown) 75
         "Perfect timing for expected game duration"%string
    ++ above (ScoreBreakdown.proPattern breakdown) 70
         "Proven effective in professional scene"%string
    ++ above (ScoreBreakdown.mlSynergy breakdown) 75
         "AI predicts exceptional team synergy"%string
    ++ (match GameContext.playstyle gameContext with
        | Some aggressive =>
            if Js.includes (Hero.roles hero) "Initiator"
            then ["Fits aggressive playstyle perfectly"%string] else []
        | _ => []
        end) in
  let counters :=
    above (ScoreBreakdown.counter breakdown) 70
      "Counters enemy cores effectively"%string in
  let synergies :=
    above (ScoreBreakdown.synergy breakdown) 70
      "Complements team strategy"%string in
  (positive, counters, synergies).

Definition advancedBreakdownOf (hero : Hero) (draftState : DraftState)
  (gameContext : GameContext) : ScoreBreakdown :=
  let enemyHeroes := pickedHeroes (DraftState.enemyTeam draftState) in
  let teamHeroes := pickedHeroes (DraftState.yourTeam draftState) in
  {| ScoreBreakdown.meta := getMetaScore (Hero.id hero);
     ScoreBreakdown.counter := getCounterScore (Hero.id hero) enemyHeroes;
     ScoreBreakdown.synergy := getSynergyScore (Hero.id hero) teamHeroes;
     ScoreBreakdown.itemSynergy :=
       calculateItemSynergyScore hero teamHeroes gameContext;
     ScoreBreakdown.laneOptimization :=
       calculateLaneOptimizationScore hero draftState gameContext;
     ScoreBreakdown.timing := calculateTimingScore hero gameContext;
     ScoreBreakdown.proPattern := calculateProPatternScore (Hero.id hero);
     ScoreBreakdown.mlSynergy := calculateMLSynergyScore hero teamHeroes |}.

Definition calculateAdvancedHeroScore (hero : Hero) (draftState : DraftState)
  (gameContext : GameContext) : AdvancedDraftSuggestion :=
  let enemyHeroes := pickedHeroes (DraftState.enemyTeam draftState) in
  let advancedBreakdown := advancedBreakdownOf hero draftState gameContext in
  let finalScore :=
    ScoreBreakdown.meta advancedBreakdown * 0.15
    + ScoreBreakdown.counter advancedBreakdown * 0.2
    + ScoreBreakdown.synergy advancedBreakdown * 0.15
    + ScoreBreakdown.itemSynergy advancedBreakdown * 0.15
    + ScoreBreakdown.laneOptimization advancedBreakdown * 0.1
    + ScoreBreakdown.timing advancedBreakdown * 0.1
    + ScoreBreakdown.proPattern advancedBreakdown * 0.1
    + ScoreBreakdown.mlSynergy advancedBreakdown * 0.05 in
  let confidence := getConfidenceLevel finalScore (length enemyHeroes) in
  let '(positive, counters, synergies) :=
    generateAdvancedReasoning hero advancedBreakdown gameContext in
  {| AdvancedDraftSuggestion.base :=
       {| DraftSuggestion.hero := hero;
          DraftSuggestion.score := Js.round finalScore;
          DraftSuggestion.win_rate := winRateOf (Hero.id hero);
          DraftSuggestion.confidence := confidence;
          DraftSuggestion.reasoning := positive;
          DraftSuggestion.counters := counters;
          DraftSuggestion.synergies := synergies |};
     AdvancedDraftSuggestion.advancedBreakdown := advancedBreakdown;
     AdvancedDraftSuggestion.itemRecommendations :=
       getItemRecommendations hero gameContext;
     AdvancedDraftSuggestion.optimalLane := getOptimalLane hero;
     AdvancedDraftSuggestion.timingWindow := getTimingWindow hero gameContext;
     AdvancedDraftSuggestion.proPickRate := getProPickRate (Hero.id hero) |}.

End Methods.

End DraftAnalyzer.

(** [filterHeroesByRole], the utility exported beside the class. *)
Definition filterHeroesByRole (heroes : list Hero) (roles : list string)
  : list Hero :=
  List.filter
    (fun hero =>
       existsb (fun role => Js.includes (Hero.roles hero) role) roles)
    heroes.

(* ------------------------------------------------------------------ *)
(** ** Error handling utilities (error-handling.ts) *)

Module ErrorHandling.

(** A value that can be thrown: an [AppError] (or one of its subclasses),
    another [Error], or anything else. *)
Inductive Thrown : Type :=
| AppError (message code : string) (statusCode : Z)
| OtherError (message : string)
| NotAnError.

(** The constructors of the three subclasses. *)
Definition APIError (message : string) (statusCode : option Z) : Thrown :=
  AppError message "API_ERROR" (default 500%Z statusCode).

Definition ValidationError (message : string) : Thrown :=
  AppError message "VALIDATION_ERROR" 400.

Definition RateLimitError (message : option string) : Thrown :=
  AppError (default "Rate limit exceeded"%string message)
    "RATE_LIMIT_ERROR" 429.

(** [handleAPIError]: the pair [{ error, statusCode }]. *)
Definition handleAPIError (error : Thrown) : string * Z :=
  match error with
  | AppError message _ statusCode => (message, statusCode)
  | OtherError _ => ("Internal server error"%string, 500%Z)
  | NotAnError => ("Unknown error occurred"%string, 500%Z)
  end.

(** [retryWithBackoff].  The thunk [fn] has effects, so its calls may differ:
    [fn k] is the outcome of call number [k] (from 0).  [maxRetries] is a
    count.  The result comes with the delays that were awaited, in order.
    [attemptFrom remaining attempt] is the loop from [attempt] on, with
    [remaining = maxRetries - attempt]. *)
Section Retry.
Context {T : Type} (fn : nat -> Result T) (baseDelay : Z).

Fixpoint attemptFrom (remaining attempt : nat) : Result T * list Z :=
  match fn attempt with
  | Ok value => (Ok value, [])
  | Throw lastError =>
      match remaining with
      | O => (Throw lastError, [])
      | S remaining' =>
          let delay := (baseDelay * 2 ^ Z.of_nat attempt)%Z in
          let '(outcome, delays) := attemptFrom remaining' (S attempt) in
          (outcome, delay :: delays)
      end
  end.

Definition retryWithBackoff (maxRetries : nat) : Result T * list Z :=
  attemptFrom maxRetries 0.
End Retry.

End ErrorHandling.

(* ------------------------------------------------------------------ *)
(** ** RateLimiter (validation.ts) *)

(** The limiter keeps, for each identifier, the timestamps of the requests
    it allowed.  [Date.now()] is the argument [now] of the two methods,
    which return the new state of the object. *)
Module RateLimiter.

Record t : Type := mk {
  requests : gmap string (list Z);
  windowMs : Z;
  maxRequests : Z
}.

Definition new (windowMs maxRequests : option Z) : t :=
  {| requests := ∅;
     windowMs := default 60000%Z windowMs;
     maxRequests := default 100%Z maxRequests |}.

Definition isAllowed (self : t) (now : Z) (identifier : string)
  : bool * t :=
  let windowStart := (now - windowMs self)%Z in
  let requests0 := default [] (requests self !! identifier) in
  let requests1 :=
    List.filter (fun timestamp => (windowStart <? timestamp)%Z) requests0 in
  if (maxRequests self <=? Z.of_nat (length requests1))%Z
  then (false, self)
  else
    (true,
     {| requests := <[identifier := requests1 ++ [now]]> (requests self);
        windowMs := windowMs self;
        maxRequests := maxRequests self |}).

Definition cleanup (self : t) (now : Z) : t :=
  let windowStart := (now - windowMs self)%Z in
  {| requests :=
       omap
         (fun requests0 =>
            let filteredRequests :=
              List.filter (fun timestamp => (windowStart <? timestamp)%Z)
                requests0 in
            if (length filteredRequests =? 0)%nat then None
            else Some filteredRequests)
         (requests self);
     windowMs := windowMs self;
     maxRequests := maxRequests self |}.

(** [globalRateLimiter]. *)
Definition globalRateLimiter : t := new None None.

End RateLimiter.

(* ------------------------------------------------------------------ *)
(** ** DataTransformer (data-transformer.ts) *)

Module OpenDotaMatchupData.
Record t : Type := mk {
  hero_id : Z;
  games : Q;
  wins : Q
}.
End OpenDotaMatchupData.
Abbreviation OpenDotaMatchupData := OpenDotaMatchupData.t.

Module DataTransformer.

Definition transformMatchupData (openDotaData : list OpenDotaMatchupData)
  : list HeroMatchupData :=
  map
    (fun matchup =>
       {| HeroMatchupData.hero_id := OpenDotaMatchupData.hero_id matchup;
          HeroMatchupData.games_played := OpenDotaMatchupData.games matchup;
          HeroMatchupData.wins := OpenDotaMatchupData.wins matchup |})
    openDotaData.

(** The win rate "with safety checks": 0 also when there are more wins
    than games. *)
Definition calculateWinRate (wins games : Q) : Q :=
  if negb (Js.truthy games) || Qeq_bool games 0 then 0
  else if Js.gt wins games then 0
  else Js.toFixed2 ((wins / games) * 100).

End DataTransformer.

(* ------------------------------------------------------------------ *)
(** ** The suggestions route (app/api/suggestions/route.ts) *)

Module SuggestionsRoute.

(** The request body after [request.json()]. *)
Module Body.
Record t : Type := mk {
  draftState : option DraftState;
  roleFilter : option (list string);
  gameContext : option GameContext;
  useAdvanced : option bool
}.
End Body.

(** What the handler answers: the suggestions with status 200, or an error
    message with status 400 or 500. *)
Inductive Response : Type :=
| Advanced (suggestions : list AdvancedDraftSuggestion)
| Basic (suggestions : list DraftSuggestion)
| Failure (error : string) (status : Z).

(** The callback of [enemyHeroes.map]: a failed fetch counts as no
    matchups. *)
Definition fetchMatchups
  (getHeroMatchups : Z -> Result (list OpenDotaMatchupData)) (enemy : Hero)
  : Z * list OpenDotaMatchupData :=
  match getHeroMatchups (Hero.id enemy) with
  | Ok matchups => (Hero.id enemy, matchups)
  | Throw _ => (Hero.id enemy, [])
  end.

(** [matchupResults.forEach]: the store is filled under the enemy's id. *)
Definition loadMatchups (analyzer : DraftAnalyzer.t)
  (matchupResults : list (Z * list OpenDotaMatchupData)) : DraftAnalyzer.t :=
  fold_left
    (fun analyzer '(heroId, matchups) =>
       DraftAnalyzer.setMatchupData analyzer heroId
         (DataTransformer.transformMatchupData matchups))
    matchupResults analyzer.

(** [POST].  The three calls of the OpenDota client are the parameters. *)
Definition POST
  (getHeroes : Result (list Hero)) (getHeroStats : Result (list HeroStats))
  (getHeroMatchups : Z -> Result (list OpenDotaMatchupData))
  (body : Body.t) : Response :=
  let failed := Failure "Failed to generate draft suggestions" 500 in
  match Body.draftState body with
  | None => Failure "Invalid draft state provided" 400
  | Some draftState =>
      match getHeroes, getHeroStats with
      | Ok heroes, Ok heroStats =>
          let analyzer := DraftAnalyzer.new heroes heroStats in
          let enemyHeroes :=
            pickedHeroes (DraftState.enemyTeam draftState) in
          let matchupResults :=
            map (fetchMatchups getHeroMatchups) enemyHeroes in
          let analyzer := loadMatchups analyzer matchupResults in
          if default true (Body.useAdvanced body)
          then
            match
              DraftAnalyzer.generateAdvancedSuggestions analyzer draftState
                (Some (default GameContext.empty (Body.gameContext body)))
                (Body.roleFilter body) (Some 15%Z)
            with
            | Ok suggestions => Advanced suggestions
            | Throw _ => failed
            end
          else
            Basic
              (DraftAnalyzer.generateSuggestions analyzer draftState
                 (Body.roleFilter body) (Some 15%Z))
      | _, _ => failed
      end
  end.

End SuggestionsRoute.

(* ------------------------------------------------------------------ *)
(** ** Notions used by the statements *)

(** A list is in descending order of [score]: every element scores at least
    as much as every later one. *)
Definition descending {A : Type} (score : A -> Q) (l : list A) : Prop :=
  StronglySorted (fun a b => score b <= score a) l.

(** A hero occupies a slot of a team. *)
Definition inTeam (team : list (option Hero)) (h : Hero) : Prop :=
  In (Some h) team.

(** A hero occupies a slot of either team of the draft. *)
Definition picked (draftState : DraftState) (h : Hero) : Prop :=
  inTeam (DraftState.yourTeam draftState) h
  \/ inTeam (DraftState.enemyTeam draftState) h.

(** The analyzer that [new DraftAnalyzer(heroes, heroStats)] builds, after
    any number of calls of [setMatchupData] have brought the matchup store
    to [matchupData]. *)
Definition analyzerWith (heroes : list Hero) (heroStats : list HeroStats)
  (matchupData : gmap Z (list HeroMatchupData)) : DraftAnalyzer.t :=
  {| DraftAnalyzer.heroes := heroes;
     DraftAnalyzer.heroStats := heroStats;
     DraftAnalyzer.matchupData := matchupData;
     DraftAnalyzer.integration :=
       DraftAnalyzerIntegration.new heroes heroStats |}.

(** The options that [DraftAnalyzer.generateAdvancedSuggestions] hands down
    to the integration layer. *)
Definition handedDown (roleFilter : option (list string))
  (gameContext : option GameContext) : DraftAnalyzerIntegration.Options.t :=
  let gameContext := default GameContext.empty gameContext in
  {| DraftAnalyzerIntegration.Options.gameContext :=
       Some {| GameContext.expectedDuration :=
                 GameContext.expectedDuration gameContext;
               GameContext.preferredLanes :=
                 GameContext.preferredLanes gameContext;
               GameContext.playstyle := GameContext.playstyle gameContext;
               GameContext.itemStrategy :=
                 GameContext.itemStrategy gameContext |};
     DraftAnalyzerIntegration.Options.roleFilter := roleFilter;
     DraftAnalyzerIntegration.Options.includeItemBuilds := Some true;
     DraftAnalyzerIntegration.Options.includeLaneOptimization := Some true;
     DraftAnalyzerIntegration.Options.includeTimingAnalysis := Some true;
     DraftAnalyzerIntegration.Options.includeProPatterns := Some true |}.

(** The canonical position of a role: Carry 1, Nuker 2, Initiator 3,
    Support 5. *)
Definition canonical (role : string) (pos : Z) : Prop :=
  (role = "Carry"%string /\ pos = 1%Z)
  \/ (role = "Nuker"%string /\ pos = 2%Z)
  \/ (role = "Initiator"%string /\ pos = 3%Z)
  \/ (role = "Support"%string /\ pos = 5%Z).

(** The first position that no role of the team claims. *)
Definition firstFree (heroes : list Hero) : Z :=
  match
    List.find
      (fun pos =>
         negb (LaneOptimizer.has (LaneOptimizer.takenPositions heroes) pos))
      [1; 2; 3; 4; 5]%Z
  with
  | Some pos => pos
  | None => 4%Z
  end.

(** The pairs [(heroes[i], heroes[j])] with [i < j], in loop order. *)
Fixpoint orderedPairs (heroes : list Hero) : list (Hero * Hero) :=
  match heroes with
  | [] => []
  | hi :: later => map (fun hj => (hi, hj)) later ++ orderedPairs later
  end.

(** Sum of a list of numbers. *)
Definition Qsum (l : list Q) : Q := fold_right Qplus 0 l.

Module CounterSpec.

(** The win rates that count towards the counter score: one for each enemy
    hero whose matchup record (the first one kept for that enemy) has a
    sample that [enough] accepts. *)
Definition validRates (enough : Q -> bool)
  (matchups : list HeroMatchupData) (enemyHeroes : list Hero) : list Q :=
  omap
    (fun enemy =>
       match
         List.find
           (fun m => (HeroMatchupData.hero_id m =? Hero.id enemy)%Z) matchups
       with
       | Some m =>
           if enough (HeroMatchupData.games_played m)
           then Some (OpenDota.calculateWinRate
                        (HeroMatchupData.wins m)
                        (HeroMatchupData.games_played m))
           else None
       | None => None
       end)
    enemyHeroes.

(** The counter score as the specification words it: the average of the
    valid win rates, and the neutral 50 when the enemy list is empty, the
    hero has no matchup data or no record is valid. *)
Definition counterScore (enough : Q -> bool)
  (matchupData : gmap Z (list HeroMatchupData))
  (heroId : Z) (enemyHeroes : list Hero) : Q :=
  match enemyHeroes, matchupData !! heroId with
  | [], _ | _, None => 50
  | _, Some matchups =>
      match validRates enough matchups enemyHeroes with
      | [] => 50
      | rates => Qsum rates / inject_Z (Z.of_nat (length rates))
      end
  end.

(** A sample of at least 10 games, and one of more than 10 games. *)
Definition atLeast10 (games : Q) : bool := Js.ge games 10.
Definition moreThan10 (games : Q) : bool := Js.gt games 10.

End CounterSpec.

Module FallbackSpec.




End FallbackSpec.

(** A number is a whole number. *)
Definition whole (x : Q) : Prop := exists n : Z, x == inject_Z n.

(** A matchup record is plausible: the wins are between 0 and the games. *)
Definition plausible (m : HeroMatchupData) : Prop :=
  0 <= HeroMatchupData.wins m
  /\ HeroMatchupData.wins m <= HeroMatchupData.games_played m.

(** Every record of a matchup store is plausible. *)
Definition plausibleStore (matchupData : gmap Z (list HeroMatchupData))
  : Prop :=
  forall heroId matchups,
    matchupData !! heroId = Some matchups -> Forall plausible matchups.

(** The heroes that the basic generator scores: in the roster, in no slot
    of the draft, and through the role filter. *)
Definition basicCandidates (self : DraftAnalyzer.t) (draftState : DraftState)
  (roleFilter : option (list string)) : list Hero :=
  List.filter (DraftAnalyzer.passesRoleFilter roleFilter)
    (List.filter
       (fun hero =>
          negb (bool_decide
                  (Hero.id hero ∈ DraftAnalyzer.pickedIds draftState)))
       (DraftAnalyzer.heroes self)).

(** What a suggestion says about its hero, apart from the attached
    artifacts. *)
Definition verdict (s : AdvancedSuggestion)
  : Hero * Q * list string * ScoreBreakdown :=
  (AdvancedSuggestion.hero s, AdvancedSuggestion.score s,
   AdvancedSuggestion.reasons s, AdvancedSuggestion.breakdown s).

(** The power of a hero in a phase, as the timing analyzer computes it. *)
Definition powerOf (phase : Phase) (hero : Hero) : Q :=
  match phase with
  | early => TimingAnalyzer.calculateEarlyPower hero
  | mid => TimingAnalyzer.calculateMidPower hero
  | late => TimingAnalyzer.calculateLatePower hero
  end.

(** A hero carries one of the role tags of a list. *)
Definition hasRoleIn (roles : list string) (hero : Hero) : Prop :=
  exists role, In role roles /\ In role (Hero.roles hero).

(** An item build is well shaped: four items, four timing marks that
    increase, and an effectiveness between 0.75 and 0.9. *)
Definition wellShaped (b : ItemBuild) : Prop :=
  length (ItemBuild.items b) = 4%nat
  /\ length (ItemBuild.timing b) = 4%nat
  /\ StronglySorted Qlt (ItemBuild.timing b)
  /\ 0.75 <= ItemBuild.effectiveness b
  /\ ItemBuild.effectiveness b <= 0.9.

(** A suggestion of the integration layer comes from a suggestion of the
    advanced analyzer: the verdict is kept and each artifact is kept or
    blanked as its flag of the options says. *)
Definition strippedFrom (options : DraftAnalyzerIntegration.Options.t)
  (s0 s : AdvancedSuggestion) : Prop :=
  verdict s = verdict s0
  /\ AdvancedSuggestion.itemSynergy s
     = (if default true
             (DraftAnalyzerIntegration.Options.includeItemBuilds options)
        then AdvancedSuggestion.itemSynergy s0 else [])
  /\ AdvancedSuggestion.laneOptimization s
     = (if default true
             (DraftAnalyzerIntegration.Options.includeLaneOptimization
                options)
        then AdvancedSuggestion.laneOptimization s0 else [])
  /\ AdvancedSuggestion.timingWindows s
     = (if default true
             (DraftAnalyzerIntegration.Options.includeTimingAnalysis options)
        then AdvancedSuggestion.timingWindows s0 else [])
  /\ AdvancedSuggestion.proPatterns s
     = (if default true
             (DraftAnalyzerIntegration.Options.includeProPatterns options)
        then AdvancedSuggestion.proPatterns s0
        else DraftAnalyzerIntegration.noProPatterns).

(** The eight factors of a breakdown are between 0 and 1. *)
Definition factorsInUnit (b : ScoreBreakdown) : Prop :=
  Forall (fun entry => 0 <= snd entry /\ snd entry <= 1)
    (ScoreBreakdown.entries b).

(** [x] lies between [lo] and [hi]. *)
Definition within (lo hi x : Q) : Prop := lo <= x /\ x <= hi.


(** A call of [isAllowed]: the time of the call and the identifier. *)
Definition Call : Type := (Z * string)%type.

(** A limiter serves a sequence of calls, one after the other; the answers
    are collected in order. *)
Fixpoint serve (self : RateLimiter.t) (calls : list Call)
  : list bool * RateLimiter.t :=
  match calls with
  | [] => ([], self)
  | (now, identifier) :: rest =>
      let '(answer, self') := RateLimiter.isAllowed self now identifier in
      let '(answers, final) := serve self' rest in
      (answer :: answers, final)
  end.

(** The times of the calls of [identifier] that were allowed. *)
Fixpoint allowedTimes (identifier : string) (calls : list Call)
  (answers : list bool) : list Z :=
  match calls, answers with
  | (now, identifier') :: calls', answer :: answers' =>
      (if answer && String.eqb identifier' identifier then [now] else [])
      ++ allowedTimes identifier calls' answers'
  | _, _ => []
  end.

(** The clock never goes back during the calls. *)
Definition chronological (calls : list Call) : Prop :=
  Sorted Z.le (map fst calls).

(** How many of the [times] lie in the window that ends at [t]. *)
Definition inWindow (windowMs t : Z) (times : list Z) : nat :=
  length
    (List.filter (fun x => (t - windowMs <? x)%Z && (x <=? t)%Z) times).


(** The [times] after [start]. *)
Definition recent (start : Z) (times : list Z) : list Z :=
  List.filter (fun timestamp => (start <? timestamp)%Z) times.

(** The timestamps that a limiter holds for [identifier]. *)
Definition stored (self : RateLimiter.t) (identifier : string) : list Z :=
  default [] (RateLimiter.requests self !! identifier).


(** The timestamps that a limiter with window [w] holds agree with the
    allowed calls [past]: for every identifier, those that count at [clock]
    are the same. *)
Definition agrees (w clock : Z) (self : RateLimiter.t)
  (past : string -> list Z) : Prop :=
  forall identifier,
    recent (clock - w) (past identifier)
    = recent (clock - w) (stored self identifier).

(** No window of length [w] holds more than [m] of the allowed calls of
    one identifier. *)
Definition bounded (w m : Z) (past : string -> list Z) : Prop :=
  forall identifier t,
    (Z.of_nat (inWindow w t (past identifier)) <= Z.max 0 m)%Z.

(** Two limiters that hold the same timestamps after [clock - windowMs]
    for every identifier. *)
Definition similar (clock : Z) (self1 self2 : RateLimiter.t) : Prop :=
  RateLimiter.windowMs self1 = RateLimiter.windowMs self2
  /\ RateLimiter.maxRequests self1 = RateLimiter.maxRequests self2
  /\ forall identifier,
       recent (clock - RateLimiter.windowMs self2) (stored self1 identifier)
       = recent (clock - RateLimiter.windowMs self2)
           (stored self2 identifier).


(** [top] holds the [n] best of [batch]: as many elements as [n] and the
    batch allow, all from the batch, in descending order of score, and
    every element of the batch that is left out scores no more than any
    element kept. *)
Definition topOf {A : Type} (score : A -> Q) (n : nat) (batch top : list A)
  : Prop :=
  length top = Nat.min n (length batch)
  /\ descending score top
  /\ (forall x, In x top -> In x batch)
  /\ (forall x, In x batch ->
        In x top \/ Forall (fun kept => score x <= score kept) top).


(** Concrete heroes, drafts and analyzers for the examples. *)
Module Examples.

Definition antimage : Hero :=
  {| Hero.id := 1; Hero.name := "antimage"; Hero.localized_name := "Anti-Mage";
     Hero.primary_attr := agi; Hero.attack_type := Melee;
     Hero.roles := ["Carry"%string] |}.

Definition lina : Hero :=
  {| Hero.id := 25; Hero.name := "lina"; Hero.localized_name := "Lina";
     Hero.primary_attr := int; Hero.attack_type := Ranged;
     Hero.roles := ["Nuker"%string] |}.

Definition axe : Hero :=
  {| Hero.id := 2; Hero.name := "axe"; Hero.localized_name := "Axe";
     Hero.primary_attr := str; Hero.attack_type := Melee;
     Hero.roles := ["Initiator"%string] |}.

Definition io : Hero :=
  {| Hero.id := 91; Hero.name := "wisp"; Hero.localized_name := "Io";
     Hero.primary_attr := all; Hero.attack_type := Melee;
     Hero.roles := ["Support"%string] |}.

(** Twelve more heroes, with ids 101 to 112 and no role tag. *)
Definition filler (n : Z) : Hero :=
  {| Hero.id := 100 + n; Hero.name := "filler";
     Hero.localized_name := "Filler";
     Hero.primary_attr := all; Hero.attack_type := Ranged;
     Hero.roles := [] |}.

Definition roster : list Hero :=
  [antimage; lina; axe; io]
  ++ map filler [1; 2; 3; 4; 5; 6; 7; 8; 9; 10; 11; 12]%Z.

Definition emptyDraft : DraftState :=
  {| DraftState.yourTeam := [None; None; None; None; None];
     DraftState.enemyTeam := [None; None; None; None; None];
     DraftState.currentPhase := pick;
     DraftState.currentPick := 0 |}.

(** Anti-Mage on the enemy team, Io on the player's team. *)
Definition draft : DraftState :=
  {| DraftState.yourTeam := [Some io; None; None; None; None];
     DraftState.enemyTeam := [Some antimage; None; None; None; None];
     DraftState.currentPhase := pick;
     DraftState.currentPick := 2 |}.

(** The matchup store holds, for Lina, one record against Anti-Mage with
    exactly 10 games, 7 of them won. *)
Definition tenGames : gmap Z (list HeroMatchupData) :=
  {[ 25%Z := [ {| HeroMatchupData.hero_id := 1;
                 HeroMatchupData.games_played := 10;
                 HeroMatchupData.wins := 7 |} ] ]}.



End Examples.

(** Statistics and matchup records for the examples. *)
Module Records.

(** The statistics of one hero: [bracket] picks in each of the eight rank
    brackets, half of them won. *)
Definition statsOf (id : Z) (pub_pick pub_win pro_pick pro_win bracket : Q)
  : HeroStats :=
  {| HeroStats.id := id;
     HeroStats.pub_pick := pub_pick; HeroStats.pub_win := pub_win;
     HeroStats.pro_pick := pro_pick; HeroStats.pro_win := pro_win;
     HeroStats.pro_ban := 5;
     HeroStats.turbo_picks := 200; HeroStats.turbo_wins := 90;
     HeroStats._1_pick := bracket; HeroStats._1_win := bracket / 2;
     HeroStats._2_pick := bracket; HeroStats._2_win := bracket / 2;
     HeroStats._3_pick := bracket; HeroStats._3_win := bracket / 2;
     HeroStats._4_pick := bracket; HeroStats._4_win := bracket / 2;
     HeroStats._5_pick := bracket; HeroStats._5_win := bracket / 2;
     HeroStats._6_pick := bracket; HeroStats._6_win := bracket / 2;
     HeroStats._7_pick := bracket; HeroStats._7_win := bracket / 2;
     HeroStats._8_pick := bracket; HeroStats._8_win := bracket / 2 |}.

(** Anti-Mage: 520 wins in 1000 public games; Lina: 424 in 800. *)
Definition heroStats : list HeroStats :=
  [statsOf 1 1000 520 40 22 125; statsOf 25 800 424 30 12 100].

(** The matchup store holds, for Lina, one record against Anti-Mage that
    counts: 20 games, 13 of them won. *)
Definition twentyGames : gmap Z (list HeroMatchupData) :=
  {[ 25%Z := [ {| HeroMatchupData.hero_id := 1;
                 HeroMatchupData.games_played := 20;
                 HeroMatchupData.wins := 13 |} ] ]}.

(** The analyzer over the example roster with these statistics and this
    store. *)
Definition analyzer : DraftAnalyzer.t :=
  analyzerWith Examples.roster heroStats twentyGames.

End Records.

(* ================================================================== *)
(** * Properties *)

(** ** Numbers, slices and sorting *)

Section JsFacts.

Lemma lt_true (a b : Q) : Js.lt a b = true <-> a < b.
Proof.
  unfold Js.lt. rewrite negb_true_iff.
  destruct (Qle_bool b a) eqn:E.
  - apply Qle_bool_iff in E. split; [discriminate | intros H; lra].
  - split; [intros _ | reflexivity].
    destruct (Qlt_le_dec a b) as [H | H]; [exact H |].
    apply Qle_bool_iff in H. congruence.
Qed.

Lemma lt_false (a b : Q) : Js.lt a b = false <-> b <= a.
Proof.
  unfold Js.lt. rewrite negb_false_iff. apply Qle_bool_iff.
Qed.

Lemma min_cases (a b : Q) :
  (a <= b /\ Js.min a b = a) \/ (b < a /\ Js.min a b = b).
Proof.
  unfold Js.min. destruct (Qle_bool a b) eqn:E.
  - left. split; [now apply Qle_bool_iff | reflexivity].
  - right. split; [| reflexivity].
    apply lt_true. unfold Js.lt. now rewrite E.
Qed.

Lemma max_cases (a b : Q) :
  (a <= b /\ Js.max a b = b) \/ (b < a /\ Js.max a b = a).
Proof.
  unfold Js.max. destruct (Qle_bool a b) eqn:E.
  - left. split; [now apply Qle_bool_iff | reflexivity].
  - right. split; [| reflexivity].
    apply lt_true. unfold Js.lt. now rewrite E.
Qed.

Context {A : Type}.

Lemma slice0_firstn (l : list A) (n : Z) :
  exists k, Js.slice0 l n = firstn k l.
Proof. unfold Js.slice0. eexists. reflexivity. Qed.

Lemma slice0_length_le (l : list A) (n : Z) :
  (length (Js.slice0 l n) <= length l)%nat.
Proof.
  destruct (slice0_firstn l n) as [k ->]. rewrite length_firstn. lia.
Qed.

Lemma slice0_length_limit (l : list A) (n : Z) :
  (0 <= n)%Z -> (Z.of_nat (length (Js.slice0 l n)) <= n)%Z.
Proof.
  intros Hn. unfold Js.slice0.
  destruct (n <? 0)%Z eqn:E; [apply Z.ltb_lt in E; lia |].
  rewrite length_firstn. lia.
Qed.

Lemma slice0_In (l : list A) (n : Z) (x : A) :
  In x (Js.slice0 l n) -> In x l.
Proof.
  destruct (slice0_firstn l n) as [k ->].
  intros H. rewrite <- (firstn_skipn k l). apply in_or_app. now left.
Qed.

Lemma slice0_nil (n : Z) : Js.slice0 (@nil A) n = [].
Proof. unfold Js.slice0. now rewrite firstn_nil. Qed.

Lemma slice0_map {B : Type} (f : A -> B) (l : list A) (n : Z) :
  Js.slice0 (map f l) n = map f (Js.slice0 l n).
Proof.
  unfold Js.slice0. rewrite length_map. apply firstn_map.
Qed.

Variable score : A -> Q.

Lemma insertDesc_perm (x : A) (l : list A) :
  Permutation (x :: l) (Js.insertDesc score x l).
Proof.
  induction l as [| y l IH]; simpl; [reflexivity |].
  destruct (Js.lt (score x) (score y)); [| reflexivity].
  rewrite perm_swap. now apply perm_skip.
Qed.

Lemma sortDesc_perm (l : list A) : Permutation l (Js.sortDesc score l).
Proof.
  induction l as [| x l IH]; simpl; [reflexivity |].
  rewrite <- insertDesc_perm. now apply perm_skip.
Qed.

Lemma sortDesc_In (l : list A) (x : A) :
  In x (Js.sortDesc score l) <-> In x l.
Proof.
  split; apply Permutation_in;
    [symmetry |]; apply sortDesc_perm.
Qed.

Lemma sortDesc_length (l : list A) :
  length (Js.sortDesc score l) = length l.
Proof. symmetry. apply Permutation_length, sortDesc_perm. Qed.

Lemma insertDesc_descending (x : A) (l : list A) :
  descending score l -> descending score (Js.insertDesc score x l).
Proof.
  unfold descending. induction l as [| y l IH]; intros Hl; simpl.
  - constructor; constructor.
  - apply StronglySorted_inv in Hl as [Hl Hy].
    destruct (Js.lt (score x) (score y)) eqn:E.
    + apply lt_true in E. constructor; [now apply IH |].
      apply List.Forall_forall. intros z Hz.
      apply (Permutation_in _ (Permutation_sym (insertDesc_perm x l))) in Hz.
      destruct Hz as [<- | Hz]; [lra |].
      rewrite List.Forall_forall in Hy. now apply Hy.
    + apply lt_false in E. constructor; [now constructor |].
      constructor; [exact E |].
      apply List.Forall_forall. intros z Hz.
      rewrite List.Forall_forall in Hy. specialize (Hy z Hz). simpl in Hy. lra.
Qed.

Lemma sortDesc_descending (l : list A) :
  descending score (Js.sortDesc score l).
Proof.
  induction l as [| x l IH]; simpl.
  - constructor.
  - now apply insertDesc_descending.
Qed.

Lemma descending_firstn (k : nat) (l : list A) :
  descending score l -> descending score (firstn k l).
Proof.
  unfold descending. revert l.
  induction k as [| k IH]; intros [| x l] Hl; simpl; try constructor.
  - apply StronglySorted_inv in Hl as [Hl _]. now apply IH.
  - apply StronglySorted_inv in Hl as [_ Hx].
    rewrite List.Forall_forall in *. intros z Hz. apply Hx.
    rewrite <- (firstn_skipn k l). apply in_or_app. now left.
Qed.

Lemma descending_slice0 (l : list A) (n : Z) :
  descending score l -> descending score (Js.slice0 l n).
Proof.
  destruct (slice0_firstn l n) as [k ->]. apply descending_firstn.
Qed.

Lemma descending_map {B : Type} (score' : B -> Q) (f : A -> B)
  (l : list A) :
  (forall x, score' (f x) == score x) ->
  descending score l -> descending score' (map f l).
Proof.
  unfold descending. intros Hf. induction 1 as [| x l Hl IH Hx]; simpl.
  - constructor.
  - constructor; [exact IH |].
    rewrite List.Forall_forall in *. intros z Hz.
    apply in_map_iff in Hz as (y & <- & Hy).
    rewrite !Hf. now apply Hx.
Qed.

End JsFacts.

Lemma descending_app_inv {A : Type} (score : A -> Q) (l1 l2 : list A) :
  descending score (l1 ++ l2) ->
  forall a b, In a l1 -> In b l2 -> score b <= score a.
Proof.
  unfold descending. induction l1 as [| x l1 IH]; intros H a b Ha Hb;
    [contradiction |].
  cbn in H. apply StronglySorted_inv in H as [Hrest Hx].
  destruct Ha as [<- | Ha].
  - rewrite List.Forall_forall in Hx. apply Hx, in_or_app. now right.
  - now apply (IH Hrest a b).
Qed.

(** What a sort followed by a cut keeps is the best: an element is kept,
    or it scores no more than any element that is. *)
Lemma top_of_sorted {A : Type} (score : A -> Q) (l : list A) (n : Z)
  (x : A) :
  In x l ->
  In x (Js.slice0 (Js.sortDesc score l) n)
  \/ Forall (fun y => score x <= score y)
       (Js.slice0 (Js.sortDesc score l) n).
Proof.
  intros Hx. destruct (slice0_firstn (Js.sortDesc score l) n) as [k ->].
  apply (sortDesc_In score) in Hx.
  rewrite <- (firstn_skipn k (Js.sortDesc score l)) in Hx.
  apply in_app_or in Hx as [Hx | Hx]; [now left | right].
  apply List.Forall_forall. intros y Hy.
  apply (descending_app_inv score (firstn k (Js.sortDesc score l))
           (skipn k (Js.sortDesc score l))); try assumption.
  rewrite firstn_skipn. apply sortDesc_descending.
Qed.

Lemma slice0_length {A : Type} (l : list A) (n : Z) :
  (0 <= n)%Z ->
  length (Js.slice0 l n) = Nat.min (Z.to_nat n) (length l).
Proof.
  intros Hn. unfold Js.slice0.
  destruct (n <? 0)%Z eqn:E; [apply Z.ltb_lt in E; lia |].
  rewrite length_firstn. lia.
Qed.

(** ** Exceptions and [map] with a callback that may raise *)

Section ResultFacts.
Context {A B : Type}.

Lemma bind_Ok_inv (m : Result A) (f : A -> Result B) (b : B) :
  (m ≫= f) = Ok b -> exists a, m = Ok a /\ f a = Ok b.
Proof.
  destruct m as [a | e]; simpl; intros H; [| discriminate].
  exists a. now split.
Qed.

Lemma bind_Ok (a : A) (f : A -> Result B) : (Ok a ≫= f) = f a.
Proof. reflexivity. Qed.

End ResultFacts.

Section MapFacts.
Context {A B : Type}.
Variable f : A -> Result B.

Lemma mapM_cons (x : A) (l : list A) :
  mapM f (x :: l) = (f x ≫= fun y => mapM f l ≫= fun k => Ok (y :: k)).
Proof. reflexivity. Qed.

Lemma mapM_Ok_inv (l : list A) (l' : list B) :
  mapM f l = Ok l' -> Forall2 (fun a b => f a = Ok b) l l'.
Proof.
  revert l'. induction l as [| x l IH]; intros l' H.
  - injection H as <-. constructor.
  - rewrite mapM_cons in H.
    apply bind_Ok_inv in H as (y & Hy & H).
    apply bind_Ok_inv in H as (k & Hk & H).
    injection H as <-. constructor; [exact Hy | now apply IH].
Qed.

Lemma mapM_total (l : list A) :
  (forall x, In x l -> exists y, f x = Ok y) -> exists l', mapM f l = Ok l'.
Proof.
  induction l as [| x l IH]; intros H.
  - now exists [].
  - destruct (H x (or_introl eq_refl)) as [y Hy].
    destruct IH as [k Hk]; [intros z Hz; apply H; now right |].
    exists (y :: k). rewrite mapM_cons, Hy, bind_Ok, Hk. reflexivity.
Qed.


Lemma mapM_In (l : list A) (l' : list B) (b : B) :
  mapM f l = Ok l' -> In b l' -> exists a, In a l /\ f a = Ok b.
Proof.
  intros H. apply mapM_Ok_inv in H.
  induction H as [| a b' l l' Hab _ IH]; intros Hin; [contradiction |].
  destruct Hin as [<- | Hin].
  - exists a. split; [now left | exact Hab].
  - destruct (IH Hin) as (a' & Ha' & Hf).
    exists a'. split; [now right | exact Hf].
Qed.

End MapFacts.

(** ** The advanced analyzer, for any instance *)

Section AdvancedFacts.
Variable self : AdvancedDraftAnalyzer.t.
Variable draftState : DraftState.
Variable gameContext : GameContext.

Lemma suggest_Ok_inv (hero : Hero) (s : AdvancedSuggestion) :
  AdvancedDraftAnalyzer.suggest self draftState gameContext hero = Ok s ->
  AdvancedSuggestion.hero s = hero
  /\ AdvancedSuggestion.score s =
       AdvancedDraftAnalyzer.calculateTotalScore
         (AdvancedSuggestion.breakdown s).
Proof.
  unfold AdvancedDraftAnalyzer.suggest. intros H.
  apply bind_Ok_inv in H as (breakdown & _ & H).
  apply bind_Ok_inv in H as (builds & _ & H).
  apply bind_Ok_inv in H as (lanes & _ & H).
  apply bind_Ok_inv in H as (windows & _ & H).
  apply bind_Ok_inv in H as (patterns & _ & H).
  injection H as <-. now split.
Qed.

Lemma teamHas_true (team : list (option Hero)) (hero h : Hero) :
  inTeam team h -> Hero.id h = Hero.id hero ->
  AdvancedDraftAnalyzer.teamHas team hero = true.
Proof.
  unfold inTeam, AdvancedDraftAnalyzer.teamHas. intros Hin Hid.
  apply existsb_exists. exists (Some h). split; [exact Hin |].
  now apply Z.eqb_eq.
Qed.

Lemma isAvailable_not_picked (roleFilter : option (list string))
  (hero h : Hero) :
  AdvancedDraftAnalyzer.isAvailable draftState roleFilter hero = true ->
  picked draftState h -> Hero.id hero <> Hero.id h.
Proof.
  unfold AdvancedDraftAnalyzer.isAvailable. intros Hav Hp Hid.
  apply andb_prop in Hav as [Hav _]. apply andb_prop in Hav as [Hy He].
  apply negb_true_iff in Hy, He.
  destruct Hp as [Hp | Hp];
    apply teamHas_true with (hero := hero) in Hp; congruence.
Qed.

Variable roleFilter : option (list string).

Lemma generate_Ok_inv (l : list AdvancedSuggestion) :
  AdvancedDraftAnalyzer.generateAdvancedSuggestions
    self draftState gameContext roleFilter = Ok l ->
  descending AdvancedSuggestion.score l
  /\ (length l <= 10)%nat
  /\ forall s, In s l ->
       In (AdvancedSuggestion.hero s) (AdvancedDraftAnalyzer.heroes self)
       /\ AdvancedDraftAnalyzer.isAvailable draftState roleFilter
            (AdvancedSuggestion.hero s) = true.
Proof.
  unfold AdvancedDraftAnalyzer.generateAdvancedSuggestions. intros H.
  apply bind_Ok_inv in H as (suggestions & Hmap & H).
  injection H as <-. split; [| split].
  - apply descending_slice0, sortDesc_descending.
  - pose proof
      (slice0_length_limit
         (Js.sortDesc AdvancedSuggestion.score suggestions) 10).
    lia.
  - intros s Hs. apply slice0_In, sortDesc_In in Hs.
    destruct (mapM_In _ _ _ _ Hmap Hs) as (hero & Hhero & Hsug).
    apply suggest_Ok_inv in Hsug as [-> _].
    apply filter_In in Hhero. exact Hhero.
Qed.


End AdvancedFacts.

(** The analyzers that the constructor installs never raise. *)
Lemma new_suggest_total (heroes : list Hero) (heroStats : list HeroStats)
  (draftState : DraftState) (gameContext : GameContext) (hero : Hero) :
  exists s,
    AdvancedDraftAnalyzer.suggest
      (AdvancedDraftAnalyzer.new heroes heroStats)
      draftState gameContext hero = Ok s.
Proof.
  unfold AdvancedDraftAnalyzer.suggest,
    AdvancedDraftAnalyzer.calculateAdvancedScore,
    AdvancedDraftAnalyzer.calculateSynergyScore,
    AdvancedDraftAnalyzer.calculateLaneOptimizationScore,
    AdvancedDraftAnalyzer.calculateTimingScore,
    AdvancedDraftAnalyzer.calculateProPatternScore,
    AdvancedDraftAnalyzer.new; simpl.
  destruct (length (pickedHeroes (DraftState.yourTeam draftState)) =? 0)%nat;
    simpl; eexists; reflexivity.
Qed.

Lemma new_generate_total (heroes : list Hero) (heroStats : list HeroStats)
  (draftState : DraftState) (gameContext : GameContext)
  (roleFilter : option (list string)) :
  exists l,
    AdvancedDraftAnalyzer.generateAdvancedSuggestions
      (AdvancedDraftAnalyzer.new heroes heroStats)
      draftState gameContext roleFilter = Ok l.
Proof.
  unfold AdvancedDraftAnalyzer.generateAdvancedSuggestions.
  destruct
    (mapM_total
       (AdvancedDraftAnalyzer.suggest
          (AdvancedDraftAnalyzer.new heroes heroStats) draftState gameContext)
       (List.filter (AdvancedDraftAnalyzer.isAvailable draftState roleFilter)
          (AdvancedDraftAnalyzer.heroes
             (AdvancedDraftAnalyzer.new heroes heroStats))))
    as [l Hl].
  - intros x _. apply new_suggest_total.
  - rewrite Hl. eexists. reflexivity.
Qed.

(** ** The integration layer and the draft analyzer, for any instance *)

Section PipelineFacts.

Lemma advancedContext_eta (gameContext : GameContext) :
  {| GameContext.expectedDuration := GameContext.expectedDuration gameContext;
     GameContext.preferredLanes := GameContext.preferredLanes gameContext;
     GameContext.playstyle := GameContext.playstyle gameContext;
     GameContext.itemStrategy := GameContext.itemStrategy gameContext |}
  = gameContext.
Proof. now destruct gameContext. Qed.

(** With every include flag set, the integration layer hands the batch of
    the advanced analyzer on as it is. *)
Lemma enhanced_handedDown (self : DraftAnalyzerIntegration.t)
  (draftState : DraftState) (gameContext : option GameContext)
  (roleFilter : option (list string)) (top : list AdvancedSuggestion) :
  AdvancedDraftAnalyzer.generateAdvancedSuggestions
    (DraftAnalyzerIntegration.advancedAnalyzer self) draftState
    (default GameContext.empty gameContext) roleFilter = Ok top ->
  DraftAnalyzerIntegration.getEnhancedRecommendations
    self draftState (handedDown roleFilter gameContext) = Ok top.
Proof.
  intros H. unfold DraftAnalyzerIntegration.getEnhancedRecommendations,
    handedDown.
  cbn [DraftAnalyzerIntegration.Options.gameContext
       DraftAnalyzerIntegration.Options.roleFilter
       DraftAnalyzerIntegration.Options.includeItemBuilds
       DraftAnalyzerIntegration.Options.includeLaneOptimization
       DraftAnalyzerIntegration.Options.includeTimingAnalysis
       DraftAnalyzerIntegration.Options.includeProPatterns
       default from_option id].
  rewrite advancedContext_eta, H. cbn. f_equal. clear H.
  induction top as [| s top IH]; [reflexivity |].
  cbn [map]. rewrite IH. now destruct s.
Qed.

Lemma enhanced_Ok_inv (self : DraftAnalyzerIntegration.t)
  (draftState : DraftState) (options : DraftAnalyzerIntegration.Options.t) :
  exists l,
    DraftAnalyzerIntegration.getEnhancedRecommendations
      self draftState options = Ok l
    /\ descending AdvancedSuggestion.score l
    /\ (length l <= 10)%nat
    /\ forall s, In s l ->
         AdvancedDraftAnalyzer.isAvailable draftState
           (DraftAnalyzerIntegration.Options.roleFilter options)
           (AdvancedSuggestion.hero s) = true.
Proof.
  unfold DraftAnalyzerIntegration.getEnhancedRecommendations.
  destruct (AdvancedDraftAnalyzer.generateAdvancedSuggestions _ _ _ _)
    as [l0 | e] eqn:Hgen; simpl.
  - apply generate_Ok_inv in Hgen as (Hsorted & Hlen & Hin).
    eexists. split; [reflexivity |]. split; [| split].
    + eapply descending_map; [| exact Hsorted]. intros x. reflexivity.
    + now rewrite length_map.
    + intros s Hs. apply in_map_iff in Hs as (s0 & <- & Hs0).
      simpl. now apply Hin.
  - exists []. split; [reflexivity |]. split; [constructor |].
    split; [simpl; lia | intros s []].
Qed.


Variable self : DraftAnalyzer.t.
Variable draftState : DraftState.
Variable roleFilter : option (list string).

(** The [try] block never raises, so the result is always the converted
    and truncated batch of the integration layer. *)
Lemma advanced_unfold (gameContext : option GameContext) (limit : option Z)
  (l0 : list AdvancedSuggestion) :
  DraftAnalyzerIntegration.getEnhancedRecommendations
    (DraftAnalyzer.integration self) draftState
    (handedDown roleFilter gameContext)
  = Ok l0 ->
  DraftAnalyzer.generateAdvancedSuggestions
    self draftState gameContext roleFilter limit
  = Ok (Js.slice0 (map (DraftAnalyzer.convert self) l0)
          (default 10%Z limit)).
Proof.
  intros H. unfold DraftAnalyzer.generateAdvancedSuggestions.
  fold (handedDown roleFilter gameContext). now rewrite H.
Qed.

Lemma advanced_Ok (gameContext : option GameContext) (limit : option Z) :
  exists l,
    DraftAnalyzer.generateAdvancedSuggestions
      self draftState gameContext roleFilter limit = Ok l
    /\ descending AdvancedDraftSuggestion.score l
    /\ (length l <= 10)%nat
    /\ ((0 <= default 10 limit)%Z ->
        (Z.of_nat (length l) <= default 10 limit)%Z)
    /\ forall s, In s l ->
         AdvancedDraftAnalyzer.isAvailable draftState roleFilter
           (AdvancedDraftSuggestion.hero s) = true.
Proof.
  destruct (enhanced_Ok_inv (DraftAnalyzer.integration self) draftState
              (handedDown roleFilter gameContext))
    as (l0 & Hl0 & Hsorted & Hlen & Hin).
  eexists. split; [apply advanced_unfold, Hl0 |].
  split; [| split; [| split]].
  - apply descending_slice0.
    eapply descending_map; [| exact Hsorted]. intros x. reflexivity.
  - etransitivity; [apply slice0_length_le |]. now rewrite length_map.
  - apply slice0_length_limit.
  - intros s Hs. apply slice0_In, in_map_iff in Hs as (s0 & <- & Hs0).
    apply (Hin s0 Hs0).
Qed.

Lemma pickedHeroes_In (team : list (option Hero)) (h : Hero) :
  inTeam team h -> In h (pickedHeroes team).
Proof.
  unfold inTeam, pickedHeroes. intros H.
  apply list_elem_of_In, list_elem_of_omap. exists (Some h).
  split; [now apply list_elem_of_In | reflexivity].
Qed.

Lemma pickedIds_spec (h : Hero) :
  picked draftState h -> Hero.id h ∈ DraftAnalyzer.pickedIds draftState.
Proof.
  unfold DraftAnalyzer.pickedIds. intros Hp.
  apply elem_of_list_to_set, elem_of_app.
  destruct Hp as [Hp | Hp]; [left | right];
    apply list_elem_of_In, in_map, pickedHeroes_In, Hp.
Qed.

Lemma basic_facts (limit : option Z) :
  let l := DraftAnalyzer.generateSuggestions self draftState roleFilter limit
  in
  descending DraftSuggestion.score l
  /\ ((0 <= default 10 limit)%Z ->
      (Z.of_nat (length l) <= default 10 limit)%Z)
  /\ forall s, In s l ->
       In (DraftSuggestion.hero s) (DraftAnalyzer.heroes self)
       /\ forall h, picked draftState h ->
            Hero.id (DraftSuggestion.hero s) <> Hero.id h.
Proof.
  unfold DraftAnalyzer.generateSuggestions. simpl.
  split; [| split].
  - apply descending_slice0, sortDesc_descending.
  - apply slice0_length_limit.
  - intros s Hs.
    apply slice0_In, sortDesc_In, in_map_iff in Hs as (hero & <- & Hhero).
    apply filter_In in Hhero as [Hhero _].
    apply filter_In in Hhero as [Hin Hfree].
    split; [exact Hin |]. simpl. intros h Hp Hid.
    apply negb_true_iff, bool_decide_eq_false in Hfree. apply Hfree.
    rewrite Hid. now apply pickedIds_spec.
Qed.

End PipelineFacts.

(** ** The pairwise synergy predictor *)

Section SynergyFacts.

(** The inner loop adds the synergy of [hi] with each later hero, in
    order, and counts the pairs. *)
Lemma innerLoop_spec (hi : Hero) (later : list Hero) (total : Q) (n : nat) :
  MLSynergyPredictor.innerLoop hi later (total, n)
  = (fold_left
       (fun t hj => t + MLSynergyPredictor.predictHeroSynergy hi hj)
       later total,
     (n + length later)%nat).
Proof.
  unfold MLSynergyPredictor.innerLoop. revert total n.
  induction later as [| hj later IH]; intros total n; simpl.
  - f_equal. lia.
  - rewrite IH. f_equal. lia.
Qed.

(** The two loops together visit the ordered pairs [i < j]. *)
Lemma outerLoop_spec (heroes : list Hero) (total : Q) (n : nat) :
  MLSynergyPredictor.outerLoop heroes (total, n)
  = (fold_left
       (fun t p => t + MLSynergyPredictor.predictHeroSynergy (fst p) (snd p))
       (orderedPairs heroes) total,
     (n + length (orderedPairs heroes))%nat).
Proof.
  revert total n. induction heroes as [| hi later IH]; intros total n; simpl.
  - f_equal. lia.
  - rewrite innerLoop_spec, IH, fold_left_app, length_app, length_map.
    f_equal; [| lia]. f_equal.
    generalize total. clear.
    induction later as [| hj later IH]; intros total; simpl; [reflexivity |].
    apply IH.
Qed.

End SynergyFacts.

(** C10.  The pairwise synergy predictor is not commutative.  Its value is
    the base 0.5, plus 0.2 exactly when the first hero has a support-class
    role and the second a core-class role, plus 0.05 when the attack types
    differ; so Io with Anti-Mage scores 0.7 and Anti-Mage with Io 0.5.  The
    team predictor averages the pairwise value over the index pairs
    [i < j] in list order, and is therefore not invariant under a
    permutation of the team: [Io, Anti-Mage] and [Anti-Mage, Io] differ. *)
Theorem C10_synergy_not_commutative :
  (forall hero1 hero2 : Hero,
      let supportClass :=
        existsb (fun role => Js.includes MLSynergyPredictor.supportRoles role)
          (Hero.roles hero1) in
      let coreClass :=
        existsb (fun role => Js.includes MLSynergyPredictor.coreRoles role)
          (Hero.roles hero2) in
      MLSynergyPredictor.predictHeroSynergy hero1 hero2
      == 0.5
         + (if supportClass && coreClass then 0.2 else 0)
         + (if AttackType_eqb (Hero.attack_type hero1) (Hero.attack_type hero2)
            then 0 else 0.05))
  /\ (forall heroes : list Hero,
         MLSynergyPredictor.predictTeamSynergy heroes
         == if (length heroes <? 2)%nat then 0.5
            else
              fold_left
                (fun t p =>
                   t + MLSynergyPredictor.predictHeroSynergy (fst p) (snd p))
                (orderedPairs heroes) 0
              / inject_Z (Z.of_nat (length (orderedPairs heroes))))
  /\ (exists a b : Hero,
         ~ MLSynergyPredictor.predictHeroSynergy a b
           == MLSynergyPredictor.predictHeroSynergy b a)
  /\ (exists team team' : list Hero,
         Permutation team team'
         /\ ~ MLSynergyPredictor.predictTeamSynergy team
              == MLSynergyPredictor.predictTeamSynergy team').
Proof.
  split; [| split; [| split]].
  - intros hero1 hero2. cbv zeta.
    unfold MLSynergyPredictor.predictHeroSynergy.
    destruct (existsb _ (Hero.roles hero1));
      destruct (existsb _ (Hero.roles hero2));
      destruct (AttackType_eqb _ _); reflexivity.
  - intros heroes. unfold MLSynergyPredictor.predictTeamSynergy.
    destruct (length heroes <? 2)%nat eqn:Hlen; [reflexivity |].
    rewrite outerLoop_spec. simpl.
    destruct (0 <? length (orderedPairs heroes))%nat eqn:Hpairs;
      [reflexivity |].
    apply Nat.ltb_ge in Hlen, Hpairs.
    destruct heroes as [| h1 [| h2 rest]]; simpl in *; lia.
  - exists Examples.io, Examples.antimage. intros H. vm_compute in H.
    discriminate H.
  - exists [Examples.io; Examples.antimage],
      [Examples.antimage; Examples.io].
    split; [apply perm_swap |]. intros H. vm_compute in H. discriminate H.
Qed.

(** ** The weighted total *)

(** C2.  The total score of a breakdown is the weighted sum of its eight
    factors with the weights counter 0.20, synergy 0.20, meta 0.15,
    item-synergy 0.15, lane-optimization 0.10, timing 0.10, pro-pattern 0.05
    and ml-synergy 0.05; the weight table has exactly the eight keys of a
    breakdown, and its weights add up to 1. *)
Theorem C2_total_is_weighted_sum :
  (forall b : ScoreBreakdown,
      AdvancedDraftAnalyzer.calculateTotalScore b
      == 0.20 * ScoreBreakdown.counter b
         + 0.20 * ScoreBreakdown.synergy b
         + 0.15 * ScoreBreakdown.meta b
         + 0.15 * ScoreBreakdown.itemSynergy b
         + 0.10 * ScoreBreakdown.laneOptimization b
         + 0.10 * ScoreBreakdown.timing b
         + 0.05 * ScoreBreakdown.proPattern b
         + 0.05 * ScoreBreakdown.mlSynergy b)
  /\ (forall b : ScoreBreakdown,
         map fst (ScoreBreakdown.entries b)
         = map fst AdvancedDraftAnalyzer.weights)
  /\ Qsum (map snd AdvancedDraftAnalyzer.weights) == 1.
Proof.
  split; [| split].
  - intros b. unfold AdvancedDraftAnalyzer.calculateTotalScore.
    cbn. ring.
  - intros b. reflexivity.
  - vm_compute. reflexivity.
Qed.

(** ** The timing analyzer *)

Section TimingFacts.

(** Closes a bound between two closed rationals. *)
Ltac closed_bound := apply Qle_bool_iff; vm_compute; reflexivity.

(** Splits on every role and attribute test of a power formula, then
    checks the bounds of each closed sum. *)
Ltac power_cases :=
  repeat match goal with
    | |- context [Js.includes ?r ?x] => destruct (Js.includes r x)
    | |- context [PrimaryAttr_eqb ?a ?b] => destruct (PrimaryAttr_eqb a b)
    end;
  split; closed_bound.

Lemma calculateEarlyPower_bounds (hero : Hero) :
  0 <= TimingAnalyzer.calculateEarlyPower hero <= 1.
Proof. unfold TimingAnalyzer.calculateEarlyPower. power_cases. Qed.

Lemma calculateMidPower_bounds (hero : Hero) :
  0 <= TimingAnalyzer.calculateMidPower hero <= 1.
Proof. unfold TimingAnalyzer.calculateMidPower. power_cases. Qed.

Lemma calculateLatePower_bounds (hero : Hero) :
  0 <= TimingAnalyzer.calculateLatePower hero <= 1.
Proof. unfold TimingAnalyzer.calculateLatePower. power_cases. Qed.

Lemma truthy_false (x : Q) : Js.truthy x = false -> x == 0.
Proof.
  unfold Js.truthy. intros H. apply negb_false_iff in H.
  now apply Qeq_bool_iff.
Qed.

(** [Math.max(60, expectedDuration || 40)] against the duration itself. *)
Lemma lateEnd_spec (d : Q) :
  (d <= 60 -> Js.max 60 (Js.or_else d 40) == 60)
  /\ (60 <= d -> Js.max 60 (Js.or_else d 40) == d).
Proof.
  unfold Js.or_else. destruct (Js.truthy d) eqn:Ht.
  - destruct (max_cases 60 d) as [[Hle ->] | [Hlt ->]]; split; intros H; lra.
  - apply truthy_false in Ht.
    assert (Hmax : Js.max 60 40 == 60) by (vm_compute; reflexivity).
    split; intros H; [exact Hmax | lra].
Qed.

End TimingFacts.

(** C7.  For every hero and game context the timing analyzer returns exactly
    three windows, early, mid and late in that order.  The early window
    starts at 0 and ends at 12 when the playstyle is aggressive and at 15
    otherwise; the mid window spans 15 to 35; the late window starts at 35
    and ends at the larger of 60 and the expected duration (at 60 when no
    duration is given); every power level lies between 0 and 1. *)
Theorem C7_timing_windows (hero : Hero) (gameContext : GameContext) :
  exists e m l : TimingWindow,
    TimingAnalyzer.analyzeTimingWindows hero gameContext = [e; m; l]
    /\ (TimingWindow.phase e = early
        /\ TimingWindow.start e == 0
        /\ TimingWindow.end_ e
           == match GameContext.playstyle gameContext with
              | Some aggressive => 12
              | _ => 15
              end)
    /\ (TimingWindow.phase m = mid
        /\ TimingWindow.start m == 15
        /\ TimingWindow.end_ m == 35)
    /\ (TimingWindow.phase l = late
        /\ TimingWindow.start l == 35
        /\ match GameContext.expectedDuration gameContext with
           | Some d =>
               (d <= 60 -> TimingWindow.end_ l == 60)
               /\ (60 <= d -> TimingWindow.end_ l == d)
           | None => TimingWindow.end_ l == 60
           end)
    /\ Forall
         (fun w =>
            0 <= TimingWindow.powerLevel w /\ TimingWindow.powerLevel w <= 1)
         [e; m; l].
Proof.
  unfold TimingAnalyzer.analyzeTimingWindows.
  do 3 eexists. split; [reflexivity |]. simpl.
  split; [| split; [| split]].
  - repeat split; try reflexivity.
    destruct (GameContext.playstyle gameContext) as [[] |]; reflexivity.
  - repeat split; reflexivity.
  - split; [reflexivity |]. split; [reflexivity |].
    destruct (GameContext.expectedDuration gameContext) as [d |].
    + apply lateEnd_spec.
    + vm_compute. reflexivity.
  - repeat constructor.
    + apply calculateEarlyPower_bounds.
    + apply calculateEarlyPower_bounds.
    + apply calculateMidPower_bounds.
    + apply calculateMidPower_bounds.
    + apply calculateLatePower_bounds.
    + apply calculateLatePower_bounds.
Qed.

(** ** The lane optimizer *)

Section LaneFacts.

Lemma claim_mono (s : gset Z) (h : Hero) : s ⊆ LaneOptimizer.claim s h.
Proof.
  unfold LaneOptimizer.claim.
  repeat match goal with
    | |- context [Js.includes ?r ?x] => destruct (Js.includes r x)
    end; set_solver.
Qed.

Lemma fold_claim_mono (heroes : list Hero) (s : gset Z) :
  s ⊆ fold_left LaneOptimizer.claim heroes s.
Proof.
  revert s. induction heroes as [| h heroes IH]; intros s; simpl.
  - reflexivity.
  - etransitivity; [apply claim_mono | apply IH].
Qed.

Lemma claim_own (s : gset Z) (h : Hero) (role : string) (pos : Z) :
  canonical role pos -> Js.includes (Hero.roles h) role = true ->
  pos ∈ LaneOptimizer.claim s h.
Proof.
  unfold LaneOptimizer.claim.
  intros [[-> ->] | [[-> ->] | [[-> ->] | [-> ->]]]] ->;
    repeat match goal with
      | |- context [Js.includes ?r ?x] => destruct (Js.includes r x)
      end; set_solver.
Qed.

(** Every hero of the team has claimed the canonical position of each of
    its roles before any position is handed out, its own included. *)
Lemma takenPositions_own (heroes : list Hero) (h : Hero)
  (role : string) (pos : Z) :
  In h heroes -> canonical role pos ->
  Js.includes (Hero.roles h) role = true ->
  LaneOptimizer.has (LaneOptimizer.takenPositions heroes) pos = true.
Proof.
  unfold LaneOptimizer.has, LaneOptimizer.takenPositions.
  intros Hin Hcan Hrole. apply bool_decide_eq_true.
  generalize (∅ : gset Z).
  induction heroes as [| h' heroes IH]; intros s; [contradiction |].
  simpl. destruct Hin as [-> | Hin].
  - apply fold_claim_mono. now apply claim_own with (role := role).
  - now apply IH.
Qed.

(** A member of the team never gets its canonical position: it gets the
    first unclaimed one, like every other member. *)
Lemma determineOptimalPosition_member (heroes : list Hero) (hero : Hero) :
  In hero heroes ->
  LaneOptimizer.determineOptimalPosition hero heroes = firstFree heroes.
Proof.
  intros Hin. unfold LaneOptimizer.determineOptimalPosition, firstFree.
  assert (Hown : forall role pos, canonical role pos ->
            Js.includes (Hero.roles hero) role
            && negb (LaneOptimizer.has
                       (LaneOptimizer.takenPositions heroes) pos) = false).
  { intros role pos Hcan.
    destruct (Js.includes (Hero.roles hero) role) eqn:Hrole; [| reflexivity].
    now rewrite (takenPositions_own heroes hero role pos Hin Hcan Hrole). }
  rewrite (Hown "Carry"%string 1%Z), (Hown "Nuker"%string 2%Z),
    (Hown "Initiator"%string 3%Z), (Hown "Support"%string 5%Z);
    unfold canonical; tauto.
Qed.

Lemma optimizeLanes_same_position (heroes : list Hero)
  (a : LaneAssignment) :
  In a (LaneOptimizer.optimizeLanes heroes) ->
  LaneAssignment.position a = firstFree heroes.
Proof.
  unfold LaneOptimizer.optimizeLanes. intros Ha.
  apply in_map_iff in Ha as (hero & <- & Hin). simpl.
  now apply determineOptimalPosition_member.
Qed.

End LaneFacts.

(** C4.  The lane optimizer at a team of four heroes tagged Carry, Nuker,
    Initiator and Support, one role each: all four heroes are assigned
    position 4.  Each hero's canonical position is claimed by the hero
    itself when the taken positions are collected, so none of the four
    gets it and the four assignments collide. *)
Theorem C4_lane_collision :
  map LaneAssignment.position
    (LaneOptimizer.optimizeLanes
       [Examples.antimage; Examples.lina; Examples.axe; Examples.io])
  = [4; 4; 4; 4]%Z.
Proof. vm_compute. reflexivity. Qed.

(** ** The counter score *)

Section CounterFacts.
Variable self : DraftAnalyzer.t.

(** The loop adds the valid win rates to [totalScore] and counts them in
    [validMatchups]. *)
Lemma counterLoop_spec (matchups : list HeroMatchupData)
  (enemyHeroes : list Hero) (total : Q) (n : nat) :
  let rates :=
    CounterSpec.validRates CounterSpec.moreThan10 matchups enemyHeroes in
  let result :=
    fold_left (DraftAnalyzer.counterStep matchups) enemyHeroes (total, n) in
  fst result == total + Qsum rates
  /\ snd result = (n + length rates)%nat.
Proof.
  cbv zeta. revert total n. induction enemyHeroes as [| enemy rest IH];
    intros total n; simpl.
  - split; [lra | lia].
  - unfold CounterSpec.moreThan10.
    destruct (List.find _ matchups) as [m |]; simpl.
    + destruct (Js.gt (HeroMatchupData.games_played m) 10); simpl.
      * destruct (IH (total + OpenDota.calculateWinRate
                                (HeroMatchupData.wins m)
                                (HeroMatchupData.games_played m))
                    (S n)) as [Ht Hn].
        simpl in Ht, Hn.
        change (fun games : Q => Js.gt games 10)
          with CounterSpec.moreThan10.
        split; [rewrite Ht; unfold Qsum; simpl; lra | lia].
      * apply IH.
    + apply IH.
Qed.

End CounterFacts.

(** C3, as it stands, fails: with one matchup record of exactly 10 games
    against the only enemy (7 wins), a threshold of at least 10 games would
    count the record and give its win rate, 70; the analyzer returns the
    neutral 50. *)
Lemma C3_counterexample :
  ~ DraftAnalyzer.getCounterScore
      (analyzerWith Examples.roster [] Examples.tenGames)
      (Hero.id Examples.lina) [Examples.antimage]
    == CounterSpec.counterScore CounterSpec.atLeast10
         Examples.tenGames (Hero.id Examples.lina) [Examples.antimage].
Proof. intros H. vm_compute in H. discriminate H. Qed.

(** C3, amended.  For every hero and enemy team, the counter score takes,
    for each enemy hero whose matchup record (the first one stored for that
    enemy) has more than 10 games, that record's win rate, and returns the
    average of these win rates; it returns the neutral 50 when the enemy
    list is empty, when the hero has no matchup data, or when no record has
    more than 10 games. *)
Theorem C3_counter_score_more_than_10_games (self : DraftAnalyzer.t)
  (heroId : Z) (enemyHeroes : list Hero) :
  DraftAnalyzer.getCounterScore self heroId enemyHeroes
  == CounterSpec.counterScore CounterSpec.moreThan10
       (DraftAnalyzer.matchupData self) heroId enemyHeroes.
Proof.
  unfold DraftAnalyzer.getCounterScore, CounterSpec.counterScore.
  destruct enemyHeroes as [| enemy rest]; [reflexivity |].
  change (length (enemy :: rest) =? 0)%nat with false. cbv iota.
  destruct (DraftAnalyzer.matchupData self !! heroId) as [matchups |];
    [| reflexivity].
  pose proof (counterLoop_spec matchups (enemy :: rest) 0 O) as H.
  cbv zeta in H. revert H.
  generalize
    (CounterSpec.validRates CounterSpec.moreThan10 matchups (enemy :: rest)).
  destruct (fold_left _ (enemy :: rest) (0, O)) as [totalScore validMatchups].
  intros rates [Ht Hn]. cbn [fst snd Nat.add] in Ht, Hn. subst validMatchups.
  destruct rates as [| r rates]; [reflexivity |].
  change (0 <? length (r :: rates))%nat with true. cbv iota.
  rewrite Ht. apply Qdiv_comp; [lra | reflexivity].
Qed.

(** ** Suggestion generation *)

(** C1.  No hero that occupies a slot of either team is the hero of a
    returned suggestion: this holds for the list the advanced analyzer
    returns, for the list of the basic generator, and for the list of the
    advanced generator of the draft analyzer, each of which is returned
    for every draft state, role filter and limit. *)
Theorem C1_picked_heroes_excluded
  (heroes : list Hero) (heroStats : list HeroStats)
  (matchupData : gmap Z (list HeroMatchupData))
  (draftState : DraftState) (context : GameContext)
  (gameContext : option GameContext)
  (roleFilter : option (list string)) (limit : option Z) :
  (exists l,
      AdvancedDraftAnalyzer.generateAdvancedSuggestions
        (AdvancedDraftAnalyzer.new heroes heroStats)
        draftState context roleFilter = Ok l
      /\ forall s h, In s l -> picked draftState h ->
           Hero.id (AdvancedSuggestion.hero s) <> Hero.id h)
  /\ (forall s h,
         In s (DraftAnalyzer.generateSuggestions
                 (analyzerWith heroes heroStats matchupData)
                 draftState roleFilter limit) ->
         picked draftState h ->
         Hero.id (DraftSuggestion.hero s) <> Hero.id h)
  /\ (exists l,
         DraftAnalyzer.generateAdvancedSuggestions
           (analyzerWith heroes heroStats matchupData)
           draftState gameContext roleFilter limit = Ok l
         /\ forall s h, In s l -> picked draftState h ->
              Hero.id (AdvancedDraftSuggestion.hero s) <> Hero.id h).
Proof.
  split; [| split].
  - destruct (new_generate_total heroes heroStats draftState context
                roleFilter) as [l Hl].
    exists l. split; [exact Hl |]. intros s h Hs Hp.
    apply generate_Ok_inv in Hl as (_ & _ & Hin).
    destruct (Hin s Hs) as [_ Hav].
    exact (isAvailable_not_picked draftState roleFilter _ h Hav Hp).
  - intros s h Hs Hp.
    destruct (basic_facts (analyzerWith heroes heroStats matchupData)
                draftState roleFilter limit) as (_ & _ & Hin).
    destruct (Hin s Hs) as [_ Hfree]. now apply Hfree.
  - destruct (advanced_Ok (analyzerWith heroes heroStats matchupData)
                draftState roleFilter gameContext limit)
      as (l & Hl & _ & _ & _ & Hin).
    exists l. split; [exact Hl |]. intros s h Hs Hp.
    exact (isAvailable_not_picked draftState roleFilter _ h (Hin s Hs) Hp).
Qed.

(** In the example draft Anti-Mage (id 1) and Io (id 91) are picked; the
    ten suggestions out of the sixteen heroes of the roster are Lina and
    nine of the fillers. *)
Example excluded_in_example_draft :
  exists l,
    DraftAnalyzer.generateAdvancedSuggestions
      (analyzerWith Examples.roster [] Examples.tenGames)
      Examples.draft None None (Some 15%Z) = Ok l
    /\ map (fun s => Hero.id (AdvancedDraftSuggestion.hero s)) l
       = [25; 101; 102; 103; 104; 105; 106; 107; 108; 109]%Z.
Proof. eexists. split; vm_compute; reflexivity. Qed.

(** C6.  For every draft state, game context, role filter and limit (a
    count, so not negative), the list that suggestion generation returns
    is in descending order of score and holds at most [limit] suggestions;
    this holds for the advanced generator of the draft analyzer and for
    the basic generator, and the list of the advanced analyzer that feeds
    the former is in descending order as well. *)
Theorem C6_sorted_and_limited
  (heroes : list Hero) (heroStats : list HeroStats)
  (matchupData : gmap Z (list HeroMatchupData))
  (draftState : DraftState) (gameContext : option GameContext)
  (roleFilter : option (list string)) (limit : Z)
  (Hlimit : (0 <= limit)%Z) :
  (exists l,
      DraftAnalyzer.generateAdvancedSuggestions
        (analyzerWith heroes heroStats matchupData)
        draftState gameContext roleFilter (Some limit) = Ok l
      /\ descending AdvancedDraftSuggestion.score l
      /\ (Z.of_nat (length l) <= limit)%Z)
  /\ (let l :=
        DraftAnalyzer.generateSuggestions
          (analyzerWith heroes heroStats matchupData)
          draftState roleFilter (Some limit) in
      descending DraftSuggestion.score l
      /\ (Z.of_nat (length l) <= limit)%Z)
  /\ (exists l,
         AdvancedDraftAnalyzer.generateAdvancedSuggestions
           (AdvancedDraftAnalyzer.new heroes heroStats)
           draftState (default GameContext.empty gameContext) roleFilter
         = Ok l
         /\ descending AdvancedSuggestion.score l).
Proof.
  split; [| split].
  - destruct (advanced_Ok (analyzerWith heroes heroStats matchupData)
                draftState roleFilter gameContext (Some limit))
      as (l & Hl & Hsorted & _ & Hlen & _).
    exists l. split; [exact Hl |]. split; [exact Hsorted |].
    now apply Hlen.
  - destruct (basic_facts (analyzerWith heroes heroStats matchupData)
                draftState roleFilter (Some limit)) as (Hsorted & Hlen & _).
    split; [exact Hsorted | now apply Hlen].
  - destruct (new_generate_total heroes heroStats draftState
                (default GameContext.empty gameContext) roleFilter)
      as [l Hl].
    exists l. split; [exact Hl |].
    now apply generate_Ok_inv in Hl as (Hsorted & _).
Qed.

(** C6 at a concrete query: the sixteen heroes of the example roster, the
    example draft, no context, no role filter and the limit 15. *)
Lemma C6_witness :
  (0 <= 15)%Z
  /\ exists l,
       DraftAnalyzer.generateAdvancedSuggestions
         (analyzerWith Examples.roster [] Examples.tenGames)
         Examples.draft None None (Some 15%Z) = Ok l
       /\ descending AdvancedDraftSuggestion.score l
       /\ (Z.of_nat (length l) <= 15)%Z.
Proof.
  assert (H15 : (0 <= 15)%Z) by lia.
  split; [exact H15 |].
  exact (proj1 (C6_sorted_and_limited Examples.roster [] Examples.tenGames
                  Examples.draft None None 15%Z H15)).
Defined.

(** A negative limit is not a count: [slice(0, -1)] drops the last element
    only, so 13 of the 14 candidates of the example draft come back. *)
Example negative_limit_counts_from_the_back :
  length
    (DraftAnalyzer.generateSuggestions
       (analyzerWith Examples.roster [] Examples.tenGames)
       Examples.draft None (Some (-1)%Z))
  = 13%nat.
Proof. vm_compute. reflexivity. Qed.

(** C8.  With an empty hero list, suggestion generation returns the empty
    list and raises nothing, for every draft state, game context and role
    filter: in the advanced analyzer, in the advanced generator of the
    draft analyzer and in the basic generator. *)
Theorem C8_empty_roster
  (heroStats : list HeroStats)
  (matchupData : gmap Z (list HeroMatchupData))
  (draftState : DraftState) (context : GameContext)
  (gameContext : option GameContext)
  (roleFilter : option (list string)) (limit : option Z) :
  AdvancedDraftAnalyzer.generateAdvancedSuggestions
    (AdvancedDraftAnalyzer.new [] heroStats) draftState context roleFilter
  = Ok []
  /\ DraftAnalyzer.generateAdvancedSuggestions
       (analyzerWith [] heroStats matchupData)
       draftState gameContext roleFilter limit
     = Ok []
  /\ DraftAnalyzer.generateSuggestions
       (analyzerWith [] heroStats matchupData) draftState roleFilter limit
     = [].
Proof.
  split; [reflexivity |]. split.
  - unfold DraftAnalyzer.generateAdvancedSuggestions. simpl.
    now rewrite slice0_nil.
  - unfold DraftAnalyzer.generateSuggestions. simpl. apply slice0_nil.
Qed.

(** The first ten of the sorted batch are its ten best. *)
Lemma sorted_cut_is_top {A : Type} (score : A -> Q) (batch : list A) :
  topOf score 10 batch (Js.slice0 (Js.sortDesc score batch) 10).
Proof.
  split; [| split; [| split]].
  - rewrite slice0_length by lia. now rewrite sortDesc_length.
  - apply descending_slice0, sortDesc_descending.
  - intros x Hx. now apply slice0_In, sortDesc_In in Hx.
  - intros x Hx. now apply top_of_sorted.
Qed.

(** C9.  The advanced pipeline returns at most 10 suggestions whatever the
    requested limit.  The advanced analyzer scores every candidate and
    cuts the sorted batch to its top 10: a candidate that is left out
    scores no more than any suggestion kept.  The draft analyzer applies
    the caller's limit afterwards, to the conversion of these 10.  With the
    sixteen heroes of the example roster, an empty draft and the limit 15,
    exactly 10 suggestions come back. *)
Theorem C9_advanced_at_most_ten
  (heroes : list Hero) (heroStats : list HeroStats)
  (matchupData : gmap Z (list HeroMatchupData))
  (draftState : DraftState) (context : GameContext)
  (gameContext : option GameContext)
  (roleFilter : option (list string)) (limit : option Z) :
  (exists batch l,
      mapM
        (AdvancedDraftAnalyzer.suggest
           (AdvancedDraftAnalyzer.new heroes heroStats) draftState context)
        (List.filter (AdvancedDraftAnalyzer.isAvailable draftState roleFilter)
           heroes)
      = Ok batch
      /\ AdvancedDraftAnalyzer.generateAdvancedSuggestions
           (AdvancedDraftAnalyzer.new heroes heroStats)
           draftState context roleFilter = Ok l
      /\ (length l <= 10)%nat
      /\ topOf AdvancedSuggestion.score 10 batch l)
  /\ (exists top l,
         AdvancedDraftAnalyzer.generateAdvancedSuggestions
           (AdvancedDraftAnalyzer.new heroes heroStats)
           draftState (default GameContext.empty gameContext) roleFilter
         = Ok top
         /\ DraftAnalyzer.generateAdvancedSuggestions
              (analyzerWith heroes heroStats matchupData)
              draftState gameContext roleFilter limit = Ok l
         /\ (length l <= 10)%nat
         /\ l = Js.slice0
                  (map
                     (DraftAnalyzer.convert
                        (analyzerWith heroes heroStats matchupData))
                     top)
                  (default 10%Z limit))
  /\ (exists l,
         DraftAnalyzer.generateAdvancedSuggestions
           (analyzerWith Examples.roster [] ∅)
           Examples.emptyDraft None None (Some 15%Z) = Ok l
         /\ length Examples.roster = 16%nat
         /\ length l = 10%nat).
Proof.
  split; [| split].
  - destruct
      (mapM_total
         (AdvancedDraftAnalyzer.suggest
            (AdvancedDraftAnalyzer.new heroes heroStats) draftState context)
         (List.filter
            (AdvancedDraftAnalyzer.isAvailable draftState roleFilter) heroes))
      as [batch Hbatch].
    { intros x _. apply new_suggest_total. }
    exists batch.
    exists (Js.slice0 (Js.sortDesc AdvancedSuggestion.score batch) 10).
    assert (Hl :
              AdvancedDraftAnalyzer.generateAdvancedSuggestions
                (AdvancedDraftAnalyzer.new heroes heroStats)
                draftState context roleFilter
              = Ok (Js.slice0
                      (Js.sortDesc AdvancedSuggestion.score batch) 10)).
    { unfold AdvancedDraftAnalyzer.generateAdvancedSuggestions.
      cbn [AdvancedDraftAnalyzer.heroes AdvancedDraftAnalyzer.new].
      now rewrite Hbatch. }
    split; [exact Hbatch |]. split; [exact Hl |].
    split; [| apply sorted_cut_is_top].
    now apply generate_Ok_inv in Hl as (_ & Hlen & _).
  - destruct (new_generate_total heroes heroStats draftState
                (default GameContext.empty gameContext) roleFilter)
      as [top Htop].
    exists top. eexists. split; [exact Htop |].
    assert (Hl :
              DraftAnalyzer.generateAdvancedSuggestions
                (analyzerWith heroes heroStats matchupData)
                draftState gameContext roleFilter limit
              = Ok (Js.slice0
                      (map
                         (DraftAnalyzer.convert
                            (analyzerWith heroes heroStats matchupData))
                         top)
                      (default 10%Z limit))).
    { apply advanced_unfold, enhanced_handedDown. exact Htop. }
    split; [exact Hl |]. split; [| reflexivity].
    etransitivity; [apply slice0_length_le |]. rewrite length_map.
    now apply generate_Ok_inv in Htop as (_ & Hlen & _).
  - eexists. split; [vm_compute; reflexivity |]. split; reflexivity.
Qed.

(** ** Exceptions in a delegated computation *)



(* ================================================================== *)
(** * Further properties of the analyzers *)

(** ** Ranges of the synergy predictor *)

(** Decides a comparison of two closed rationals. *)
Ltac closed_le := apply Qle_bool_iff; vm_compute; reflexivity.

(** Splits on every boolean test of a heuristic score, then checks each
    closed sum against its bounds. *)
Ltac score_cases :=
  repeat match goal with
    | |- context [Js.includes ?r ?x] => destruct (Js.includes r x)
    | |- context [PrimaryAttr_eqb ?a ?b] => destruct (PrimaryAttr_eqb a b)
    | |- context [AttackType_eqb ?a ?b] => destruct (AttackType_eqb a b)
    | |- context [existsb ?f ?l] => destruct (existsb f l)
    end;
  repeat split; closed_le.

Section SynergyRanges.

Lemma predictHeroSynergy_bounds (hero1 hero2 : Hero) :
  0.5 <= MLSynergyPredictor.predictHeroSynergy hero1 hero2
  /\ MLSynergyPredictor.predictHeroSynergy hero1 hero2 <= 0.75.
Proof. unfold MLSynergyPredictor.predictHeroSynergy. score_cases. Qed.

Lemma inject_nat_S (n : nat) :
  inject_Z (Z.of_nat (S n)) == inject_Z (Z.of_nat n) + 1.
Proof. rewrite Nat2Z.inj_succ, <- Z.add_1_r, inject_Z_plus. reflexivity. Qed.

Lemma inject_nat_nonneg (n : nat) : 0 <= inject_Z (Z.of_nat n).
Proof.
  change 0 with (inject_Z 0). rewrite <- Zle_Qle. apply Nat2Z.is_nonneg.
Qed.

(** A running sum of terms between [lo] and [hi]. *)
Lemma fold_sum_bounds {A : Type} (g : A -> Q) (lo hi : Q) (l : list A)
  (total : Q) :
  Forall (fun x => lo <= g x /\ g x <= hi) l ->
  total + lo * inject_Z (Z.of_nat (length l))
  <= fold_left (fun t x => t + g x) l total
  /\ fold_left (fun t x => t + g x) l total
     <= total + hi * inject_Z (Z.of_nat (length l)).
Proof.
  intros H. revert total. induction H as [| x l [Hlo Hhi] _ IH]; intros total.
  - cbn [fold_left length]. change (inject_Z (Z.of_nat 0)) with 0.
    split; lra.
  - cbn [fold_left length]. rewrite inject_nat_S.
    destruct (IH (total + g x)) as [IHlo IHhi]. split; lra.
Qed.

(** The mean of a positive number of terms between [lo] and [hi]. *)
Lemma mean_bounds (sum lo hi : Q) (n : nat) :
  (0 < n)%nat ->
  lo * inject_Z (Z.of_nat n) <= sum -> sum <= hi * inject_Z (Z.of_nat n) ->
  lo <= sum / inject_Z (Z.of_nat n) /\ sum / inject_Z (Z.of_nat n) <= hi.
Proof.
  intros Hn Hlo Hhi.
  assert (Hpos : 0 < inject_Z (Z.of_nat n)).
  { change 0 with (inject_Z 0). rewrite <- Zlt_Qlt. lia. }
  split; [apply Qle_shift_div_l | apply Qle_shift_div_r]; assumption.
Qed.

Lemma predictTeamSynergy_bounds (heroes : list Hero) :
  0.5 <= MLSynergyPredictor.predictTeamSynergy heroes
  /\ MLSynergyPredictor.predictTeamSynergy heroes <= 0.75.
Proof.
  unfold MLSynergyPredictor.predictTeamSynergy.
  destruct (length heroes <? 2)%nat; [split; closed_le |].
  rewrite outerLoop_spec. cbn [Nat.add].
  destruct (0 <? length (orderedPairs heroes))%nat eqn:Hn;
    [| split; closed_le].
  apply Nat.ltb_lt in Hn.
  destruct (fold_sum_bounds
              (fun p => MLSynergyPredictor.predictHeroSynergy (fst p) (snd p))
              0.5 0.75 (orderedPairs heroes) 0) as [Hlo Hhi].
  { apply List.Forall_forall. intros p _. apply predictHeroSynergy_bounds. }
  apply mean_bounds; [exact Hn | lra | lra].
Qed.

End SynergyRanges.

(** X1.  The pairwise synergy of two heroes and the synergy of a team both
    lie between 0.5 and 0.75, whatever the heroes: the clamp to [0, 1] in
    the pairwise predictor never changes a value. *)
Theorem synergy_between_half_and_three_quarters :
  (forall hero1 hero2 : Hero,
      0.5 <= MLSynergyPredictor.predictHeroSynergy hero1 hero2
      /\ MLSynergyPredictor.predictHeroSynergy hero1 hero2 <= 0.75)
  /\ (forall heroes : list Hero,
         0.5 <= MLSynergyPredictor.predictTeamSynergy heroes
         /\ MLSynergyPredictor.predictTeamSynergy heroes <= 0.75).
Proof.
  split; [apply predictHeroSynergy_bounds | apply predictTeamSynergy_bounds].
Qed.

(** ** Positions and confidences of the lane optimizer *)

Section LaneRanges.

Lemma claim_range (s : gset Z) (h : Hero) :
  4%Z ∉ s -> 4%Z ∉ LaneOptimizer.claim s h.
Proof.
  unfold LaneOptimizer.claim. intros Hs.
  repeat match goal with
    | |- context [Js.includes ?r ?x] => destruct (Js.includes r x)
    end;
    rewrite ?not_elem_of_union, ?not_elem_of_singleton;
    repeat split; first [exact Hs | lia].
Qed.

(** No role claims position 4. *)
Lemma takenPositions_never_4 (heroes : list Hero) :
  LaneOptimizer.has (LaneOptimizer.takenPositions heroes) 4 = false.
Proof.
  unfold LaneOptimizer.has, LaneOptimizer.takenPositions.
  apply bool_decide_eq_false.
  assert (H : 4%Z ∉ (∅ : gset Z)) by apply not_elem_of_empty.
  revert H. generalize (∅ : gset Z).
  induction heroes as [| h heroes IH]; intros s Hs; simpl; [exact Hs |].
  apply IH. now apply claim_range.
Qed.

(** The position that every member gets is 1, 2, 3 or 4, and when it is
    not 4 no member's role claims it. *)
Lemma firstFree_cases (heroes : list Hero) :
  firstFree heroes = 4%Z
  \/ ((firstFree heroes = 1%Z \/ firstFree heroes = 2%Z
       \/ firstFree heroes = 3%Z)
      /\ LaneOptimizer.has (LaneOptimizer.takenPositions heroes)
           (firstFree heroes) = false).
Proof.
  unfold firstFree. cbn [List.find].
  destruct (LaneOptimizer.has _ 1) eqn:H1; cbn [negb];
    [| right; split; [now left | exact H1]].
  destruct (LaneOptimizer.has _ 2) eqn:H2; cbn [negb];
    [| right; split; [right; now left | exact H2]].
  destruct (LaneOptimizer.has _ 3) eqn:H3; cbn [negb];
    [| right; split; [right; now right | exact H3]].
  rewrite takenPositions_never_4. now left.
Qed.

(** A member's own role never marks the position it gets. *)
Lemma member_not_canonical (heroes : list Hero) (hero : Hero)
  (role : string) :
  In hero heroes -> canonical role (firstFree heroes) ->
  LaneOptimizer.has (LaneOptimizer.takenPositions heroes) (firstFree heroes)
  = false ->
  Js.includes (Hero.roles hero) role = false.
Proof.
  intros Hin Hcan Hfree.
  destruct (Js.includes (Hero.roles hero) role) eqn:Hrole; [| reflexivity].
  rewrite (takenPositions_own heroes hero role _ Hin Hcan Hrole) in Hfree.
  discriminate.
Qed.

(** The confidence of a member: 0.5, 0.6 with the attribute bonus, or 0.8
    for a Support at position 4. *)
Lemma member_confidence (heroes : list Hero) (hero : Hero) :
  In hero heroes ->
  let c :=
    LaneOptimizer.calculatePositionConfidence hero (firstFree heroes) in
  c == 0.5 \/ c == 0.6
  \/ (c == 0.8 /\ firstFree heroes = 4%Z
      /\ Js.includes (Hero.roles hero) "Support" = true).
Proof.
  intros Hin. cbv zeta.
  destruct (firstFree_cases heroes) as [H4 | [[H1 | [H2 | H3]] Hfree]].
  - rewrite H4. unfold LaneOptimizer.calculatePositionConfidence.
    cbn [Z.eqb Pos.eqb andb].
    destruct (Js.includes (Hero.roles hero) "Support");
      [right; right; split; [| now split] | left]; vm_compute; reflexivity.
  - assert (Hrole := member_not_canonical heroes hero "Carry" Hin).
    rewrite H1 in *. unfold LaneOptimizer.calculatePositionConfidence.
    rewrite Hrole by (unfold canonical; tauto).
    cbn [Z.eqb Pos.eqb andb].
    destruct (PrimaryAttr_eqb _ _);
      [right; left | left]; vm_compute; reflexivity.
  - assert (Hrole := member_not_canonical heroes hero "Nuker" Hin).
    rewrite H2 in *. unfold LaneOptimizer.calculatePositionConfidence.
    rewrite Hrole by (unfold canonical; tauto).
    cbn [Z.eqb Pos.eqb andb].
    destruct (PrimaryAttr_eqb _ _);
      [right; left | left]; vm_compute; reflexivity.
  - assert (Hrole := member_not_canonical heroes hero "Initiator" Hin).
    rewrite H3 in *. unfold LaneOptimizer.calculatePositionConfidence.
    rewrite Hrole by (unfold canonical; tauto).
    cbn [Z.eqb Pos.eqb andb].
    destruct (PrimaryAttr_eqb _ _);
      [right; left | left]; vm_compute; reflexivity.
Qed.

Lemma optimizeLanes_heroes (heroes : list Hero) :
  map LaneAssignment.hero (LaneOptimizer.optimizeLanes heroes) = heroes.
Proof.
  unfold LaneOptimizer.optimizeLanes. rewrite map_map. apply map_id.
Qed.

Lemma optimizeLanes_member (heroes : list Hero) (a : LaneAssignment) :
  In a (LaneOptimizer.optimizeLanes heroes) ->
  In (LaneAssignment.hero a) heroes
  /\ LaneAssignment.position a = firstFree heroes
  /\ LaneAssignment.confidence a
     = LaneOptimizer.calculatePositionConfidence
         (LaneAssignment.hero a) (firstFree heroes).
Proof.
  unfold LaneOptimizer.optimizeLanes. intros Ha.
  apply in_map_iff in Ha as (hero & <- & Hin). cbn.
  rewrite (determineOptimalPosition_member heroes hero Hin). now repeat split.
Qed.

End LaneRanges.

(** X2.  The lane optimizer returns one assignment per hero, in input
    order, and gives every hero of the team the same position, which is
    1, 2, 3 or 4: position 5 is never assigned. *)
Theorem optimizeLanes_one_shared_position (heroes : list Hero) :
  map LaneAssignment.hero (LaneOptimizer.optimizeLanes heroes) = heroes
  /\ exists pos : Z,
       (1 <= pos <= 4)%Z
       /\ Forall (fun a => LaneAssignment.position a = pos)
            (LaneOptimizer.optimizeLanes heroes).
Proof.
  split; [apply optimizeLanes_heroes |].
  exists (firstFree heroes). split.
  - destruct (firstFree_cases heroes) as [-> | [[-> | [-> | ->]] _]]; lia.
  - apply List.Forall_forall. intros a Ha.
    now apply optimizeLanes_member in Ha as (_ & Hpos & _).
Qed.

(** X3.  Every confidence that the lane optimizer reports is 0.5, 0.6 or
    0.8, and 0.8 only for a hero tagged Support at position 4: the 0.4
    bonus for a hero at the position of its own role is never awarded. *)
Theorem optimizeLanes_confidences (heroes : list Hero) :
  Forall
    (fun a =>
       LaneAssignment.confidence a == 0.5
       \/ LaneAssignment.confidence a == 0.6
       \/ (LaneAssignment.confidence a == 0.8
           /\ LaneAssignment.position a = 4%Z
           /\ Js.includes (Hero.roles (LaneAssignment.hero a)) "Support"
              = true))
    (LaneOptimizer.optimizeLanes heroes).
Proof.
  apply List.Forall_forall. intros a Ha.
  apply optimizeLanes_member in Ha as (Hin & Hpos & Hconf).
  rewrite Hpos, Hconf. now apply member_confidence.
Qed.

(** ** Item builds, pro patterns and timing windows *)

(** X4.  The item-build analyzer returns at most four builds, one for each
    of the tags Carry, Support, Initiator and Nuker that the hero carries
    and none for a hero without any of them; every build has four items
    with four increasing timing marks and an effectiveness between 0.75
    and 0.9. *)
Theorem generateItemBuilds_shape (hero : Hero) (gameContext : GameContext) :
  let builds := ItemBuildAnalyzer.generateItemBuilds hero gameContext in
  let count (role : string) : nat :=
    if Js.includes (Hero.roles hero) role then 1%nat else 0%nat in
  length builds
  = (count "Carry"%string + count "Support"%string
     + count "Initiator"%string + count "Nuker"%string)%nat
  /\ (length builds <= 4)%nat
  /\ Forall wellShaped builds.
Proof.
  cbv zeta.
  unfold ItemBuildAnalyzer.generateItemBuilds, ItemBuildAnalyzer.carryBuild,
    ItemBuildAnalyzer.nukerBuild, ItemBuildAnalyzer.supportBuild,
    ItemBuildAnalyzer.initiatorBuild, wellShaped.
  destruct (Js.includes (Hero.roles hero) "Carry");
    destruct (Js.includes (Hero.roles hero) "Support");
    destruct (Js.includes (Hero.roles hero) "Initiator");
    destruct (Js.includes (Hero.roles hero) "Nuker");
    destruct (ItemBuildAnalyzer.isEarlyGame gameContext);
    destruct (ItemBuildAnalyzer.isLateGame gameContext);
    destruct (ItemBuildAnalyzer.isAggressive gameContext);
    cbn [app length ItemBuild.items ItemBuild.timing ItemBuild.effectiveness
           Nat.add];
    (split; [reflexivity |]); (split; [lia |]);
    repeat constructor; closed_le.
Qed.

(** X5.  The pro-scene analyzer keeps its figures in fixed ranges: the
    pick order is at least 1, the ban priority is between 2 and 10, the
    first-pick rate is 0.1 or 0.3 (0.3 exactly for a Support), the
    situational rate is between 0.5 and 0.9, and at most four pairings
    and four counters are listed. *)
Theorem analyzeProPatterns_ranges (hero : Hero) :
  let p := ProSceneAnalyzer.analyzeProPatterns hero in
  1 <= ProPattern.pickOrder p
  /\ (2 <= ProPattern.banPriority p /\ ProPattern.banPriority p <= 10)
  /\ ProPattern.firstPickRate p
     == (if Js.includes (Hero.roles hero) "Support" then 0.3 else 0.1)
  /\ (0.5 <= ProPattern.situationalPickRate p
      /\ ProPattern.situationalPickRate p <= 0.9)
  /\ (length (ProPattern.pairings p) <= 4)%nat
  /\ (length (ProPattern.counters p) <= 4)%nat.
Proof.
  cbv zeta. cbn [ProSceneAnalyzer.analyzeProPatterns ProPattern.pickOrder
                   ProPattern.banPriority ProPattern.firstPickRate
                   ProPattern.situationalPickRate ProPattern.pairings
                   ProPattern.counters].
  assert (Hr : 1 <= ProSceneAnalyzer.rolesLengthOr1 hero).
  { unfold ProSceneAnalyzer.rolesLengthOr1, Js.or_else, Js.truthy.
    destruct (Hero.roles hero) as [| r roles]; [closed_le |].
    assert (H : 1 <= inject_Z (Z.of_nat (length (r :: roles)))).
    { cbn [length]. rewrite inject_nat_S.
      pose proof (inject_nat_nonneg (length roles)). lra. }
    destruct (negb _); [exact H | lra]. }
  split; [exact Hr |]. split; [| split; [| split; [| split]]].
  - unfold ProSceneAnalyzer.calculateBanPriority.
    destruct (min_cases 10 (ProSceneAnalyzer.rolesLengthOr1 hero * 2))
      as [[H ->] | [H ->]]; split; lra.
  - unfold ProSceneAnalyzer.calculateFirstPickRate.
    destruct (Js.includes _ _); reflexivity.
  - unfold ProSceneAnalyzer.calculateSituationalRate.
    destruct (Js.includes _ _);
      match goal with
      | |- context [Js.min ?a ?b] =>
          destruct (min_cases a b) as [[H ->] | [H ->]]
      end; split; lra.
  - unfold ProSceneAnalyzer.getCommonPairings.
    repeat destruct (Js.includes _ _); simpl; lia.
  - unfold ProSceneAnalyzer.getEffectiveCounters.
    destruct (AttackType_eqb _ _); destruct (Js.includes _ _); simpl; lia.
Qed.

(** ** What the advanced analyzer computes for a candidate *)

Section AdvancedScores.

Lemma power_ranges (hero : Hero) :
  (0.5 <= TimingAnalyzer.calculateEarlyPower hero
   /\ TimingAnalyzer.calculateEarlyPower hero <= 1)
  /\ (0.6 <= TimingAnalyzer.calculateMidPower hero
      /\ TimingAnalyzer.calculateMidPower hero <= 1)
  /\ (0.5 <= TimingAnalyzer.calculateLatePower hero
      /\ TimingAnalyzer.calculateLatePower hero <= 1).
Proof.
  unfold TimingAnalyzer.calculateEarlyPower, TimingAnalyzer.calculateMidPower,
    TimingAnalyzer.calculateLatePower.
  score_cases.
Qed.

Lemma calculateMetaScore_range (hero : Hero) :
  0.5 <= AdvancedDraftAnalyzer.calculateMetaScore hero
  /\ AdvancedDraftAnalyzer.calculateMetaScore hero <= 0.8.
Proof. unfold AdvancedDraftAnalyzer.calculateMetaScore. score_cases. Qed.

Lemma calculateCounterScore_range (hero : Hero) (enemyTeam : list Hero) :
  0.5 <= AdvancedDraftAnalyzer.calculateCounterScore hero enemyTeam
  /\ AdvancedDraftAnalyzer.calculateCounterScore hero enemyTeam <= 1.
Proof.
  unfold AdvancedDraftAnalyzer.calculateCounterScore.
  destruct (length enemyTeam =? 0)%nat; [split; closed_le |].
  match goal with
  | |- context [fold_left ?f enemyTeam 0] =>
      assert (H : forall acc, 0 <= acc -> 0 <= fold_left f enemyTeam acc)
  end.
  { induction enemyTeam as [| enemy rest IH]; intros acc Hacc; [exact Hacc |].
    cbn [fold_left]. apply IH.
    destruct (AttackType_eqb _ _ && AttackType_eqb _ _); lra. }
  specialize (H 0 ltac:(lra)).
  match goal with
  | |- context [Js.min ?a ?b] => destruct (min_cases a b) as [[Hm ->] | [Hm ->]]
  end; split; lra.
Qed.

Lemma calculateItemSynergy_range (hero : Hero) (teamHeroes : list Hero) :
  0.5 <= ItemBuildAnalyzer.calculateItemSynergy hero teamHeroes
  /\ ItemBuildAnalyzer.calculateItemSynergy hero teamHeroes <= 0.8.
Proof. unfold ItemBuildAnalyzer.calculateItemSynergy. score_cases. Qed.

(** The lane score of a candidate: the confidence of the first assignment
    that carries its id. *)
Lemma laneScore_range (hero : Hero) (team : list Hero) :
  let score :=
    match
      List.find
        (fun a => (Hero.id (LaneAssignment.hero a) =? Hero.id hero)%Z)
        (LaneOptimizer.optimizeLanes team)
    with
    | Some a => Js.or_else (LaneAssignment.confidence a) 0.5
    | None => 0.5
    end in
  0.5 <= score /\ score <= 0.8.
Proof.
  cbv zeta. destruct (List.find _ _) as [a |] eqn:Hfind; [| split; closed_le].
  apply find_some in Hfind as [Ha _].
  apply optimizeLanes_member in Ha as (Hin & _ & Hconf).
  pose proof (member_confidence team _ Hin) as Hc. cbv zeta in Hc.
  rewrite <- Hconf in Hc. unfold Js.or_else.
  destruct (Js.truthy _); [| split; closed_le].
  destruct Hc as [-> | [-> | [-> _]]]; split; closed_le.
Qed.

Lemma proPatternScore_range (hero : Hero) :
  let p := ProSceneAnalyzer.analyzeProPatterns hero in
  0.3 <= (ProPattern.firstPickRate p + ProPattern.situationalPickRate p) / 2
  /\ (ProPattern.firstPickRate p + ProPattern.situationalPickRate p) / 2
     <= 0.6.
Proof.
  cbv zeta.
  assert (H1 : 0.1 <= ProPattern.firstPickRate
                        (ProSceneAnalyzer.analyzeProPatterns hero)
               /\ ProPattern.firstPickRate
                    (ProSceneAnalyzer.analyzeProPatterns hero) <= 0.3).
  { cbn. unfold ProSceneAnalyzer.calculateFirstPickRate.
    destruct (Js.includes _ _); split; closed_le. }
  assert (H2 : 0.5 <= ProPattern.situationalPickRate
                        (ProSceneAnalyzer.analyzeProPatterns hero)
               /\ ProPattern.situationalPickRate
                    (ProSceneAnalyzer.analyzeProPatterns hero) <= 0.9).
  { cbn. unfold ProSceneAnalyzer.calculateSituationalRate.
    assert (Hr : 1 <= ProSceneAnalyzer.rolesLengthOr1 hero).
    { unfold ProSceneAnalyzer.rolesLengthOr1, Js.or_else, Js.truthy.
      destruct (Hero.roles hero) as [| r roles]; [closed_le |].
      assert (H : 1 <= inject_Z (Z.of_nat (length (r :: roles)))).
      { cbn [length]. rewrite inject_nat_S.
        pose proof (inject_nat_nonneg (length roles)). lra. }
      destruct (negb _); [exact H | lra]. }
    destruct (Js.includes _ _);
      match goal with
      | |- context [Js.min ?a ?b] =>
          destruct (min_cases a b) as [[H ->] | [H ->]]
      end; split; lra. }
  split; [apply Qle_shift_div_l | apply Qle_shift_div_r]; lra.
Qed.

Variables (heroes : list Hero) (heroStats : list HeroStats).
Variables (draftState : DraftState) (gameContext : GameContext).

(** The suggestion that the analyzer built by the constructor computes for
    a candidate, field by field. *)
Lemma new_suggest_fields (hero : Hero) (s : AdvancedSuggestion) :
  AdvancedDraftAnalyzer.suggest
    (AdvancedDraftAnalyzer.new heroes heroStats) draftState gameContext hero
  = Ok s ->
  let team := pickedHeroes (DraftState.yourTeam draftState) in
  let b := AdvancedSuggestion.breakdown s in
  AdvancedSuggestion.hero s = hero
  /\ AdvancedSuggestion.score s = AdvancedDraftAnalyzer.calculateTotalScore b
  /\ AdvancedSuggestion.reasons s
     = AdvancedDraftAnalyzer.generateReasons hero b
  /\ AdvancedSuggestion.itemSynergy s
     = ItemBuildAnalyzer.generateItemBuilds hero gameContext
  /\ AdvancedSuggestion.laneOptimization s
     = LaneOptimizer.optimizeLanes (team ++ [hero])
  /\ AdvancedSuggestion.timingWindows s
     = TimingAnalyzer.analyzeTimingWindows hero gameContext
  /\ AdvancedSuggestion.proPatterns s = ProSceneAnalyzer.analyzeProPatterns hero
  /\ ScoreBreakdown.meta b = AdvancedDraftAnalyzer.calculateMetaScore hero
  /\ ScoreBreakdown.counter b
     = AdvancedDraftAnalyzer.calculateCounterScore hero
         (pickedHeroes (DraftState.enemyTeam draftState))
  /\ ScoreBreakdown.synergy b
     = (if (length team =? 0)%nat then 0.5
        else MLSynergyPredictor.predictTeamSynergy (team ++ [hero]))
  /\ ScoreBreakdown.itemSynergy b
     = ItemBuildAnalyzer.calculateItemSynergy hero team
  /\ ScoreBreakdown.laneOptimization b
     = match
         List.find
           (fun a => (Hero.id (LaneAssignment.hero a) =? Hero.id hero)%Z)
           (LaneOptimizer.optimizeLanes (team ++ [hero]))
       with
       | Some a => Js.or_else (LaneAssignment.confidence a) 0.5
       | None => 0.5
       end
  /\ ScoreBreakdown.timing b
     = (0 + TimingAnalyzer.calculateEarlyPower hero
        + TimingAnalyzer.calculateMidPower hero
        + TimingAnalyzer.calculateLatePower hero) / inject_Z 3
  /\ ScoreBreakdown.proPattern b
     = (ProPattern.firstPickRate (ProSceneAnalyzer.analyzeProPatterns hero)
        + ProPattern.situationalPickRate
            (ProSceneAnalyzer.analyzeProPatterns hero)) / 2
  /\ ScoreBreakdown.mlSynergy b
     = MLSynergyPredictor.predictTeamSynergy (team ++ [hero]).
Proof.
  unfold AdvancedDraftAnalyzer.suggest,
    AdvancedDraftAnalyzer.calculateAdvancedScore,
    AdvancedDraftAnalyzer.calculateSynergyScore,
    AdvancedDraftAnalyzer.calculateLaneOptimizationScore,
    AdvancedDraftAnalyzer.calculateTimingScore,
    AdvancedDraftAnalyzer.calculateProPatternScore,
    AdvancedDraftAnalyzer.new; simpl.
  destruct (length (pickedHeroes (DraftState.yourTeam draftState)) =? 0)%nat;
    simpl; intros H; injection H as <-; cbn; repeat split; reflexivity.
Qed.

(** The ranges of the eight factors and of the total. *)
Lemma new_suggest_ranges (hero : Hero) (s : AdvancedSuggestion) :
  AdvancedDraftAnalyzer.suggest
    (AdvancedDraftAnalyzer.new heroes heroStats) draftState gameContext hero
  = Ok s ->
  factorsInUnit (AdvancedSuggestion.breakdown s)
  /\ 0.49 <= AdvancedSuggestion.score s
  /\ AdvancedSuggestion.score s <= 0.8375.
Proof.
  intros H. apply new_suggest_fields in H. cbv zeta in H.
  destruct H as (_ & Hscore & _ & _ & _ & _ & _ & Hmeta & Hcounter & Hsyn
                 & Hitem & Hlane & Htiming & Hpro & Hml).
  destruct (AdvancedSuggestion.breakdown s)
    as [meta counter synergy itemSynergy lane timing pro ml].
  cbn [ScoreBreakdown.meta ScoreBreakdown.counter ScoreBreakdown.synergy
         ScoreBreakdown.itemSynergy ScoreBreakdown.laneOptimization
         ScoreBreakdown.timing ScoreBreakdown.proPattern
         ScoreBreakdown.mlSynergy]
    in Hmeta, Hcounter, Hsyn, Hitem, Hlane, Htiming, Hpro, Hml.
  rewrite Hscore. clear Hscore.
  pose proof (calculateMetaScore_range hero) as Bmeta.
  pose proof (calculateCounterScore_range hero
                (pickedHeroes (DraftState.enemyTeam draftState))) as Bcounter.
  pose proof (predictTeamSynergy_bounds
                (pickedHeroes (DraftState.yourTeam draftState) ++ [hero]))
    as Bml.
  pose proof (calculateItemSynergy_range hero
                (pickedHeroes (DraftState.yourTeam draftState))) as Bitem.
  pose proof (laneScore_range hero
                (pickedHeroes (DraftState.yourTeam draftState) ++ [hero]))
    as Blane.
  pose proof (power_ranges hero) as (Be & Bm & Bl).
  pose proof (proPatternScore_range hero) as Bpro.
  cbv zeta in Blane, Bpro.
  rewrite <- Hmeta in Bmeta. rewrite <- Hcounter in Bcounter.
  rewrite <- Hml in Bml. rewrite <- Hitem in Bitem.
  rewrite <- Hlane in Blane. rewrite <- Hpro in Bpro.
  assert (Bsyn : 0.5 <= synergy /\ synergy <= 0.75).
  { rewrite Hsyn. destruct (_ =? _)%nat; [split; closed_le |].
    rewrite <- Hml. exact Bml. }
  assert (Btiming : 0.5 <= timing /\ timing <= 1).
  { rewrite Htiming.
    split; [apply Qle_shift_div_l | apply Qle_shift_div_r];
      try reflexivity; change (inject_Z 3) with 3; lra. }
  clear Hmeta Hcounter Hsyn Hitem Hlane Htiming Hpro Hml.
  split; [| split].
  - unfold factorsInUnit. cbn. repeat constructor; cbn; lra.
  - unfold AdvancedDraftAnalyzer.calculateTotalScore. cbn. lra.
  - unfold AdvancedDraftAnalyzer.calculateTotalScore. cbn. lra.
Qed.

End AdvancedScores.

(** ** The elements of a batch *)

Section BatchElements.

Lemma generate_elements (self : AdvancedDraftAnalyzer.t)
  (draftState : DraftState) (gameContext : GameContext)
  (roleFilter : option (list string)) (l : list AdvancedSuggestion) :
  AdvancedDraftAnalyzer.generateAdvancedSuggestions
    self draftState gameContext roleFilter = Ok l ->
  Forall
    (fun s =>
       AdvancedDraftAnalyzer.suggest self draftState gameContext
         (AdvancedSuggestion.hero s) = Ok s
       /\ AdvancedDraftAnalyzer.isAvailable draftState roleFilter
            (AdvancedSuggestion.hero s) = true)
    l.
Proof.
  intros H. apply List.Forall_forall. intros s Hs.
  split; [| now apply generate_Ok_inv in H as (_ & _ & Hin); apply Hin].
  unfold AdvancedDraftAnalyzer.generateAdvancedSuggestions in H.
  apply bind_Ok_inv in H as (suggestions & Hmap & H). injection H as <-.
  apply slice0_In, sortDesc_In in Hs.
  destruct (mapM_In _ _ _ _ Hmap Hs) as (hero & _ & Hsug).
  now destruct (suggest_Ok_inv _ _ _ _ _ Hsug) as [-> _].
Qed.

(** The integration layer always answers; each suggestion it returns is a
    suggestion of the advanced analyzer with the artifacts kept or blanked
    as the options say. *)
Lemma enhanced_elements (self : DraftAnalyzerIntegration.t)
  (draftState : DraftState) (options : DraftAnalyzerIntegration.Options.t) :
  exists l,
    DraftAnalyzerIntegration.getEnhancedRecommendations
      self draftState options = Ok l
    /\ Forall
         (fun s =>
            exists s0,
              AdvancedDraftAnalyzer.suggest
                (DraftAnalyzerIntegration.advancedAnalyzer self) draftState
                (default GameContext.empty
                   (DraftAnalyzerIntegration.Options.gameContext options))
                (AdvancedSuggestion.hero s0) = Ok s0
              /\ AdvancedDraftAnalyzer.isAvailable draftState
                   (DraftAnalyzerIntegration.Options.roleFilter options)
                   (AdvancedSuggestion.hero s0) = true
              /\ strippedFrom options s0 s)
         l.
Proof.
  unfold DraftAnalyzerIntegration.getEnhancedRecommendations.
  destruct (AdvancedDraftAnalyzer.generateAdvancedSuggestions _ _ _ _)
    as [l0 | e] eqn:Hgen; simpl.
  - eexists. split; [reflexivity |].
    apply generate_elements in Hgen. rewrite List.Forall_forall in Hgen.
    apply List.Forall_forall. intros s Hs.
    apply in_map_iff in Hs as (s0 & <- & Hs0).
    exists s0. destruct (Hgen s0 Hs0) as [Hsug Hav].
    split; [exact Hsug |]. split; [exact Hav |].
    unfold strippedFrom, verdict. cbn. now repeat split.
  - exists []. split; [reflexivity | constructor].
Qed.

Lemma slice0_all {A : Type} (l : list A) (n : Z) :
  (Z.of_nat (length l) <= n)%Z -> Js.slice0 l n = l.
Proof.
  intros H. unfold Js.slice0.
  destruct (n <? 0)%Z eqn:E; [apply Z.ltb_lt in E; lia |].
  apply firstn_all2. lia.
Qed.

Lemma includes_In (arr : list string) (s : string) :
  Js.includes arr s = true <-> In s arr.
Proof.
  unfold Js.includes. rewrite existsb_exists. split.
  - intros (x & Hx & Heq). apply String.eqb_eq in Heq. now subst.
  - intros H. exists s. split; [exact H | apply String.eqb_refl].
Qed.

Lemma calculateHeroScore_hero (self : DraftAnalyzer.t) (hero : Hero)
  (draftState : DraftState) :
  DraftSuggestion.hero (DraftAnalyzer.calculateHeroScore self hero draftState)
  = hero.
Proof.
  unfold DraftAnalyzer.calculateHeroScore.
  now destruct (DraftAnalyzer.generateReasoning _ _ _ _ _ _ _) as [[? ?] ?].
Qed.

End BatchElements.

(** X6.  Every suggestion of the advanced pipeline has its eight factors
    between 0 and 1 and a score between 0.49 and 0.8375, in the list of the
    advanced analyzer and in the list that the draft analyzer returns. *)
Theorem advanced_scores_in_band
  (heroes : list Hero) (heroStats : list HeroStats)
  (matchupData : gmap Z (list HeroMatchupData))
  (draftState : DraftState) (gameContext : option GameContext)
  (roleFilter : option (list string)) (limit : option Z) :
  (exists l,
      AdvancedDraftAnalyzer.generateAdvancedSuggestions
        (AdvancedDraftAnalyzer.new heroes heroStats) draftState
        (default GameContext.empty gameContext) roleFilter = Ok l
      /\ Forall
           (fun s =>
              factorsInUnit (AdvancedSuggestion.breakdown s)
              /\ 0.49 <= AdvancedSuggestion.score s
              /\ AdvancedSuggestion.score s <= 0.8375)
           l)
  /\ (exists l,
         DraftAnalyzer.generateAdvancedSuggestions
           (analyzerWith heroes heroStats matchupData)
           draftState gameContext roleFilter limit = Ok l
         /\ Forall
              (fun s =>
                 factorsInUnit (AdvancedDraftSuggestion.advancedBreakdown s)
                 /\ 0.49 <= AdvancedDraftSuggestion.score s
                 /\ AdvancedDraftSuggestion.score s <= 0.8375)
              l).
Proof.
  split.
  - destruct (new_generate_total heroes heroStats draftState
                (default GameContext.empty gameContext) roleFilter)
      as [l Hl].
    exists l. split; [exact Hl |].
    apply generate_elements in Hl. eapply List.Forall_impl; [| exact Hl].
    intros s [Hs _]. now apply new_suggest_ranges in Hs.
  - destruct (enhanced_elements
                (DraftAnalyzer.integration
                   (analyzerWith heroes heroStats matchupData))
                draftState (handedDown roleFilter gameContext))
      as (l0 & Hl0 & Hall).
    eexists. split; [apply advanced_unfold, Hl0 |].
    apply List.Forall_forall. intros r Hr.
    apply slice0_In, in_map_iff in Hr as (s & <- & Hs).
    rewrite List.Forall_forall in Hall.
    destruct (Hall s Hs) as (s0 & Hsug & _ & Hverdict & _).
    apply new_suggest_ranges in Hsug. unfold verdict in Hverdict.
    injection Hverdict as _ Hscore _ Hbreakdown.
    unfold AdvancedDraftSuggestion.score. cbn.
    rewrite Hscore. unfold factorsInUnit in *. cbn.
    rewrite Hbreakdown. exact Hsug.
Qed.

(** ** The role filter *)

Section RoleFilter.

Lemma matchesRoleFilter_hasRoleIn (hero : Hero) (roleFilter : list string) :
  AdvancedDraftAnalyzer.matchesRoleFilter hero roleFilter = true
  <-> hasRoleIn roleFilter hero.
Proof.
  unfold AdvancedDraftAnalyzer.matchesRoleFilter, hasRoleIn.
  rewrite existsb_exists. split.
  - intros (role & Hrole & Hin). apply includes_In in Hin. now exists role.
  - intros (role & Hin & Hrole). exists role.
    split; [exact Hrole | now apply includes_In].
Qed.

Lemma passesRoleFilter_hasRoleIn (hero : Hero) (r : string)
  (rest : list string) :
  DraftAnalyzer.passesRoleFilter (Some (r :: rest)) hero = true
  <-> hasRoleIn (r :: rest) hero.
Proof.
  unfold DraftAnalyzer.passesRoleFilter, hasRoleIn. cbn [length Nat.ltb Nat.leb].
  rewrite existsb_exists. split.
  - intros (role & Hin & Hrole). apply includes_In in Hrole. now exists role.
  - intros (role & Hin & Hrole). exists role.
    split; [exact Hin | now apply includes_In].
Qed.

Lemma isAvailable_hasRoleIn (draftState : DraftState) (hero : Hero)
  (r : string) (rest : list string) :
  AdvancedDraftAnalyzer.isAvailable draftState (Some (r :: rest)) hero = true
  -> hasRoleIn (r :: rest) hero.
Proof.
  unfold AdvancedDraftAnalyzer.isAvailable. intros H.
  apply andb_prop in H as [_ H]. cbn [length Nat.eqb orb] in H.
  now apply matchesRoleFilter_hasRoleIn.
Qed.

End RoleFilter.

(** X7.  With a role filter that is not empty, every returned hero carries
    at least one role tag of the filter: in the basic generator, in the
    advanced analyzer and in the advanced generator of the draft
    analyzer. *)
Theorem role_filter_respected
  (heroes : list Hero) (heroStats : list HeroStats)
  (matchupData : gmap Z (list HeroMatchupData))
  (draftState : DraftState) (context : GameContext)
  (gameContext : option GameContext)
  (role : string) (roles : list string) (limit : option Z) :
  let roleFilter := Some (role :: roles) in
  Forall (fun s => hasRoleIn (role :: roles) (DraftSuggestion.hero s))
    (DraftAnalyzer.generateSuggestions
       (analyzerWith heroes heroStats matchupData)
       draftState roleFilter limit)
  /\ (exists l,
         AdvancedDraftAnalyzer.generateAdvancedSuggestions
           (AdvancedDraftAnalyzer.new heroes heroStats)
           draftState context roleFilter = Ok l
         /\ Forall
              (fun s => hasRoleIn (role :: roles) (AdvancedSuggestion.hero s))
              l)
  /\ (exists l,
         DraftAnalyzer.generateAdvancedSuggestions
           (analyzerWith heroes heroStats matchupData)
           draftState gameContext roleFilter limit = Ok l
         /\ Forall
              (fun s =>
                 hasRoleIn (role :: roles) (AdvancedDraftSuggestion.hero s))
              l).
Proof.
  cbv zeta. split; [| split].
  - apply List.Forall_forall. intros s Hs.
    unfold DraftAnalyzer.generateSuggestions in Hs.
    apply slice0_In, sortDesc_In, in_map_iff in Hs as (hero & <- & Hhero).
    rewrite calculateHeroScore_hero.
    apply filter_In in Hhero as [_ Hpass].
    now apply passesRoleFilter_hasRoleIn.
  - destruct (new_generate_total heroes heroStats draftState context
                (Some (role :: roles))) as [l Hl].
    exists l. split; [exact Hl |].
    apply generate_elements in Hl. eapply List.Forall_impl; [| exact Hl].
    intros s [_ Hav]. now apply isAvailable_hasRoleIn in Hav.
  - destruct (advanced_Ok (analyzerWith heroes heroStats matchupData)
                draftState (Some (role :: roles)) gameContext limit)
      as (l & Hl & _ & _ & _ & Hin).
    exists l. split; [exact Hl |].
    apply List.Forall_forall. intros s Hs.
    exact (isAvailable_hasRoleIn draftState _ role roles (Hin s Hs)).
Qed.

(** ** What the basic generator returns *)

(** X8.  When the limit is at least the size of the roster, the basic
    generator returns exactly the candidates, each once per occurrence in
    the roster: the heroes of the roster that are in no slot of the draft
    and pass the role filter; and each suggestion is the scoring of its
    hero. *)
Theorem basic_returns_all_candidates (self : DraftAnalyzer.t)
  (draftState : DraftState) (roleFilter : option (list string)) (limit : Z)
  (Hlimit : (Z.of_nat (length (DraftAnalyzer.heroes self)) <= limit)%Z) :
  let l :=
    DraftAnalyzer.generateSuggestions self draftState roleFilter (Some limit)
  in
  Permutation (map DraftSuggestion.hero l)
    (basicCandidates self draftState roleFilter)
  /\ Forall
       (fun s =>
          s = DraftAnalyzer.calculateHeroScore self (DraftSuggestion.hero s)
                draftState)
       l.
Proof.
  cbv zeta. unfold DraftAnalyzer.generateSuggestions.
  fold (basicCandidates self draftState roleFilter).
  cbn [default]. rewrite slice0_all.
  - split.
    + rewrite <- (sortDesc_perm DraftSuggestion.score).
      rewrite map_map.
      erewrite map_ext; [rewrite map_id; reflexivity |].
      intros hero. apply calculateHeroScore_hero.
    + apply List.Forall_forall. intros s Hs.
      apply sortDesc_In, in_map_iff in Hs as (hero & <- & _).
      now rewrite calculateHeroScore_hero.
  - rewrite sortDesc_length, length_map. unfold basicCandidates.
    etransitivity; [| exact Hlimit]. apply inj_le.
    etransitivity; apply filter_length_le.
Qed.

(** The limit 16 for the sixteen heroes of the example roster. *)
Lemma basic_returns_all_candidates_witness :
  (Z.of_nat
     (length
        (DraftAnalyzer.heroes
           (analyzerWith Examples.roster [] Examples.tenGames))) <= 16)%Z
  /\ Permutation
       (map DraftSuggestion.hero
          (DraftAnalyzer.generateSuggestions
             (analyzerWith Examples.roster [] Examples.tenGames)
             Examples.draft None (Some 16%Z)))
       (basicCandidates (analyzerWith Examples.roster [] Examples.tenGames)
          Examples.draft None).
Proof.
  assert (H : (Z.of_nat
                 (length
                    (DraftAnalyzer.heroes
                       (analyzerWith Examples.roster [] Examples.tenGames)))
               <= 16)%Z) by (vm_compute; discriminate).
  split; [exact H |].
  exact (proj1 (basic_returns_all_candidates
                  (analyzerWith Examples.roster [] Examples.tenGames)
                  Examples.draft None 16%Z H)).
Defined.

(** X9.  Whatever the limit, the basic generator keeps the best
    candidates: the scoring of a candidate is in the returned list, or it
    scores no more than any suggestion in it. *)
Theorem basic_keeps_the_best (self : DraftAnalyzer.t)
  (draftState : DraftState) (roleFilter : option (list string))
  (limit : option Z) :
  let l := DraftAnalyzer.generateSuggestions self draftState roleFilter limit
  in
  Forall
    (fun hero =>
       let s := DraftAnalyzer.calculateHeroScore self hero draftState in
       In s l
       \/ Forall (fun kept => DraftSuggestion.score s
                              <= DraftSuggestion.score kept) l)
    (basicCandidates self draftState roleFilter).
Proof.
  cbv zeta. unfold DraftAnalyzer.generateSuggestions.
  fold (basicCandidates self draftState roleFilter).
  apply List.Forall_forall. intros hero Hhero.
  apply top_of_sorted.
  exact (in_map
           (fun h => DraftAnalyzer.calculateHeroScore self h draftState)
           _ hero Hhero).
Qed.

(** ** Win rates and the scorers on the 0 to 100 scale *)

Section PercentScores.

(** Rounding to two decimals moves a number by at most 0.005 and keeps it
    between 0 and 100. *)
Lemma toFixed2_spec (x : Q) :
  0 <= x ->
  (x - 0.005 <= Js.toFixed2 x /\ Js.toFixed2 x <= x + 0.005)
  /\ whole (Js.toFixed2 x * 100)
  /\ 0 <= Js.toFixed2 x
  /\ (x <= 100 -> Js.toFixed2 x <= 100).
Proof.
  intros Hx. unfold Js.toFixed2.
  apply Qle_bool_iff in Hx as Hb. rewrite Hb. clear Hb.
  set (n := Qfloor (x * 100 + 0.5)).
  pose proof (Qfloor_le (x * 100 + 0.5)) as Hlo.
  pose proof (Qlt_floor (x * 100 + 0.5)) as Hhi.
  fold n in Hlo, Hhi. rewrite inject_Z_plus in Hhi.
  change (inject_Z 1) with 1 in Hhi.
  assert (Hn0 : 0 <= inject_Z n).
  { change 0 with (inject_Z 0). rewrite <- Zle_Qle.
    change 0%Z with (Qfloor 0). apply Qfloor_resp_le. lra. }
  assert (Hdiv : inject_Z n / 100 == inject_Z n * 0.01) by (field).
  split; [| split; [| split]].
  - rewrite Hdiv. split; lra.
  - exists n. field.
  - rewrite Hdiv. lra.
  - intros H100. rewrite Hdiv.
    assert (Hn : inject_Z n <= 10000).
    { change 10000 with (inject_Z 10000). rewrite <- Zle_Qle.
      change 10000%Z with (Qfloor 10000.5). apply Qfloor_resp_le. lra. }
    lra.
Qed.

Lemma percentage_range (wins games : Q) :
  0 < games -> 0 <= wins -> wins <= games ->
  0 <= wins / games * 100 /\ wins / games * 100 <= 100.
Proof.
  intros Hg Hw Hwg.
  assert (H0 : 0 <= wins / games) by (apply Qle_shift_div_l; lra).
  assert (H1 : wins / games <= 1) by (apply Qle_shift_div_r; lra).
  split; lra.
Qed.

Lemma calculateWinRate_unfold (wins games : Q) :
  0 < games ->
  OpenDota.calculateWinRate wins games = Js.toFixed2 (wins / games * 100).
Proof.
  intros Hg. unfold OpenDota.calculateWinRate.
  destruct (Qeq_bool games 0) eqn:E; [| reflexivity].
  apply Qeq_bool_iff in E. lra.
Qed.

Lemma calculateWinRate_range (wins games : Q) :
  0 < games -> 0 <= wins -> wins <= games ->
  0 <= OpenDota.calculateWinRate wins games
  /\ OpenDota.calculateWinRate wins games <= 100.
Proof.
  intros Hg Hw Hwg. rewrite calculateWinRate_unfold by exact Hg.
  destruct (percentage_range wins games Hg Hw Hwg) as [H0 H100].
  destruct (toFixed2_spec _ H0) as (_ & _ & Hr0 & Hr100).
  split; [exact Hr0 | now apply Hr100].
Qed.

Lemma Qsum_bounds (l : list Q) (lo hi : Q) :
  Forall (fun x => lo <= x /\ x <= hi) l ->
  lo * inject_Z (Z.of_nat (length l)) <= Qsum l
  /\ Qsum l <= hi * inject_Z (Z.of_nat (length l)).
Proof.
  unfold Qsum. induction 1 as [| x l [Hlo Hhi] _ [IHlo IHhi]].
  - cbn [fold_right length]. change (inject_Z (Z.of_nat 0)) with 0.
    split; lra.
  - cbn [fold_right length]. rewrite inject_nat_S. split; lra.
Qed.

(** The win rates that count come from plausible records with more than
    ten games, so each is a percentage. *)
Lemma validRates_range (matchups : list HeroMatchupData)
  (enemyHeroes : list Hero) :
  Forall plausible matchups ->
  Forall (fun r => 0 <= r /\ r <= 100)
    (CounterSpec.validRates CounterSpec.moreThan10 matchups enemyHeroes).
Proof.
  intros Hplausible. unfold CounterSpec.validRates.
  apply List.Forall_forall. intros r Hr.
  apply list_elem_of_In, list_elem_of_omap in Hr as (enemy & _ & Hr).
  destruct (List.find _ matchups) as [m |] eqn:Hfind; [| discriminate].
  apply find_some in Hfind as [Hm _].
  destruct (CounterSpec.moreThan10 _) eqn:Hgames; [| discriminate].
  injection Hr as <-.
  unfold CounterSpec.moreThan10, Js.gt in Hgames. apply lt_true in Hgames.
  rewrite List.Forall_forall in Hplausible.
  destruct (Hplausible m Hm) as [Hw Hwg].
  apply calculateWinRate_range; [lra | exact Hw | exact Hwg].
Qed.

Lemma getCounterScore_range (self : DraftAnalyzer.t) (heroId : Z)
  (enemyHeroes : list Hero) :
  plausibleStore (DraftAnalyzer.matchupData self) ->
  0 <= DraftAnalyzer.getCounterScore self heroId enemyHeroes
  /\ DraftAnalyzer.getCounterScore self heroId enemyHeroes <= 100.
Proof.
  intros Hstore. unfold DraftAnalyzer.getCounterScore.
  destruct (length enemyHeroes =? 0)%nat; [split; closed_le |].
  destruct (DraftAnalyzer.matchupData self !! heroId) as [matchups |] eqn:Hm;
    [| split; closed_le].
  pose proof (counterLoop_spec matchups enemyHeroes 0 O) as H.
  cbv zeta in H.
  pose proof (Qsum_bounds _ 0 100
                (validRates_range matchups enemyHeroes (Hstore _ _ Hm)))
    as [Hlo Hhi].
  revert H Hlo Hhi.
  generalize (CounterSpec.validRates CounterSpec.moreThan10 matchups
                enemyHeroes).
  destruct (fold_left _ enemyHeroes (0, O)) as [totalScore validMatchups].
  intros rates [Ht Hn] Hlo Hhi. cbn [fst snd Nat.add] in Ht, Hn.
  subst validMatchups.
  destruct (0 <? length rates)%nat eqn:Hpos; [| split; closed_le].
  apply Nat.ltb_lt in Hpos. apply mean_bounds; [exact Hpos | lra | lra].
Qed.

Lemma clamp_range (x : Q) :
  0 <= Js.max 0 (Js.min 100 x) /\ Js.max 0 (Js.min 100 x) <= 100.
Proof.
  destruct (min_cases 100 x) as [[H ->] | [H ->]];
    match goal with
    | |- context [Js.max ?a ?b] =>
        destruct (max_cases a b) as [[H' ->] | [H' ->]]
    end; split; lra.
Qed.

Lemma getMetaScore_range (self : DraftAnalyzer.t) (heroId : Z) :
  0 <= DraftAnalyzer.getMetaScore self heroId
  /\ DraftAnalyzer.getMetaScore self heroId <= 100.
Proof.
  unfold DraftAnalyzer.getMetaScore.
  destruct (DraftAnalyzer.findStat self heroId); [| split; closed_le].
  apply clamp_range.
Qed.

Lemma getSynergyScore_range (self : DraftAnalyzer.t) (heroId : Z)
  (teamHeroes : list Hero) :
  0 <= DraftAnalyzer.getSynergyScore self heroId teamHeroes
  /\ DraftAnalyzer.getSynergyScore self heroId teamHeroes <= 74.
Proof.
  unfold DraftAnalyzer.getSynergyScore.
  destruct (length teamHeroes =? 0)%nat; [split; closed_le |].
  destruct (List.find _ _) as [hero |]; [| split; closed_le].
  match goal with
  | |- context [inject_Z (Z.of_nat ?n) * 5] =>
      pose proof (inject_nat_nonneg n) as Hn;
      generalize dependent (inject_Z (Z.of_nat n))
  end.
  intros overlap Hoverlap.
  repeat match goal with
    | |- context [if ?c then _ else _] => destruct c
    end;
    match goal with
    | |- context [Js.min ?a ?b] =>
        destruct (min_cases a b) as [[H ->] | [H ->]]
    end;
    match goal with
    | |- context [Js.max ?a ?b] =>
        destruct (max_cases a b) as [[H' ->] | [H' ->]]
    end; split; lra.
Qed.

Lemma getProScore_range (self : DraftAnalyzer.t) (heroId : Z) :
  Forall (fun stat => 0 <= HeroStats.pub_pick stat)
    (DraftAnalyzer.heroStats self) ->
  0 <= DraftAnalyzer.getProScore self heroId
  /\ DraftAnalyzer.getProScore self heroId <= 100.
Proof.
  intros Hstats. unfold DraftAnalyzer.getProScore, DraftAnalyzer.findStat.
  destruct (List.find _ _) as [heroStat |] eqn:Hfind; [| split; closed_le].
  apply find_some in Hfind as [Hin _].
  rewrite List.Forall_forall in Hstats. specialize (Hstats _ Hin).
  match goal with
  | |- context [Js.min ?a ?b] =>
      assert (Ha : 0 <= a);
      [| destruct (min_cases a b) as [[H ->] | [H ->]]; split; lra]
  end.
  destruct (Js.gt _ 0) eqn:Hgt; [| closed_le].
  apply lt_true in Hgt.
  assert (H0 : 0 <= HeroStats.pub_pick heroStat
                    / (HeroStats.pub_pick heroStat
                       + HeroStats.pro_pick heroStat
                       + HeroStats.turbo_picks heroStat))
    by (apply Qle_shift_div_l; lra).
  lra.
Qed.

Lemma round_range (x : Q) :
  0 <= x -> x <= 100 ->
  exists n : Z, Js.round x = inject_Z n /\ (0 <= n <= 100)%Z.
Proof.
  intros H0 H100. unfold Js.round. eexists. split; [reflexivity |]. split.
  - change 0%Z with (Qfloor 0). apply Qfloor_resp_le. lra.
  - change 100%Z with (Qfloor 100.5). apply Qfloor_resp_le. lra.
Qed.

Lemma calculateHeroScore_fields (self : DraftAnalyzer.t) (hero : Hero)
  (draftState : DraftState) :
  let enemyHeroes := pickedHeroes (DraftState.enemyTeam draftState) in
  let teamHeroes := pickedHeroes (DraftState.yourTeam draftState) in
  let finalScore :=
    DraftAnalyzer.getMetaScore self (Hero.id hero) * 0.2
    + DraftAnalyzer.getCounterScore self (Hero.id hero) enemyHeroes * 0.4
    + DraftAnalyzer.getSynergyScore self (Hero.id hero) teamHeroes * 0.3
    + DraftAnalyzer.getProScore self (Hero.id hero) * 0.1 in
  let s := DraftAnalyzer.calculateHeroScore self hero draftState in
  DraftSuggestion.score s = Js.round finalScore
  /\ DraftSuggestion.confidence s
     = DraftAnalyzer.getConfidenceLevel finalScore (length enemyHeroes).
Proof.
  cbv zeta. unfold DraftAnalyzer.calculateHeroScore.
  now destruct (DraftAnalyzer.generateReasoning _ _ _ _ _ _ _) as [[? ?] ?].
Qed.

End PercentScores.

(** X10.  For a positive number of games and wins between 0 and the games,
    the win rate is between 0 and 100 and within 0.01 of the exact
    percentage (the rounding to two decimals moves it by at most 0.005, and
    the bound leaves room for the float arithmetic before it); the variant
    of the data transformer gives the same value. *)
Theorem calculateWinRate_accuracy (wins games : Q)
  (Hgames : 0 < games) (Hwins : 0 <= wins /\ wins <= games) :
  let r := OpenDota.calculateWinRate wins games in
  (0 <= r /\ r <= 100)
  /\ (wins / games * 100 - 0.01 <= r /\ r <= wins / games * 100 + 0.01)
  /\ DataTransformer.calculateWinRate wins games = r.
Proof.
  cbv zeta. destruct Hwins as [Hw Hwg].
  destruct (percentage_range wins games Hgames Hw Hwg) as [H0 H100].
  destruct (toFixed2_spec _ H0) as ([Hlo Hhi] & _).
  split; [now apply calculateWinRate_range |].
  rewrite calculateWinRate_unfold by exact Hgames.
  split; [split; lra |].
  unfold DataTransformer.calculateWinRate, Js.truthy, Js.gt.
  destruct (Qeq_bool games 0) eqn:E;
    [apply Qeq_bool_iff in E; lra |].
  cbn [negb orb].
  destruct (Js.lt games wins) eqn:Hlt; [apply lt_true in Hlt; lra |].
  reflexivity.
Qed.

(** 23 wins out of 160 games, 14.375 percent: a tie of the rounding. *)
Lemma calculateWinRate_accuracy_witness :
  0 < 160 /\ (0 <= 23 /\ 23 <= 160)
  /\ (23 / 160 * 100 - 0.01 <= OpenDota.calculateWinRate 23 160
      /\ OpenDota.calculateWinRate 23 160 <= 23 / 160 * 100 + 0.01).
Proof.
  assert (Hg : 0 < 160) by reflexivity.
  assert (Hw : 0 <= 23 /\ 23 <= 160) by (split; discriminate).
  split; [exact Hg |]. split; [exact Hw |].
  exact (proj1 (proj2 (calculateWinRate_accuracy 23 160 Hg Hw))).
Defined.

(** X11.  When every stored matchup record is plausible (wins between 0
    and the games), the counter score of every hero against every enemy
    team is between 0 and 100. *)
Theorem getCounterScore_is_percentage (self : DraftAnalyzer.t)
  (heroId : Z) (enemyHeroes : list Hero)
  (Hstore : plausibleStore (DraftAnalyzer.matchupData self)) :
  0 <= DraftAnalyzer.getCounterScore self heroId enemyHeroes
  /\ DraftAnalyzer.getCounterScore self heroId enemyHeroes <= 100.
Proof. now apply getCounterScore_range. Qed.

(** The store of the examples holds one record, 13 wins in 20 games. *)
Lemma twentyGames_plausible :
  plausibleStore (DraftAnalyzer.matchupData Records.analyzer).
Proof.
  intros heroId matchups H. cbn in H. unfold Records.twentyGames in H.
  apply lookup_singleton_Some in H as [_ <-].
  repeat constructor; discriminate.
Defined.

(** Lina against Anti-Mage: the record of 20 games counts and the counter
    score is its win rate, 65. *)
Lemma getCounterScore_is_percentage_witness :
  plausibleStore (DraftAnalyzer.matchupData Records.analyzer)
  /\ DraftAnalyzer.getCounterScore Records.analyzer
       (Hero.id Examples.lina) [Examples.antimage] == 65
  /\ 0 <= DraftAnalyzer.getCounterScore Records.analyzer
            (Hero.id Examples.lina) [Examples.antimage]
  /\ DraftAnalyzer.getCounterScore Records.analyzer
       (Hero.id Examples.lina) [Examples.antimage] <= 100.
Proof.
  split; [exact twentyGames_plausible |].
  split; [vm_compute; reflexivity |].
  exact (getCounterScore_is_percentage Records.analyzer
           (Hero.id Examples.lina) [Examples.antimage]
           twentyGames_plausible).
Defined.

(** X12.  When the matchup records are plausible and no public pick count
    is negative, every score of the basic generator is a whole number
    between 0 and 100. *)
Theorem basic_scores_are_whole_percentages (self : DraftAnalyzer.t)
  (draftState : DraftState) (roleFilter : option (list string))
  (limit : option Z)
  (Hstore : plausibleStore (DraftAnalyzer.matchupData self))
  (Hstats : Forall (fun stat => 0 <= HeroStats.pub_pick stat)
              (DraftAnalyzer.heroStats self)) :
  Forall
    (fun s =>
       exists n : Z,
         DraftSuggestion.score s = inject_Z n /\ (0 <= n <= 100)%Z)
    (DraftAnalyzer.generateSuggestions self draftState roleFilter limit).
Proof.
  apply List.Forall_forall. intros s Hs.
  unfold DraftAnalyzer.generateSuggestions in Hs.
  apply slice0_In, sortDesc_In, in_map_iff in Hs as (hero & <- & _).
  destruct (calculateHeroScore_fields self hero draftState) as [-> _].
  pose proof (getMetaScore_range self (Hero.id hero)) as Hm.
  pose proof (getCounterScore_range self (Hero.id hero)
                (pickedHeroes (DraftState.enemyTeam draftState)) Hstore)
    as Hc.
  pose proof (getSynergyScore_range self (Hero.id hero)
                (pickedHeroes (DraftState.yourTeam draftState))) as Hsyn.
  pose proof (getProScore_range self (Hero.id hero) Hstats) as Hp.
  apply round_range; lra.
Qed.

(** With the statistics and the store of the examples, Lina is suggested
    against Anti-Mage with the score 62. *)
Lemma basic_scores_are_whole_percentages_witness :
  plausibleStore (DraftAnalyzer.matchupData Records.analyzer)
  /\ Forall (fun stat => 0 <= HeroStats.pub_pick stat)
       (DraftAnalyzer.heroStats Records.analyzer)
  /\ (exists s,
         In s (DraftAnalyzer.generateSuggestions Records.analyzer
                 Examples.draft None (Some 15%Z))
         /\ DraftSuggestion.hero s = Examples.lina
         /\ DraftSuggestion.score s = 62)
  /\ Forall
       (fun s =>
          exists n : Z,
            DraftSuggestion.score s = inject_Z n /\ (0 <= n <= 100)%Z)
       (DraftAnalyzer.generateSuggestions Records.analyzer
          Examples.draft None (Some 15%Z)).
Proof.
  assert (Hstats :
            Forall (fun stat => 0 <= HeroStats.pub_pick stat)
              (DraftAnalyzer.heroStats Records.analyzer))
    by (repeat constructor; discriminate).
  split; [exact twentyGames_plausible |]. split; [exact Hstats |].
  split.
  - eexists. split; [vm_compute; left; reflexivity |].
    split; reflexivity.
  - exact (basic_scores_are_whole_percentages Records.analyzer
             Examples.draft None (Some 15%Z) twentyGames_plausible Hstats).
Defined.

(** X13.  The synergy score of the basic scorer is between 0 and 74 for
    every hero and team, and it is the neutral 50 when the team is empty
    or the hero is not in the roster. *)
Theorem getSynergyScore_at_most_74 (self : DraftAnalyzer.t) (heroId : Z)
  (teamHeroes : list Hero) :
  (0 <= DraftAnalyzer.getSynergyScore self heroId teamHeroes
   /\ DraftAnalyzer.getSynergyScore self heroId teamHeroes <= 74)
  /\ DraftAnalyzer.getSynergyScore self heroId [] = 50
  /\ (Forall (fun h => Hero.id h <> heroId) (DraftAnalyzer.heroes self) ->
      DraftAnalyzer.getSynergyScore self heroId teamHeroes = 50).
Proof.
  split; [apply getSynergyScore_range |]. split; [reflexivity |].
  intros Hunknown. unfold DraftAnalyzer.getSynergyScore.
  destruct (length teamHeroes =? 0)%nat; [reflexivity |].
  destruct (List.find _ _) as [hero |] eqn:Hfind; [| reflexivity].
  apply find_some in Hfind as [Hin Hid]. apply Z.eqb_eq in Hid.
  rewrite List.Forall_forall in Hunknown. now destruct (Hunknown hero Hin).
Qed.

(** X14.  The basic generator rates a suggestion high only when at least
    four enemy heroes are picked and its reported score is at least 70,
    and medium only when at least two are picked and its reported score is
    at least 60.  (The rating tests the score before rounding, which must
    exceed 70 or 60; the reported score is rounded, so 70 and 60 themselves
    occur.) *)
Theorem confidence_needs_enemy_picks (self : DraftAnalyzer.t)
  (draftState : DraftState) (roleFilter : option (list string))
  (limit : option Z) :
  let picks := length (pickedHeroes (DraftState.enemyTeam draftState)) in
  Forall
    (fun s =>
       match DraftSuggestion.confidence s with
       | high => (4 <= picks)%nat /\ 70 <= DraftSuggestion.score s
       | medium => (2 <= picks)%nat /\ 60 <= DraftSuggestion.score s
       | low => True
       end)
    (DraftAnalyzer.generateSuggestions self draftState roleFilter limit).
Proof.
  cbv zeta. apply List.Forall_forall. intros s Hs.
  unfold DraftAnalyzer.generateSuggestions in Hs.
  apply slice0_In, sortDesc_In, in_map_iff in Hs as (hero & <- & _).
  destruct (calculateHeroScore_fields self hero draftState) as [-> ->].
  unfold DraftAnalyzer.getConfidenceLevel.
  match goal with
  | |- context [Js.round ?x] => generalize x
  end.
  intros final.
  assert (Hround : forall c : Z, inject_Z c < final ->
                     inject_Z c <= Js.round final).
  { intros c Hc. unfold Js.round. rewrite <- Zle_Qle.
    rewrite <- (Qfloor_Z c). apply Qfloor_resp_le. lra. }
  destruct (4 <=? _)%nat eqn:H4; cbn [andb].
  - destruct (Js.gt final 70) eqn:H70.
    + apply lt_true in H70. apply Nat.leb_le in H4.
      split; [exact H4 | exact (Hround 70%Z H70)].
    + destruct (2 <=? _)%nat eqn:H2; cbn [andb]; [| exact I].
      destruct (Js.gt final 60) eqn:H60; [| exact I].
      apply lt_true in H60. apply Nat.leb_le in H2.
      split; [exact H2 | exact (Hround 60%Z H60)].
  - destruct (2 <=? _)%nat eqn:H2; cbn [andb]; [| exact I].
    destruct (Js.gt final 60) eqn:H60; [| exact I].
    apply lt_true in H60. apply Nat.leb_le in H2.
    split; [exact H2 | exact (Hround 60%Z H60)].
Qed.

(** ** The matchup store *)

Section MatchupStore.

Lemma advanced_same_integration (self self' : DraftAnalyzer.t)
  (draftState : DraftState) (gameContext : option GameContext)
  (roleFilter : option (list string)) (limit : option Z) :
  DraftAnalyzer.integration self' = DraftAnalyzer.integration self ->
  DraftAnalyzer.heroStats self' = DraftAnalyzer.heroStats self ->
  DraftAnalyzer.generateAdvancedSuggestions
    self' draftState gameContext roleFilter limit
  = DraftAnalyzer.generateAdvancedSuggestions
      self draftState gameContext roleFilter limit.
Proof.
  intros Hint Hstats.
  destruct (enhanced_Ok_inv (DraftAnalyzer.integration self) draftState
              (handedDown roleFilter gameContext)) as (l0 & Hl0 & _).
  rewrite (advanced_unfold self draftState roleFilter gameContext limit l0)
    by exact Hl0.
  rewrite (advanced_unfold self' draftState roleFilter gameContext limit l0)
    by (rewrite Hint; exact Hl0).
  do 2 f_equal. apply map_ext. intros s.
  unfold DraftAnalyzer.convert, DraftAnalyzer.winRateOf,
    DraftAnalyzer.findStat.
  now rewrite Hstats.
Qed.

Lemma calculateHeroScore_ext (self self' : DraftAnalyzer.t) (hero : Hero)
  (draftState : DraftState) :
  DraftAnalyzer.heroes self' = DraftAnalyzer.heroes self ->
  DraftAnalyzer.heroStats self' = DraftAnalyzer.heroStats self ->
  DraftAnalyzer.matchupData self' !! Hero.id hero
  = DraftAnalyzer.matchupData self !! Hero.id hero ->
  DraftAnalyzer.calculateHeroScore self' hero draftState
  = DraftAnalyzer.calculateHeroScore self hero draftState.
Proof.
  intros Hheroes Hstats Hstore.
  unfold DraftAnalyzer.calculateHeroScore, DraftAnalyzer.getMetaScore,
    DraftAnalyzer.getCounterScore, DraftAnalyzer.getSynergyScore,
    DraftAnalyzer.getProScore, DraftAnalyzer.winRateOf,
    DraftAnalyzer.findStat.
  now rewrite Hheroes, Hstats, Hstore.
Qed.

(** The basic generator reads the store only at the ids of the heroes it
    scores. *)
Lemma generateSuggestions_ext (self self' : DraftAnalyzer.t)
  (draftState : DraftState) (roleFilter : option (list string))
  (limit : option Z) :
  DraftAnalyzer.heroes self' = DraftAnalyzer.heroes self ->
  DraftAnalyzer.heroStats self' = DraftAnalyzer.heroStats self ->
  (forall hero,
      In hero (basicCandidates self draftState roleFilter) ->
      DraftAnalyzer.matchupData self' !! Hero.id hero
      = DraftAnalyzer.matchupData self !! Hero.id hero) ->
  DraftAnalyzer.generateSuggestions self' draftState roleFilter limit
  = DraftAnalyzer.generateSuggestions self draftState roleFilter limit.
Proof.
  intros Hheroes Hstats Hstore. unfold DraftAnalyzer.generateSuggestions.
  rewrite Hheroes. fold (basicCandidates self draftState roleFilter).
  do 2 f_equal. apply map_ext_in. intros hero Hhero.
  apply calculateHeroScore_ext; auto.
Qed.

End MatchupStore.

(** X15.  The advanced generator never reads the matchup store: storing
    matchup data for any hero leaves its result unchanged. *)
Theorem advanced_ignores_matchup_store (self : DraftAnalyzer.t)
  (heroId : Z) (matchups : list HeroMatchupData)
  (draftState : DraftState) (gameContext : option GameContext)
  (roleFilter : option (list string)) (limit : option Z) :
  DraftAnalyzer.generateAdvancedSuggestions
    (DraftAnalyzer.setMatchupData self heroId matchups)
    draftState gameContext roleFilter limit
  = DraftAnalyzer.generateAdvancedSuggestions
      self draftState gameContext roleFilter limit.
Proof. now apply advanced_same_integration. Qed.

(** X16.  Storing matchup data for one hero replaces that hero's records
    and touches nothing else: the counter score of any other hero is
    unchanged, a second store for the same hero overrides the first, and
    storing an empty list gives the hero the neutral counter score 50. *)
Theorem setMatchupData_frame (self : DraftAnalyzer.t) (heroId other : Z)
  (matchups matchups' : list HeroMatchupData) (enemyHeroes : list Hero)
  (Hother : other <> heroId) :
  DraftAnalyzer.getCounterScore
    (DraftAnalyzer.setMatchupData self heroId matchups) other enemyHeroes
  = DraftAnalyzer.getCounterScore self other enemyHeroes
  /\ DraftAnalyzer.getCounterScore
       (DraftAnalyzer.setMatchupData
          (DraftAnalyzer.setMatchupData self heroId matchups)
          heroId matchups')
       heroId enemyHeroes
     = DraftAnalyzer.getCounterScore
         (DraftAnalyzer.setMatchupData self heroId matchups')
         heroId enemyHeroes
  /\ DraftAnalyzer.getCounterScore
       (DraftAnalyzer.setMatchupData self heroId []) heroId enemyHeroes
     = 50.
Proof.
  unfold DraftAnalyzer.getCounterScore, DraftAnalyzer.setMatchupData.
  cbn [DraftAnalyzer.matchupData]. split; [| split].
  - now rewrite lookup_insert_ne.
  - now rewrite !lookup_insert_eq.
  - rewrite lookup_insert_eq.
    destruct (length enemyHeroes =? 0)%nat; [reflexivity |].
    assert (H : forall acc,
               fold_left (DraftAnalyzer.counterStep []) enemyHeroes acc = acc).
    { induction enemyHeroes as [| enemy rest IH]; intros acc; [reflexivity |].
      cbn [fold_left]. rewrite <- (IH acc) at 2. f_equal.
      now destruct acc. }
    now rewrite H.
Qed.

Lemma setMatchupData_frame_witness :
  2%Z <> 25%Z
  /\ DraftAnalyzer.getCounterScore
       (DraftAnalyzer.setMatchupData
          (analyzerWith Examples.roster [] Examples.tenGames) 25
          [ {| HeroMatchupData.hero_id := 1;
               HeroMatchupData.games_played := 20;
               HeroMatchupData.wins := 5 |} ])
       2 [Examples.antimage]
     = DraftAnalyzer.getCounterScore
         (analyzerWith Examples.roster [] Examples.tenGames)
         2 [Examples.antimage].
Proof.
  assert (H : 2%Z <> 25%Z) by discriminate.
  split; [exact H |].
  exact (proj1 (setMatchupData_frame
                  (analyzerWith Examples.roster [] Examples.tenGames)
                  25 2 _ [] [Examples.antimage] H)).
Defined.

(** ** The suggestions route *)

Section Route.

Lemma loadMatchups_fields (results : list (Z * list OpenDotaMatchupData))
  (analyzer : DraftAnalyzer.t) :
  let loaded := SuggestionsRoute.loadMatchups analyzer results in
  DraftAnalyzer.heroes loaded = DraftAnalyzer.heroes analyzer
  /\ DraftAnalyzer.heroStats loaded = DraftAnalyzer.heroStats analyzer
  /\ DraftAnalyzer.integration loaded = DraftAnalyzer.integration analyzer
  /\ forall heroId,
       ~ In heroId (map fst results) ->
       DraftAnalyzer.matchupData loaded !! heroId
       = DraftAnalyzer.matchupData analyzer !! heroId.
Proof.
  cbv zeta. unfold SuggestionsRoute.loadMatchups. revert analyzer.
  induction results as [| [k matchups] rest IH]; intros analyzer;
    [now repeat split |].
  cbn [fold_left map fst].
  destruct (IH (DraftAnalyzer.setMatchupData analyzer k
                  (DataTransformer.transformMatchupData matchups)))
    as (Hh & Hs & Hi & Hm).
  repeat split; try assumption.
  intros heroId Hnot. rewrite Hm by (intros Hin; apply Hnot; now right).
  cbn [DraftAnalyzer.setMatchupData DraftAnalyzer.matchupData].
  apply lookup_insert_ne. intros ->. apply Hnot. now left.
Qed.

Lemma fetched_keys
  (getHeroMatchups : Z -> Result (list OpenDotaMatchupData))
  (enemyHeroes : list Hero) :
  map fst (map (SuggestionsRoute.fetchMatchups getHeroMatchups) enemyHeroes)
  = map Hero.id enemyHeroes.
Proof.
  rewrite map_map. apply map_ext. intros enemy.
  unfold SuggestionsRoute.fetchMatchups.
  now destruct (getHeroMatchups (Hero.id enemy)).
Qed.

(** A candidate of the basic generator is no enemy hero. *)
Lemma candidate_not_enemy (self : DraftAnalyzer.t) (draftState : DraftState)
  (roleFilter : option (list string)) (hero : Hero) :
  In hero (basicCandidates self draftState roleFilter) ->
  ~ In (Hero.id hero)
      (map Hero.id (pickedHeroes (DraftState.enemyTeam draftState))).
Proof.
  unfold basicCandidates. intros Hhero Hin.
  apply filter_In in Hhero as [Hhero _].
  apply filter_In in Hhero as [_ Hfree].
  apply negb_true_iff, bool_decide_eq_false in Hfree. apply Hfree.
  unfold DraftAnalyzer.pickedIds.
  apply elem_of_list_to_set, elem_of_app. right.
  now apply list_elem_of_In.
Qed.

End Route.

(** X17.  The answer of the suggestions route does not depend on the
    matchup data it fetches: the data is stored under the ids of the enemy
    heroes, the basic scorer looks it up under the id of the candidate,
    which is never an enemy hero, and the advanced scorer does not read
    the store. *)
Theorem route_ignores_fetched_matchups
  (getHeroes : Result (list Hero)) (getHeroStats : Result (list HeroStats))
  (getHeroMatchups getHeroMatchups' : Z -> Result (list OpenDotaMatchupData))
  (body : SuggestionsRoute.Body.t) :
  SuggestionsRoute.POST getHeroes getHeroStats getHeroMatchups body
  = SuggestionsRoute.POST getHeroes getHeroStats getHeroMatchups' body.
Proof.
  unfold SuggestionsRoute.POST.
  destruct (SuggestionsRoute.Body.draftState body) as [draftState |];
    [| reflexivity].
  destruct getHeroes as [heroes | e]; [| reflexivity].
  destruct getHeroStats as [heroStats | e]; [| reflexivity].
  set (enemies := pickedHeroes (DraftState.enemyTeam draftState)).
  assert (Hsame :
            forall f,
              let loaded :=
                SuggestionsRoute.loadMatchups
                  (DraftAnalyzer.new heroes heroStats)
                  (map (SuggestionsRoute.fetchMatchups f) enemies) in
              DraftAnalyzer.generateAdvancedSuggestions loaded draftState
                (Some (default GameContext.empty
                         (SuggestionsRoute.Body.gameContext body)))
                (SuggestionsRoute.Body.roleFilter body) (Some 15%Z)
              = DraftAnalyzer.generateAdvancedSuggestions
                  (DraftAnalyzer.new heroes heroStats) draftState
                  (Some (default GameContext.empty
                           (SuggestionsRoute.Body.gameContext body)))
                  (SuggestionsRoute.Body.roleFilter body) (Some 15%Z)
              /\ DraftAnalyzer.generateSuggestions loaded draftState
                   (SuggestionsRoute.Body.roleFilter body) (Some 15%Z)
                 = DraftAnalyzer.generateSuggestions
                     (DraftAnalyzer.new heroes heroStats) draftState
                     (SuggestionsRoute.Body.roleFilter body) (Some 15%Z)).
  { intros f. cbv zeta.
    destruct (loadMatchups_fields
                (map (SuggestionsRoute.fetchMatchups f) enemies)
                (DraftAnalyzer.new heroes heroStats)) as (Hh & Hs & Hi & Hm).
    split.
    - now apply advanced_same_integration.
    - apply generateSuggestions_ext; try assumption.
      intros hero Hhero. apply Hm. rewrite fetched_keys.
      exact (candidate_not_enemy _ _ _ _ Hhero). }
  destruct (Hsame getHeroMatchups) as [-> ->].
  destruct (Hsame getHeroMatchups') as [-> ->].
  reflexivity.
Qed.

(** ** The focused recommenders of the integration layer *)

Section Focused.

(** A sort by a key after a filter, cut to five: at most five elements, in
    descending order of the key, all passing the filter and all taken from
    the input. *)
Lemma focused_shape {A : Type} (key : A -> Q) (keep : A -> bool)
  (l : list A) :
  let r := Js.slice0 (Js.sortDesc key (List.filter keep l)) 5 in
  (length r <= 5)%nat
  /\ descending key r
  /\ Forall (fun x => keep x = true /\ In x l) r.
Proof.
  cbv zeta. split; [| split].
  - pose proof (slice0_length_limit
                  (Js.sortDesc key (List.filter keep l)) 5).
    lia.
  - apply descending_slice0, sortDesc_descending.
  - apply List.Forall_forall. intros x Hx.
    apply slice0_In, sortDesc_In, filter_In in Hx. tauto.
Qed.

Lemma pickedHeroes_In_inv (team : list (option Hero)) (h : Hero) :
  In h (pickedHeroes team) -> inTeam team h.
Proof.
  unfold pickedHeroes, inTeam. intros H.
  apply list_elem_of_In, list_elem_of_omap in H as ([x |] & Hx & Heq);
    [| discriminate].
  injection Heq as ->. now apply list_elem_of_In.
Qed.

(** The assignment that carries the id of an available candidate is the
    candidate's own. *)
Lemma own_assignment_of_candidate (draftState : DraftState)
  (roleFilter : option (list string)) (hero : Hero) (a : LaneAssignment) :
  AdvancedDraftAnalyzer.isAvailable draftState roleFilter hero = true ->
  In a (LaneOptimizer.optimizeLanes
          (pickedHeroes (DraftState.yourTeam draftState) ++ [hero])) ->
  Hero.id (LaneAssignment.hero a) = Hero.id hero ->
  LaneAssignment.hero a = hero.
Proof.
  intros Hav Ha Hid.
  apply optimizeLanes_member in Ha as (Hin & _).
  apply in_app_or in Hin as [Hteam | [<- | []]]; [| reflexivity].
  apply pickedHeroes_In_inv in Hteam.
  unfold AdvancedDraftAnalyzer.isAvailable in Hav.
  apply andb_prop in Hav as [Hav _]. apply andb_prop in Hav as [Hyour _].
  apply negb_true_iff in Hyour.
  rewrite (teamHas_true _ hero _ Hteam Hid) in Hyour. discriminate.
Qed.

Variables (heroes : list Hero) (heroStats : list HeroStats).
Variable draftState : DraftState.

(** A suggestion whose own assignment has the wanted lane with a
    confidence above 0.6 is a Support at position 4. *)
Lemma fitsLane_support (lane : Z)
  (options : DraftAnalyzerIntegration.Options.t) (s0 s : AdvancedSuggestion) :
  AdvancedDraftAnalyzer.suggest
    (AdvancedDraftAnalyzer.new heroes heroStats) draftState
    (default GameContext.empty
       (DraftAnalyzerIntegration.Options.gameContext options))
    (AdvancedSuggestion.hero s0) = Ok s0 ->
  AdvancedDraftAnalyzer.isAvailable draftState
    (DraftAnalyzerIntegration.Options.roleFilter options)
    (AdvancedSuggestion.hero s0) = true ->
  strippedFrom options s0 s ->
  DraftAnalyzerIntegration.fitsLane lane s = true ->
  lane = 4%Z
  /\ Js.includes (Hero.roles (AdvancedSuggestion.hero s)) "Support" = true.
Proof.
  intros Hsug Hav (Hverdict & _ & Hlanes & _) Hfit.
  apply new_suggest_fields in Hsug. cbv zeta in Hsug.
  destruct Hsug as (_ & _ & _ & _ & Hlanes0 & _).
  unfold verdict in Hverdict. injection Hverdict as Hhero _ _ _.
  unfold DraftAnalyzerIntegration.fitsLane,
    DraftAnalyzerIntegration.ownAssignment in Hfit.
  destruct (List.find _ _) as [a |] eqn:Hfind; [| discriminate].
  apply find_some in Hfind as [Ha Hid]. apply Z.eqb_eq in Hid.
  apply andb_prop in Hfit as [Hpos Hconf].
  apply Z.eqb_eq in Hpos. apply lt_true in Hconf.
  rewrite Hlanes in Ha.
  destruct (default true _); [| destruct Ha].
  rewrite Hlanes0 in Ha. rewrite Hhero in Hid.
  pose proof (own_assignment_of_candidate _ _ _ _ Hav Ha Hid) as Hown.
  apply optimizeLanes_member in Ha as (Hin & Hposition & Hconfidence).
  pose proof (member_confidence _ _ Hin) as Hc. cbv zeta in Hc.
  rewrite <- Hconfidence in Hc.
  destruct Hc as [Hc | [Hc | (Hc & H4 & Hsupport)]];
    [rewrite Hc in Hconf; discriminate Hconf
    | rewrite Hc in Hconf; discriminate Hconf |].
  split; [congruence |]. now rewrite Hhero, <- Hown.
Qed.

(** A suggestion with a strong window in the target phase belongs to a
    hero whose power in that phase is above 0.6. *)
Lemma strongIn_power (targetPhase : Phase)
  (options : DraftAnalyzerIntegration.Options.t) (s0 s : AdvancedSuggestion) :
  AdvancedDraftAnalyzer.suggest
    (AdvancedDraftAnalyzer.new heroes heroStats) draftState
    (default GameContext.empty
       (DraftAnalyzerIntegration.Options.gameContext options))
    (AdvancedSuggestion.hero s0) = Ok s0 ->
  strippedFrom options s0 s ->
  DraftAnalyzerIntegration.strongIn targetPhase s = true ->
  0.6 < powerOf targetPhase (AdvancedSuggestion.hero s).
Proof.
  intros Hsug (Hverdict & _ & _ & Hwindows & _) Hstrong.
  apply new_suggest_fields in Hsug. cbv zeta in Hsug.
  destruct Hsug as (_ & _ & _ & _ & _ & Hwindows0 & _).
  unfold verdict in Hverdict. injection Hverdict as Hhero _ _ _.
  unfold DraftAnalyzerIntegration.strongIn,
    DraftAnalyzerIntegration.windowOf in Hstrong.
  rewrite Hwindows in Hstrong.
  destruct (default true _); [| discriminate].
  rewrite Hwindows0 in Hstrong. rewrite Hhero.
  unfold TimingAnalyzer.analyzeTimingWindows in Hstrong.
  destruct targetPhase; cbn in Hstrong; now apply lt_true in Hstrong.
Qed.

End Focused.

(** X18.  The four focused recommenders of the integration layer (counter
    picks, synergy, lane, timing) always answer, with at most five
    suggestions, in descending order of their own key, each passing their
    own filter. *)
Theorem focused_recommenders_shape (self : DraftAnalyzerIntegration.t)
  (draftState : DraftState) (targetEnemyHero : Hero)
  (focusHero : option Hero) (lane : Z) (targetPhase : Phase) :
  (exists l,
      DraftAnalyzerIntegration.getCounterPickRecommendations
        self draftState targetEnemyHero = Ok l
      /\ (length l <= 5)%nat
      /\ descending DraftAnalyzerIntegration.counterOf l
      /\ Forall
           (fun s =>
              DraftAnalyzerIntegration.isCounterPick targetEnemyHero s = true)
           l)
  /\ (exists l,
         DraftAnalyzerIntegration.getSynergyRecommendations
           self draftState focusHero = Ok l
         /\ (length l <= 5)%nat
         /\ descending DraftAnalyzerIntegration.synergyTotal l
         /\ Forall
              (fun s => DraftAnalyzerIntegration.hasSynergy focusHero s = true)
              l)
  /\ (exists l,
         DraftAnalyzerIntegration.getLaneRecommendations
           self draftState lane = Ok l
         /\ (length l <= 5)%nat
         /\ descending DraftAnalyzerIntegration.laneConfidence l
         /\ Forall (fun s => DraftAnalyzerIntegration.fitsLane lane s = true)
              l)
  /\ (exists l,
         DraftAnalyzerIntegration.getTimingRecommendations
           self draftState targetPhase = Ok l
         /\ (length l <= 5)%nat
         /\ descending (DraftAnalyzerIntegration.powerIn targetPhase) l
         /\ Forall
              (fun s => DraftAnalyzerIntegration.strongIn targetPhase s = true)
              l).
Proof.
  unfold DraftAnalyzerIntegration.getCounterPickRecommendations,
    DraftAnalyzerIntegration.getSynergyRecommendations,
    DraftAnalyzerIntegration.getLaneRecommendations,
    DraftAnalyzerIntegration.getTimingRecommendations.
  repeat split;
    match goal with
    | |- context [DraftAnalyzerIntegration.getEnhancedRecommendations
                    ?a ?b ?o] =>
        destruct (enhanced_elements a b o) as (l0 & -> & _)
    end;
    rewrite bind_Ok; eexists; (split; [reflexivity |]);
    match goal with
    | |- context [Js.sortDesc ?key (List.filter ?keep ?l)] =>
        destruct (focused_shape key keep l) as (Hlen & Hsorted & Hall)
    end;
    (split; [exact Hlen |]); (split; [exact Hsorted |]);
    (eapply List.Forall_impl; [| exact Hall]); intros s [Hs _]; exact Hs.
Qed.

(** X19.  With the analyzers of the constructor, the lane recommender
    answers with the empty list for every lane other than 4, and for lane
    4 every hero it returns is tagged Support. *)
Theorem lane_recommendations_only_for_lane_4
  (heroes : list Hero) (heroStats : list HeroStats)
  (draftState : DraftState) (lane : Z) :
  exists l,
    DraftAnalyzerIntegration.getLaneRecommendations
      (DraftAnalyzerIntegration.new heroes heroStats) draftState lane = Ok l
    /\ (l = [] \/ lane = 4%Z)
    /\ Forall
         (fun s =>
            Js.includes (Hero.roles (AdvancedSuggestion.hero s)) "Support"
            = true)
         l.
Proof.
  unfold DraftAnalyzerIntegration.getLaneRecommendations.
  match goal with
  | |- context [DraftAnalyzerIntegration.getEnhancedRecommendations
                  ?a ?b ?o] =>
      destruct (enhanced_elements a b o) as (l0 & -> & Hall0)
  end.
  rewrite bind_Ok. eexists. split; [reflexivity |].
  match goal with
  | |- context [Js.sortDesc ?key (List.filter ?keep ?l)] =>
      destruct (focused_shape key keep l) as (_ & _ & Hall)
  end.
  assert (Hfacts :
            Forall
              (fun s =>
                 lane = 4%Z
                 /\ Js.includes (Hero.roles (AdvancedSuggestion.hero s))
                      "Support" = true)
              (Js.slice0
                 (Js.sortDesc DraftAnalyzerIntegration.laneConfidence
                    (List.filter (DraftAnalyzerIntegration.fitsLane lane) l0))
                 5)).
  { eapply List.Forall_impl; [| exact Hall]. intros s [Hfit Hin].
    rewrite List.Forall_forall in Hall0.
    destruct (Hall0 s Hin) as (s0 & Hsug & Hav & Hstrip).
    exact (fitsLane_support heroes heroStats draftState lane _ s0 s
             Hsug Hav Hstrip Hfit). }
  split.
  - destruct Hfacts as [| s rest [H4 _] _]; [now left | now right].
  - eapply List.Forall_impl; [| exact Hfacts]. now intros s [_ Hs].
Qed.

(** X20.  With the analyzers of the constructor, every hero that the timing
    recommender returns has a power above 0.6 in the target phase. *)
Theorem timing_recommendations_are_strong
  (heroes : list Hero) (heroStats : list HeroStats)
  (draftState : DraftState) (targetPhase : Phase) :
  exists l,
    DraftAnalyzerIntegration.getTimingRecommendations
      (DraftAnalyzerIntegration.new heroes heroStats) draftState targetPhase
    = Ok l
    /\ Forall
         (fun s => 0.6 < powerOf targetPhase (AdvancedSuggestion.hero s)) l.
Proof.
  unfold DraftAnalyzerIntegration.getTimingRecommendations.
  match goal with
  | |- context [DraftAnalyzerIntegration.getEnhancedRecommendations
                  ?a ?b ?o] =>
      destruct (enhanced_elements a b o) as (l0 & -> & Hall0)
  end.
  rewrite bind_Ok. eexists. split; [reflexivity |].
  match goal with
  | |- context [Js.sortDesc ?key (List.filter ?keep ?l)] =>
      destruct (focused_shape key keep l) as (_ & _ & Hall)
  end.
  eapply List.Forall_impl; [| exact Hall]. intros s [Hstrong Hin].
  rewrite List.Forall_forall in Hall0.
  destruct (Hall0 s Hin) as (s0 & Hsug & _ & Hstrip).
  exact (strongIn_power heroes heroStats draftState targetPhase _ s0 s
           Hsug Hstrip Hstrong).
Qed.

(** ** The options of the integration layer *)

(** X21.  The four include flags only blank the attached artifacts: for the
    same game context and role filter, two calls with any flags return the
    same heroes in the same order with the same scores, reasons and
    breakdowns.  The scenario recommender, which switches the pro patterns
    off, returns every suggestion with the all-zero pro pattern. *)
Theorem include_flags_keep_the_verdicts (self : DraftAnalyzerIntegration.t)
  (draftState : DraftState) (gameContext : option GameContext)
  (roleFilter : option (list string))
  (builds lanes timing pro builds' lanes' timing' pro' : option bool)
  (scenario : string) :
  (exists l l',
      DraftAnalyzerIntegration.getEnhancedRecommendations self draftState
        (DraftAnalyzerIntegration.Options.mk gameContext roleFilter
           builds lanes timing pro) = Ok l
      /\ DraftAnalyzerIntegration.getEnhancedRecommendations self draftState
           (DraftAnalyzerIntegration.Options.mk gameContext roleFilter
              builds' lanes' timing' pro') = Ok l'
      /\ map verdict l = map verdict l')
  /\ (exists l,
         DraftAnalyzerIntegration.getScenarioRecommendations
           self draftState scenario = Ok l
         /\ Forall
              (fun s =>
                 AdvancedSuggestion.proPatterns s
                 = DraftAnalyzerIntegration.noProPatterns)
              l).
Proof.
  split.
  - unfold DraftAnalyzerIntegration.getEnhancedRecommendations.
    cbn [DraftAnalyzerIntegration.Options.gameContext
           DraftAnalyzerIntegration.Options.roleFilter].
    destruct (AdvancedDraftAnalyzer.generateAdvancedSuggestions _ _ _ _)
      as [l0 | e]; cbn [mbind Result_bind mret Result_ret try_catch].
    + do 2 eexists. split; [reflexivity |]. split; [reflexivity |].
      rewrite !map_map. apply map_ext. intros s. reflexivity.
    + exists [], []. now repeat split.
  - unfold DraftAnalyzerIntegration.getScenarioRecommendations.
    match goal with
    | |- context [DraftAnalyzerIntegration.getEnhancedRecommendations
                    ?a ?b ?o] =>
        destruct (enhanced_elements a b o) as (l & -> & Hall)
    end.
    exists l. split; [reflexivity |].
    eapply List.Forall_impl; [| exact Hall].
    intros s (s0 & _ & _ & _ & _ & _ & _ & Hpro). exact Hpro.
Qed.

(** ** The analysis of one hero *)

(** X22.  The in-depth analysis of a hero never raises.  With the analyzers
    of the constructor it returns an analysis of the hero whose team
    synergy score is the neutral 0.5, with one lane assignment (for the
    hero, at a position among 1 to 4), three timing windows, a patch trend
    between 0.5 and 0.8, a meta position between 0.5 and 0.96 (the largest
    sum is 0.95, and the bound leaves room for the rounding of the float
    additions; the cap at 1 never applies) and an adaptability of at least
    0.2, which exceeds 1 exactly for a hero with more than five role
    tags. *)
Theorem analyzeHeroInDepth_facts :
  (forall (self : DraftAnalyzerIntegration.t) (hero : Hero)
          (gameContext : GameContext),
      exists r,
        DraftAnalyzerIntegration.analyzeHeroInDepth self hero gameContext
        = Ok r)
  /\ (forall (heroes : list Hero) (heroStats : list HeroStats) (hero : Hero)
             (gameContext : GameContext),
         exists a,
           DraftAnalyzerIntegration.analyzeHeroInDepth
             (DraftAnalyzerIntegration.new heroes heroStats) hero gameContext
           = Ok (Some a)
           /\ AdvancedHeroAnalysis.hero a = hero
           /\ AdvancedHeroAnalysis.mlSynergyScore a = 0.5
           /\ (exists la,
                  AdvancedHeroAnalysis.laneFlexibility a = [la]
                  /\ LaneAssignment.hero la = hero
                  /\ (1 <= LaneAssignment.position la <= 4)%Z)
           /\ length (AdvancedHeroAnalysis.timingWindows a) = 3%nat
           /\ (let f := AdvancedHeroAnalysis.contextualFactors a in
               (0.5 <= ContextualFactors.patchTrend f
                /\ ContextualFactors.patchTrend f <= 0.8)
               /\ (0.5 <= ContextualFactors.metaPosition f
                   /\ ContextualFactors.metaPosition f <= 0.96)
               /\ 0.2 <= ContextualFactors.adaptability f
               /\ (1 < ContextualFactors.adaptability f
                   <-> (5 < length (Hero.roles hero))%nat))).
Proof.
  split.
  - intros self hero gameContext.
    unfold DraftAnalyzerIntegration.analyzeHeroInDepth.
    destruct (AdvancedDraftAnalyzer.analyzeHero _ _ _) as [a | e];
      eexists; reflexivity.
  - intros heroes heroStats hero gameContext.
    eexists. split; [reflexivity |].
    cbn [AdvancedHeroAnalysis.hero AdvancedHeroAnalysis.mlSynergyScore
           AdvancedHeroAnalysis.laneFlexibility
           AdvancedHeroAnalysis.timingWindows
           AdvancedHeroAnalysis.contextualFactors
           ContextualFactors.patchTrend ContextualFactors.metaPosition
           ContextualFactors.adaptability].
    split; [reflexivity |]. split; [reflexivity |].
    split; [| split; [reflexivity |]].
    + eexists. split; [reflexivity |]. split; [reflexivity |].
      cbn [LaneAssignment.position].
      rewrite (determineOptimalPosition_member [hero] hero)
        by (now left).
      destruct (firstFree_cases [hero]) as [-> | [[-> | [-> | ->]] _]]; lia.
    + cbv zeta. split; [| split; [| split]].
      * unfold AdvancedDraftAnalyzer.calculatePatchTrend.
        destruct (Js.includes AdvancedDraftAnalyzer.popularHeroes
                    (Hero.name hero)) eqn:Hpop;
          destruct (Js.includes AdvancedDraftAnalyzer.recentlyUpdated
                      (Hero.name hero)) eqn:Hnew;
          try (split; closed_le).
        exfalso. apply includes_In in Hpop, Hnew.
        cbn in Hpop, Hnew.
        repeat match goal with
          | H : _ \/ _ |- _ => destruct H as [H | H]
          | H : False |- _ => destruct H
          end; congruence.
      * unfold AdvancedDraftAnalyzer.calculateMetaPosition. score_cases.
      * unfold AdvancedDraftAnalyzer.calculateAdaptability, Js.or_else,
          Js.truthy.
        destruct (Hero.roles hero) as [| r roles]; [closed_le |].
        assert (H : 1 <= inject_Z (Z.of_nat (length (r :: roles)))).
        { cbn [length]. rewrite inject_nat_S.
          pose proof (inject_nat_nonneg (length roles)). lra. }
        destruct (negb _); [| closed_le].
        apply Qle_shift_div_l; [reflexivity | lra].
      * unfold AdvancedDraftAnalyzer.calculateAdaptability, Js.or_else,
          Js.truthy.
        destruct (Hero.roles hero) as [| r roles].
        { cbn. split; [intros H; discriminate H | intros H; lia]. }
        assert (Hnz : Qeq_bool (inject_Z (Z.of_nat (length (r :: roles)))) 0
                      = false).
        { apply not_true_is_false. intros H. apply Qeq_bool_iff in H.
          cbn [length] in H. rewrite inject_nat_S in H.
          pose proof (inject_nat_nonneg (length roles)). lra. }
        rewrite Hnz. cbn [negb].
        assert (Hdiv : inject_Z (Z.of_nat (length (r :: roles))) / 5
                       == inject_Z (Z.of_nat (length (r :: roles))) * 0.2)
          by field.
        rewrite Hdiv. split.
        -- intros H. cut (5 < Z.of_nat (length (r :: roles)))%Z; [lia |].
           rewrite Zlt_Qlt. change (inject_Z 5) with 5. lra.
        -- intros H.
           assert (H' : (5 < Z.of_nat (length (r :: roles)))%Z) by lia.
           rewrite Zlt_Qlt in H'. change (inject_Z 5) with 5 in H'. lra.
Qed.

(** ** Retrying with exponential backoff *)

Section RetryFacts.
Context {T : Type} (fn : nat -> Result T) (baseDelay : Z).

Lemma attemptFrom_spec (remaining attempt : nat) :
  let outcome := fst (ErrorHandling.attemptFrom fn baseDelay remaining attempt)
  in
  let delays := snd (ErrorHandling.attemptFrom fn baseDelay remaining attempt)
  in
  let calls := length delays in
  delays
  = map (fun k => (baseDelay * 2 ^ Z.of_nat k)%Z) (seq attempt calls)
  /\ (calls <= remaining)%nat
  /\ (forall j, (attempt <= j < attempt + calls)%nat ->
        exists e, fn j = Throw e)
  /\ outcome = fn (attempt + calls)%nat
  /\ ((exists e, outcome = Throw e) -> calls = remaining).
Proof.
  cbv zeta. revert attempt.
  induction remaining as [| remaining IH]; intros attempt;
    cbn [ErrorHandling.attemptFrom].
  - destruct (fn attempt) as [v | e] eqn:Hfn; cbn [fst snd length seq map];
      rewrite Nat.add_0_r, Hfn; repeat split; try lia; auto.
  - destruct (fn attempt) as [v | e] eqn:Hfn.
    + cbn [fst snd length seq map]. rewrite Nat.add_0_r, Hfn.
      repeat split; try lia.
      intros [e He]. discriminate He.
    + specialize (IH (S attempt)).
      destruct (ErrorHandling.attemptFrom fn baseDelay remaining (S attempt))
        as [outcome delays].
      cbn [fst snd] in *. destruct IH as (Hd & Hlen & Hfail & Hout & Hthrow).
      cbn [length seq map]. repeat split.
      * now rewrite <- Hd.
      * lia.
      * intros j Hj. destruct (Nat.eq_dec j attempt) as [-> | Hne];
          [now exists e | apply Hfail; lia].
      * rewrite Hout. f_equal. lia.
      * intros H. f_equal. now apply Hthrow.
Qed.

Lemma backoff_total (n : nat) :
  fold_right Z.add 0%Z
    (map (fun k => (baseDelay * 2 ^ Z.of_nat k)%Z) (seq 0 n))
  = (baseDelay * (2 ^ Z.of_nat n - 1))%Z.
Proof.
  induction n as [| n IH]; [cbn; lia |].
  rewrite seq_S, map_app, fold_right_app. cbn [map fold_right Nat.add].
  assert (Hshift : forall l acc,
            fold_right Z.add acc l = (fold_right Z.add 0 l + acc)%Z).
  { induction l as [| x l IHl]; intros acc; cbn; [lia |].
    rewrite IHl. lia. }
  rewrite Hshift, IH, Nat2Z.inj_succ, Z.pow_succ_r by lia. lia.
Qed.

End RetryFacts.

(** X23.  Retrying with backoff calls the function until a call succeeds or
    [maxRetries] retries are used up: if [n] delays were awaited, the calls
    0 to [n - 1] all failed, the outcome is that of call [n], [n] is at
    most [maxRetries], and a failure is only returned after [maxRetries]
    retries.  The delay before retry [k] is [baseDelay * 2^k], so the wait
    adds up to [baseDelay * (2^n - 1)]. *)
Theorem retryWithBackoff_behaviour {T : Type} (fn : nat -> Result T)
  (baseDelay : Z) (maxRetries : nat) :
  let outcome := fst (ErrorHandling.retryWithBackoff fn baseDelay maxRetries)
  in
  let delays := snd (ErrorHandling.retryWithBackoff fn baseDelay maxRetries)
  in
  let n := length delays in
  (n <= maxRetries)%nat
  /\ (forall j, (j < n)%nat -> exists e, fn j = Throw e)
  /\ outcome = fn n
  /\ ((exists e, outcome = Throw e) -> n = maxRetries)
  /\ delays = map (fun k => (baseDelay * 2 ^ Z.of_nat k)%Z) (seq 0 n)
  /\ fold_right Z.add 0%Z delays = (baseDelay * (2 ^ Z.of_nat n - 1))%Z.
Proof.
  cbv zeta. unfold ErrorHandling.retryWithBackoff.
  destruct (attemptFrom_spec fn baseDelay maxRetries 0)
    as (Hd & Hlen & Hfail & Hout & Hthrow).
  repeat split; try assumption.
  - intros j Hj. apply Hfail. lia.
  - rewrite Hd at 1. apply backoff_total.
Qed.

(** ** Role tests *)

(** X24.  The role test of the advanced analyzer, the role test of the
    basic generator and [filterHeroesByRole] select the same heroes for a
    role list that is not empty.  For the empty list they differ: the
    generators keep every hero, [filterHeroesByRole] keeps none. *)
Theorem role_tests_agree (heroes : list Hero) (role : string)
  (roles : list string) :
  (forall hero,
      AdvancedDraftAnalyzer.matchesRoleFilter hero (role :: roles)
      = DraftAnalyzer.passesRoleFilter (Some (role :: roles)) hero)
  /\ filterHeroesByRole heroes (role :: roles)
     = List.filter (DraftAnalyzer.passesRoleFilter (Some (role :: roles)))
         heroes
  /\ filterHeroesByRole heroes [] = []
  /\ List.filter (DraftAnalyzer.passesRoleFilter (Some [])) heroes = heroes
  /\ (forall draftState hero,
         AdvancedDraftAnalyzer.isAvailable draftState (Some []) hero
         = AdvancedDraftAnalyzer.isAvailable draftState None hero).
Proof.
  split; [| split; [| split; [| split]]].
  - intros hero. apply eq_iff_eq_true.
    rewrite matchesRoleFilter_hasRoleIn, passesRoleFilter_hasRoleIn.
    reflexivity.
  - reflexivity.
  - induction heroes as [| h rest IH]; [reflexivity | exact IH].
  - induction heroes as [| h rest IH]; [reflexivity |].
    cbn. now rewrite IH.
  - reflexivity.
Qed.

(** ** The private scorer on the 0 to 100 scale *)

Section PrivateScorer.
Variable self : DraftAnalyzer.t.

Lemma clamp100_range (x lo hi : Q) :
  0 <= lo -> hi <= 100 -> lo <= x -> x <= hi ->
  lo <= Js.min 100 (Js.max 0 x) /\ Js.min 100 (Js.max 0 x) <= hi.
Proof.
  intros Hlo Hhi Hx Hx'.
  destruct (max_cases 0 x) as [[H ->] | [H ->]];
    match goal with
    | |- context [Js.min ?a ?b] =>
        destruct (min_cases a b) as [[H' ->] | [H' ->]]
    end; split; lra.
Qed.

Lemma clamp100_unit (x : Q) :
  0 <= Js.min 100 (Js.max 0 x) /\ Js.min 100 (Js.max 0 x) <= 100.
Proof.
  destruct (max_cases 0 x) as [[H ->] | [H ->]];
    match goal with
    | |- context [Js.min ?a ?b] =>
        destruct (min_cases a b) as [[H' ->] | [H' ->]]
    end; split; lra.
Qed.

Lemma calculateItemSynergyScore_range (hero : Hero) (teamHeroes : list Hero)
  (gameContext : GameContext) :
  50 <= DraftAnalyzer.calculateItemSynergyScore hero teamHeroes gameContext
  /\ DraftAnalyzer.calculateItemSynergyScore hero teamHeroes gameContext
     <= 100.
Proof.
  unfold DraftAnalyzer.calculateItemSynergyScore.
  destruct (GameContext.itemStrategy gameContext) as [[| |] |];
    score_cases.
Qed.

Lemma clamp100_upper (x hi : Q) :
  0 <= hi -> hi <= 100 -> x <= hi ->
  0 <= Js.min 100 (Js.max 0 x) /\ Js.min 100 (Js.max 0 x) <= hi.
Proof.
  intros Hlo Hhi Hx.
  destruct (max_cases 0 x) as [[H ->] | [H ->]];
    match goal with
    | |- context [Js.min ?a ?b] =>
        destruct (min_cases a b) as [[H' ->] | [H' ->]]
    end; split; lra.
Qed.

Lemma private_laneScore_range (hero : Hero) (draftState : DraftState)
  (gameContext : GameContext) :
  0 <= DraftAnalyzer.calculateLaneOptimizationScore hero draftState
         gameContext
  /\ DraftAnalyzer.calculateLaneOptimizationScore hero draftState gameContext
     <= 70.
Proof.
  unfold DraftAnalyzer.calculateLaneOptimizationScore.
  match goal with
  | |- context [inject_Z (Z.of_nat ?n) * 15] =>
      pose proof (inject_nat_nonneg n) as Hn;
      generalize dependent (inject_Z (Z.of_nat n))
  end.
  intros conflicts Hconflicts.
  apply clamp100_upper; [closed_le | closed_le |].
  destruct (GameContext.preferredLanes gameContext) as [lanes |];
    [destruct (existsb _ lanes) |]; lra.
Qed.

Lemma private_timingScore_values (hero : Hero) (gameContext : GameContext) :
  In (DraftAnalyzer.calculateTimingScore hero gameContext)
    [50; 60; 80; 85; 90].
Proof.
  unfold DraftAnalyzer.calculateTimingScore.
  destruct (GameContext.expectedDuration gameContext) as [d |];
    [| now left].
  destruct (negb (Js.truthy d)); [now left |].
  destruct (Js.le d 25 && _); [cbn; tauto |].
  destruct (Js.ge d 25 && Js.le d 45 && _); [cbn; tauto |].
  destruct (Js.ge d 45 && _); cbn; tauto.
Qed.

Lemma private_proPatternScore_range (heroId : Z) :
  0 <= DraftAnalyzer.calculateProPatternScore self heroId
  /\ DraftAnalyzer.calculateProPatternScore self heroId <= 100.
Proof.
  unfold DraftAnalyzer.calculateProPatternScore.
  destruct (DraftAnalyzer.findStat self heroId); [| split; closed_le].
  destruct (Qeq_bool _ 0); [split; closed_le |].
  apply clamp100_unit.
Qed.

Lemma calculateMLSynergyScore_range (hero : Hero) (teamHeroes : list Hero) :
  50 <= DraftAnalyzer.calculateMLSynergyScore hero teamHeroes
  /\ DraftAnalyzer.calculateMLSynergyScore hero teamHeroes <= 85.
Proof.
  unfold DraftAnalyzer.calculateMLSynergyScore.
  destruct (length teamHeroes =? 0)%nat eqn:Hlen; [split; closed_le |].
  apply Nat.eqb_neq in Hlen.
  assert (Hpos : (0 < length teamHeroes)%nat) by lia.
  match goal with
  | |- context [fold_left (fun s t => s + @?g t) ?l 0] =>
      destruct (fold_sum_bounds g 50 85 l 0) as [Hlo Hhi];
      [apply List.Forall_forall; intros teammate _; cbv beta zeta;
       score_cases |]
  end.
  apply clamp100_range; [closed_le | closed_le | |];
    apply (mean_bounds _ 50 85 _ Hpos); lra.
Qed.

End PrivateScorer.

(** X25.  The private scorer [calculateAdvancedHeroScore] works on the 0 to
    100 scale.  When the matchup records are plausible, its eight factors
    lie in fixed bands (item synergy at least 50, lane optimization at most
    70, timing one of 50, 60, 80, 85 and 90, machine-learning synergy
    between 50 and 85), its score is a whole number between 15 and 91, it
    recommends at most five items and its lane is one of 1 to 5. *)
Theorem private_scorer_ranges (self : DraftAnalyzer.t) (hero : Hero)
  (draftState : DraftState) (gameContext : GameContext)
  (Hstore : plausibleStore (DraftAnalyzer.matchupData self)) :
  let s :=
    DraftAnalyzer.calculateAdvancedHeroScore self hero draftState gameContext
  in
  let b := AdvancedDraftSuggestion.advancedBreakdown s in
  within 0 100 (ScoreBreakdown.meta b)
  /\ within 0 100 (ScoreBreakdown.counter b)
  /\ within 0 74 (ScoreBreakdown.synergy b)
  /\ within 50 100 (ScoreBreakdown.itemSynergy b)
  /\ within 0 70 (ScoreBreakdown.laneOptimization b)
  /\ In (ScoreBreakdown.timing b) [50; 60; 80; 85; 90]
  /\ within 0 100 (ScoreBreakdown.proPattern b)
  /\ within 50 85 (ScoreBreakdown.mlSynergy b)
  /\ (exists n : Z,
         DraftSuggestion.score (AdvancedDraftSuggestion.base s) = inject_Z n
         /\ (15 <= n <= 91)%Z)
  /\ (length (AdvancedDraftSuggestion.itemRecommendations s) <= 5)%nat
  /\ (1 <= AdvancedDraftSuggestion.optimalLane s <= 5)%Z.
Proof.
  cbv zeta. unfold DraftAnalyzer.calculateAdvancedHeroScore.
  destruct (DraftAnalyzer.generateAdvancedReasoning hero _ gameContext)
    as [[positive counters] synergies].
  cbn [AdvancedDraftSuggestion.advancedBreakdown AdvancedDraftSuggestion.base
       AdvancedDraftSuggestion.itemRecommendations
       AdvancedDraftSuggestion.optimalLane DraftSuggestion.score].
  unfold DraftAnalyzer.advancedBreakdownOf.
  cbn [ScoreBreakdown.meta ScoreBreakdown.counter ScoreBreakdown.synergy
       ScoreBreakdown.itemSynergy ScoreBreakdown.laneOptimization
       ScoreBreakdown.timing ScoreBreakdown.proPattern
       ScoreBreakdown.mlSynergy].
  pose proof (getMetaScore_range self (Hero.id hero)) as Hmeta.
  pose proof (getCounterScore_range self (Hero.id hero)
                (pickedHeroes (DraftState.enemyTeam draftState)) Hstore)
    as Hcounter.
  pose proof (getSynergyScore_range self (Hero.id hero)
                (pickedHeroes (DraftState.yourTeam draftState))) as Hsynergy.
  pose proof (calculateItemSynergyScore_range hero
                (pickedHeroes (DraftState.yourTeam draftState)) gameContext)
    as Hitem.
  pose proof (private_laneScore_range hero draftState gameContext) as Hlane.
  pose proof (private_timingScore_values hero gameContext) as Htiming.
  pose proof (private_proPatternScore_range self (Hero.id hero)) as Hpro.
  pose proof (calculateMLSynergyScore_range hero
                (pickedHeroes (DraftState.yourTeam draftState))) as Hml.
  split; [exact Hmeta |]. split; [exact Hcounter |].
  split; [exact Hsynergy |]. split; [exact Hitem |].
  split; [exact Hlane |]. split; [exact Htiming |].
  split; [exact Hpro |]. split; [exact Hml |].
  destruct Hmeta, Hcounter, Hsynergy, Hitem, Hlane, Hpro, Hml.
  split; [| split].
  - assert (Ht : 50 <= DraftAnalyzer.calculateTimingScore hero gameContext
                 /\ DraftAnalyzer.calculateTimingScore hero gameContext
                    <= 90).
    { cbn [In] in Htiming.
      destruct Htiming as [<- | [<- | [<- | [<- | [<- | []]]]]];
        split; closed_le. }
    unfold Js.round. eexists. split; [reflexivity |]. split.
    + apply Z.le_trans with (Qfloor 15); [discriminate |].
      apply Qfloor_resp_le. lra.
    + apply Z.le_trans with (Qfloor 91.85); [| discriminate].
      apply Qfloor_resp_le. lra.
  - unfold DraftAnalyzer.getItemRecommendations.
    destruct (GameContext.itemStrategy gameContext) as [[| |] |];
      repeat match goal with
        | |- context [Js.includes ?r ?x] => destruct (Js.includes r x)
        end; vm_compute; lia.
  - unfold DraftAnalyzer.getOptimalLane.
    repeat match goal with
      | |- context [Js.includes ?r ?x] => destruct (Js.includes r x)
      | |- context [PrimaryAttr_eqb ?a ?b] => destruct (PrimaryAttr_eqb a b)
      end; lia.
Qed.

(** Lina against Anti-Mage with the statistics and the store of the
    examples: the counter factor is 65 and the score is 55. *)
Lemma private_scorer_ranges_witness :
  plausibleStore (DraftAnalyzer.matchupData Records.analyzer)
  /\ ScoreBreakdown.counter
       (AdvancedDraftSuggestion.advancedBreakdown
          (DraftAnalyzer.calculateAdvancedHeroScore Records.analyzer
             Examples.lina Examples.draft GameContext.empty)) == 65
  /\ DraftSuggestion.score
       (AdvancedDraftSuggestion.base
          (DraftAnalyzer.calculateAdvancedHeroScore Records.analyzer
             Examples.lina Examples.draft GameContext.empty)) = 55
  /\ within 0 100
       (ScoreBreakdown.counter
          (AdvancedDraftSuggestion.advancedBreakdown
             (DraftAnalyzer.calculateAdvancedHeroScore Records.analyzer
                Examples.lina Examples.draft GameContext.empty)))
  /\ exists n : Z,
       DraftSuggestion.score
         (AdvancedDraftSuggestion.base
            (DraftAnalyzer.calculateAdvancedHeroScore Records.analyzer
               Examples.lina Examples.draft GameContext.empty))
       = inject_Z n
       /\ (15 <= n <= 91)%Z.
Proof.
  split; [exact twentyGames_plausible |].
  split; [vm_compute; reflexivity |]. split; [reflexivity |].
  split.
  - exact (proj1 (proj2
             (private_scorer_ranges Records.analyzer Examples.lina
                Examples.draft GameContext.empty twentyGames_plausible))).
  - exact (proj1 (proj2 (proj2 (proj2 (proj2 (proj2 (proj2 (proj2 (proj2
             (private_scorer_ranges Records.analyzer Examples.lina
                Examples.draft GameContext.empty
                twentyGames_plausible)))))))))).
Defined.

(** ** The guarded win rate *)

(** X26.  The win rate of the data transformer is between 0 and 100 for
    every number of games, negative ones included, as soon as the wins are
    not negative: it answers 0 when the games are 0 or fewer than the wins.
    The win rate of the OpenDota client has no such guard and exceeds 100
    when the wins are at least 1.01 times a positive number of games. *)
Theorem guarded_win_rate_is_percentage (wins games : Q)
  (Hwins : 0 <= wins) :
  within 0 100 (DataTransformer.calculateWinRate wins games)
  /\ (games == 0 -> DataTransformer.calculateWinRate wins games = 0)
  /\ (games < wins -> DataTransformer.calculateWinRate wins games = 0)
  /\ (0 < games -> games * 1.01 <= wins ->
      100 < OpenDota.calculateWinRate wins games).
Proof.
  unfold within, DataTransformer.calculateWinRate, Js.truthy, Js.gt.
  split; [| split; [| split]].
  - destruct (Qeq_bool games 0) eqn:E; [split; closed_le |].
    cbn [negb orb].
    destruct (Js.lt games wins) eqn:Hlt; [split; closed_le |].
    apply lt_false in Hlt. apply Qeq_bool_neq in E.
    assert (Hg : 0 < games).
    { destruct (Qlt_le_dec 0 games) as [H | H]; [exact H |].
      exfalso. apply E. lra. }
    destruct (percentage_range wins games Hg Hwins Hlt) as [H0 H100].
    destruct (toFixed2_spec _ H0) as (_ & _ & Hr0 & Hr100).
    split; [exact Hr0 | now apply Hr100].
  - intros Hzero. apply Qeq_bool_iff in Hzero. now rewrite Hzero.
  - intros Hlt. apply lt_true in Hlt. rewrite Hlt.
    now destruct (negb (negb (Qeq_bool games 0)) || Qeq_bool games 0).
  - intros Hg Hmore. rewrite calculateWinRate_unfold by exact Hg.
    assert (Hratio : 101 <= wins / games * 100).
    { assert (H : 1.01 <= wins / games) by (apply Qle_shift_div_l; lra).
      lra. }
    assert (H0 : 0 <= wins / games * 100) by lra.
    destruct (toFixed2_spec _ H0) as ([Hnear _] & _). lra.
Qed.

(** 3 wins in 2 games: 0 from the data transformer. *)
Lemma guarded_win_rate_is_percentage_witness :
  0 <= 3 /\ DataTransformer.calculateWinRate 3 2 = 0.
Proof.
  assert (Hw : 0 <= 3) by discriminate.
  split; [exact Hw |].
  apply (proj1 (proj2 (proj2 (guarded_win_rate_is_percentage 3 2 Hw)))).
  reflexivity.
Defined.

(** ** The rate limiter *)

Section RateLimiterFacts.

Lemma recent_recent (c c' : Z) (l : list Z) :
  (c <= c')%Z -> recent c' (recent c l) = recent c' l.
Proof.
  intros Hc. unfold recent. induction l as [| x l IH]; [reflexivity |].
  cbn [List.filter]. destruct (c <? x)%Z eqn:E.
  - cbn [List.filter]. destruct (c' <? x)%Z; [f_equal |]; exact IH.
  - destruct (c' <? x)%Z eqn:E'; [| exact IH].
    apply Z.ltb_lt in E'. apply Z.ltb_ge in E. lia.
Qed.

Lemma recent_app (c : Z) (l l' : list Z) :
  recent c (l ++ l') = recent c l ++ recent c l'.
Proof. apply List.filter_app. Qed.

Lemma length_filter_le {A : Type} (p q : A -> bool) (l : list A) :
  (forall x, p x = true -> q x = true) ->
  (length (List.filter p l) <= length (List.filter q l))%nat.
Proof.
  intros Hpq. induction l as [| x l IH]; [reflexivity |].
  cbn [List.filter]. destruct (p x) eqn:Hp.
  - rewrite (Hpq x Hp). cbn [length]. lia.
  - destruct (q x); cbn [length]; lia.
Qed.

Variables (w m : Z).

Lemma agrees_later (clock clock' : Z) (self : RateLimiter.t)
  (past : string -> list Z) :
  (clock <= clock')%Z -> agrees w clock self past -> agrees w clock' self past.
Proof.
  intros Hc H identifier.
  rewrite <- (recent_recent (clock - w) (clock' - w) (past identifier)),
    <- (recent_recent (clock - w) (clock' - w) (stored self identifier))
    by lia.
  now rewrite H.
Qed.

Lemma isAllowed_step (self : RateLimiter.t) (past : string -> list Z)
  (clock now : Z) (identifier : string) :
  RateLimiter.windowMs self = w -> RateLimiter.maxRequests self = m ->
  agrees w clock self past -> bounded w m past -> (clock <= now)%Z ->
  let answer := fst (RateLimiter.isAllowed self now identifier) in
  let self' := snd (RateLimiter.isAllowed self now identifier) in
  let past' := fun identifier' =>
    past identifier'
    ++ (if answer && String.eqb identifier identifier' then [now] else [])
  in
  answer
  = (Z.of_nat (length (recent (now - w) (past identifier))) <? m)%Z
  /\ RateLimiter.windowMs self' = w
  /\ RateLimiter.maxRequests self' = m
  /\ agrees w now self' past'
  /\ bounded w m past'.
Proof.
  intros Hwin Hmax Hagree Hbound Hclock. cbv zeta.
  pose proof (agrees_later clock now self past Hclock Hagree) as Hnow.
  unfold RateLimiter.isAllowed. rewrite Hwin, Hmax.
  fold (stored self identifier).
  fold (recent (now - w) (stored self identifier)).
  rewrite (Hnow identifier), Z.ltb_antisym.
  destruct (m <=? Z.of_nat (length (recent (now - w)
                                      (stored self identifier))))%Z eqn:E;
    cbn [fst snd negb andb RateLimiter.windowMs RateLimiter.maxRequests].
  - repeat split; try assumption.
    + intros identifier'. rewrite app_nil_r. apply Hnow.
    + intros identifier' t. rewrite app_nil_r. apply Hbound.
  - apply Z.leb_gt in E. repeat split; try reflexivity.
    + intros identifier'. unfold stored.
      cbn [RateLimiter.requests].
      destruct (String.eqb identifier identifier') eqn:Heq.
      * apply String.eqb_eq in Heq. subst identifier'.
        rewrite lookup_insert_eq. cbn [default from_option id].
        fold (stored self identifier).
        rewrite !recent_app, recent_recent by lia.
        now rewrite Hnow.
      * apply String.eqb_neq in Heq.
        rewrite lookup_insert_ne by exact Heq.
        rewrite app_nil_r. apply Hnow.
    + intros identifier' t.
      destruct (String.eqb identifier identifier') eqn:Heq;
        [| rewrite app_nil_r; apply Hbound].
      apply String.eqb_eq in Heq. subst identifier'.
      unfold inWindow. rewrite List.filter_app. cbn [List.filter].
      destruct ((t - w <? now)%Z && (now <=? t)%Z) eqn:Hin.
      * apply andb_true_iff in Hin as [Hlo Hhi].
        apply Z.ltb_lt in Hlo. apply Z.leb_le in Hhi.
        rewrite length_app. cbn [length].
        assert (Hle :
                  (length
                     (List.filter
                        (fun x => (t - w <? x)%Z && (x <=? t)%Z)
                        (past identifier))
                   <= length (recent (now - w) (past identifier)))%nat).
        { apply length_filter_le. intros x Hx.
          apply andb_true_iff in Hx as [Hx _]. apply Z.ltb_lt in Hx.
          apply Z.ltb_lt. lia. }
        rewrite (Hnow identifier) in Hle. lia.
      * rewrite app_nil_r. apply Hbound.
Qed.

Lemma serve_spec (calls : list Call) :
  forall (self : RateLimiter.t) (past : string -> list Z) (clock : Z),
    RateLimiter.windowMs self = w -> RateLimiter.maxRequests self = m ->
    agrees w clock self past -> bounded w m past ->
    Sorted Z.le (clock :: map fst calls) ->
    let answers := fst (serve self calls) in
    let final := snd (serve self calls) in
    let total := fun identifier =>
      past identifier ++ allowedTimes identifier calls answers in
    RateLimiter.windowMs final = w
    /\ RateLimiter.maxRequests final = m
    /\ bounded w m total
    /\ (forall now,
          Forall (fun call => (fst call <= now)%Z) calls ->
          (clock <= now)%Z -> agrees w now final total).
Proof.
  induction calls as [| [now0 identifier0] rest IH];
    intros self past clock Hwin Hmax Hagree Hbound Hsorted; cbv zeta.
  - cbn [serve fst snd allowedTimes]. repeat split; try assumption.
    + intros identifier t. rewrite app_nil_r. apply Hbound.
    + intros now _ Hclock identifier. rewrite app_nil_r.
      now apply (agrees_later clock now).
  - cbn [map fst] in Hsorted.
    apply Sorted_inv in Hsorted as [Hsorted Hhd].
    apply HdRel_inv in Hhd.
    destruct (isAllowed_step self past clock now0 identifier0
                Hwin Hmax Hagree Hbound Hhd)
      as (_ & Hwin' & Hmax' & Hagree' & Hbound').
    cbn [serve].
    destruct (RateLimiter.isAllowed self now0 identifier0)
      as [answer self'].
    cbn [fst snd] in Hwin', Hmax', Hagree', Hbound'.
    specialize (IH self' _ now0 Hwin' Hmax' Hagree' Hbound' Hsorted).
    cbv zeta in IH.
    destruct (serve self' rest) as [answers final].
    cbn [fst snd allowedTimes] in *.
    destruct IH as (Hwin'' & Hmax'' & Hbound'' & Hagree'').
    repeat split; try assumption.
    + intros identifier t. rewrite app_assoc. apply Hbound''.
    + intros now Hall Hclock identifier.
      apply Forall_inv in Hall as Hnow0. apply Forall_inv_tail in Hall.
      cbn [fst] in Hnow0. rewrite app_assoc.
      now apply Hagree''.
Qed.

Lemma serve_app (calls : list Call) (call : Call) :
  forall self : RateLimiter.t,
    fst (serve self (calls ++ [call]))
    = fst (serve self calls)
      ++ [fst (RateLimiter.isAllowed (snd (serve self calls))
                 (fst call) (snd call))].
Proof.
  induction calls as [| [now0 identifier0] rest IH]; intros self.
  - destruct call as [now identifier]. cbn [app serve fst snd].
    now destruct (RateLimiter.isAllowed self now identifier).
  - cbn [app serve].
    destruct (RateLimiter.isAllowed self now0 identifier0)
      as [answer self'].
    specialize (IH self').
    destruct (serve self' (rest ++ [call])) as [answers final].
    destruct (serve self' rest) as [answers' final'].
    cbn [fst snd] in *. now rewrite IH.
Qed.

Lemma isAllowed_similar (clock now : Z) (identifier : string)
  (self1 self2 : RateLimiter.t) :
  similar clock self1 self2 -> (clock <= now)%Z ->
  fst (RateLimiter.isAllowed self1 now identifier)
  = fst (RateLimiter.isAllowed self2 now identifier)
  /\ similar now (snd (RateLimiter.isAllowed self1 now identifier))
       (snd (RateLimiter.isAllowed self2 now identifier)).
Proof.
  intros (Hwin & Hmax & Hsame) Hclock.
  assert (Hnow : forall identifier',
             recent (now - RateLimiter.windowMs self2)
               (stored self1 identifier')
             = recent (now - RateLimiter.windowMs self2)
                 (stored self2 identifier')).
  { intros identifier'.
    rewrite <- (recent_recent (clock - RateLimiter.windowMs self2)
                  (now - RateLimiter.windowMs self2)
                  (stored self1 identifier')),
      <- (recent_recent (clock - RateLimiter.windowMs self2)
            (now - RateLimiter.windowMs self2)
            (stored self2 identifier')) by lia.
    now rewrite Hsame. }
  unfold RateLimiter.isAllowed. rewrite Hwin, Hmax.
  fold (stored self1 identifier). fold (stored self2 identifier).
  fold (recent (now - RateLimiter.windowMs self2)
          (stored self1 identifier)).
  fold (recent (now - RateLimiter.windowMs self2)
          (stored self2 identifier)).
  rewrite (Hnow identifier).
  destruct (RateLimiter.maxRequests self2 <=? _)%Z; cbn [fst snd].
  - split; [reflexivity |]. repeat split; assumption.
  - split; [reflexivity |].
    unfold similar.
    cbn [RateLimiter.windowMs RateLimiter.maxRequests].
    repeat split. intros identifier'. unfold stored.
    cbn [RateLimiter.requests].
    destruct (String.eqb identifier identifier') eqn:Heq.
    + apply String.eqb_eq in Heq. subst identifier'.
      now rewrite !lookup_insert_eq.
    + apply String.eqb_neq in Heq.
      rewrite !lookup_insert_ne by exact Heq. apply Hnow.
Qed.

Lemma serve_similar (calls : list Call) :
  forall (clock : Z) (self1 self2 : RateLimiter.t),
    similar clock self1 self2 ->
    Sorted Z.le (clock :: map fst calls) ->
    fst (serve self1 calls) = fst (serve self2 calls).
Proof.
  induction calls as [| [now0 identifier0] rest IH];
    intros clock self1 self2 Hsim Hsorted; [reflexivity |].
  cbn [map fst] in Hsorted.
  apply Sorted_inv in Hsorted as [Hsorted Hhd]. apply HdRel_inv in Hhd.
  destruct (isAllowed_similar clock now0 identifier0 self1 self2 Hsim Hhd)
    as [Hanswer Hsim'].
  cbn [serve].
  destruct (RateLimiter.isAllowed self1 now0 identifier0)
    as [answer1 self1'].
  destruct (RateLimiter.isAllowed self2 now0 identifier0)
    as [answer2 self2'].
  cbn [fst snd] in Hanswer, Hsim'. subst answer2.
  specialize (IH now0 self1' self2' Hsim' Hsorted).
  destruct (serve self1' rest) as [answers1 final1].
  destruct (serve self2' rest) as [answers2 final2].
  cbn [fst] in *. now rewrite IH.
Qed.

Lemma stored_cleanup (self : RateLimiter.t) (now : Z)
  (identifier : string) :
  stored (RateLimiter.cleanup self now) identifier
  = recent (now - RateLimiter.windowMs self) (stored self identifier).
Proof.
  unfold stored, RateLimiter.cleanup. cbn [RateLimiter.requests].
  rewrite lookup_omap.
  destruct (RateLimiter.requests self !! identifier) as [requests0 |];
    [| reflexivity].
  cbn [mbind option_bind default from_option id].
  fold (recent (now - RateLimiter.windowMs self) requests0).
  destruct (recent (now - RateLimiter.windowMs self) requests0);
    reflexivity.
Qed.

Lemma sorted_snoc (l : list Z) (x : Z) :
  Sorted Z.le (l ++ [x]) ->
  Sorted Z.le l /\ Forall (fun y => (y <= x)%Z) l.
Proof.
  induction l as [| a l IH]; intros H; [split; constructor |].
  cbn [app] in H. apply Sorted_inv in H as [Hs Hhd].
  destruct (IH Hs) as [Hl Hall]. split.
  - constructor; [exact Hl |].
    destruct l as [| b l]; [constructor |].
    constructor. now apply HdRel_inv in Hhd.
  - constructor; [| exact Hall].
    destruct l as [| b l]; cbn [app] in Hhd; apply HdRel_inv in Hhd;
      [exact Hhd |].
    apply Forall_inv in Hall. lia.
Qed.

Lemma sorted_from_head (l : list Z) (d : Z) :
  Sorted Z.le l -> Sorted Z.le (hd d l :: l).
Proof.
  intros H. constructor; [exact H |].
  destruct l as [| a l]; constructor. cbn [hd]. lia.
Qed.

Lemma fresh_agrees (windowMs maxRequests : option Z) (clock : Z) :
  agrees w clock (RateLimiter.new windowMs maxRequests) (fun _ => []).
Proof. intros identifier. reflexivity. Qed.

Lemma fresh_bounded : bounded w m (fun _ => []).
Proof. intros identifier t. unfold inWindow. cbn. lia. Qed.

End RateLimiterFacts.

(** X27.  A limiter that starts empty and whose clock never goes back
    allows, for each identifier, at most [maxRequests] calls in any window
    of [windowMs] milliseconds (none when [maxRequests] is not positive). *)
Theorem limiter_keeps_the_limit (windowMs maxRequests : option Z)
  (calls : list Call) (identifier : string) (t : Z)
  (Hclock : chronological calls) :
  let limiter := RateLimiter.new windowMs maxRequests in
  (Z.of_nat
     (inWindow (RateLimiter.windowMs limiter) t
        (allowedTimes identifier calls (fst (serve limiter calls))))
   <= Z.max 0 (RateLimiter.maxRequests limiter))%Z.
Proof.
  cbv zeta.
  destruct (serve_spec (default 60000%Z windowMs)
              (default 100%Z maxRequests) calls
              (RateLimiter.new windowMs maxRequests) (fun _ => [])
              (hd 0%Z (map fst calls)) eq_refl eq_refl
              (fresh_agrees _ windowMs maxRequests _)
              (fresh_bounded _ _) (sorted_from_head _ _ Hclock))
    as (_ & _ & Hbound & _).
  exact (Hbound identifier t).
Qed.

Lemma limiter_keeps_the_limit_witness :
  chronological [(0%Z, "a"%string); (5%Z, "a"%string); (5%Z, "b"%string)]
  /\ (Z.of_nat
        (inWindow 10 7
           (allowedTimes "a"
              [(0%Z, "a"%string); (5%Z, "a"%string); (5%Z, "b"%string)]
              (fst (serve (RateLimiter.new (Some 10%Z) (Some 1%Z))
                      [(0%Z, "a"%string); (5%Z, "a"%string);
                       (5%Z, "b"%string)]))))
      <= Z.max 0 1)%Z.
Proof.
  assert (Hclock :
            chronological
              [(0%Z, "a"%string); (5%Z, "a"%string); (5%Z, "b"%string)]).
  { unfold chronological. cbn [map fst].
    repeat constructor; discriminate. }
  split; [exact Hclock |].
  exact (limiter_keeps_the_limit (Some 10%Z) (Some 1%Z) _ "a" 7 Hclock).
Defined.

(** X28.  The answers of such a limiter are those of a sliding window: a
    call is allowed exactly when fewer than [maxRequests] calls of its
    identifier were allowed after [now - windowMs]. *)
Theorem limiter_answers_by_sliding_window (windowMs maxRequests : option Z)
  (calls : list Call) (now : Z) (identifier : string)
  (Hclock : chronological (calls ++ [(now, identifier)])) :
  let limiter := RateLimiter.new windowMs maxRequests in
  let answers := fst (serve limiter calls) in
  fst (serve limiter (calls ++ [(now, identifier)]))
  = answers
    ++ [(Z.of_nat
           (length
              (recent (now - RateLimiter.windowMs limiter)
                 (allowedTimes identifier calls answers)))
         <? RateLimiter.maxRequests limiter)%Z].
Proof.
  cbv zeta. unfold chronological in Hclock. rewrite map_app in Hclock.
  cbn [map fst] in Hclock.
  apply sorted_snoc in Hclock as [Hsorted Hall].
  rewrite serve_app. f_equal. f_equal. cbn [fst snd].
  destruct (serve_spec (default 60000%Z windowMs)
              (default 100%Z maxRequests) calls
              (RateLimiter.new windowMs maxRequests) (fun _ => [])
              (hd now (map fst calls)) eq_refl eq_refl
              (fresh_agrees _ windowMs maxRequests _)
              (fresh_bounded _ _) (sorted_from_head _ _ Hsorted))
    as (Hwin & Hmax & Hbound & Hagree).
  assert (Hhd : (hd now (map fst calls) <= now)%Z).
  { destruct calls as [| call rest]; cbn [map hd]; [lia |].
    now apply Forall_inv in Hall. }
  assert (Hall' : Forall (fun call : Call => (fst call <= now)%Z) calls).
  { apply List.Forall_forall. intros call Hin.
    rewrite List.Forall_forall in Hall. apply Hall.
    now apply in_map. }
  specialize (Hagree now Hall' Hhd).
  exact (proj1 (isAllowed_step _ _ _ _ now now identifier Hwin Hmax
                  Hagree Hbound (Z.le_refl now))).
Qed.

Lemma limiter_answers_by_sliding_window_witness :
  chronological ([(0%Z, "a"%string)] ++ [(5%Z, "a"%string)])
  /\ fst (serve (RateLimiter.new (Some 10%Z) (Some 1%Z))
            ([(0%Z, "a"%string)] ++ [(5%Z, "a"%string)]))
     = [true; false].
Proof.
  assert (Hclock :
            chronological ([(0%Z, "a"%string)] ++ [(5%Z, "a"%string)])).
  { unfold chronological. cbn [app map fst].
    repeat constructor; discriminate. }
  split; [exact Hclock |].
  exact (limiter_answers_by_sliding_window (Some 10%Z) (Some 1%Z)
           [(0%Z, "a"%string)] 5 "a" Hclock).
Defined.

(** X29.  A cleanup changes no later answer: when the clock does not go
    back, a limiter answers every later sequence of calls as it would
    without the cleanup.  After a cleanup no identifier holds an empty
    list, and every timestamp held is inside the window. *)
Theorem cleanup_changes_no_answer (self : RateLimiter.t) (now : Z)
  (calls : list Call) (Hclock : Sorted Z.le (now :: map fst calls)) :
  fst (serve (RateLimiter.cleanup self now) calls) = fst (serve self calls)
  /\ forall identifier timestamps,
       RateLimiter.requests (RateLimiter.cleanup self now) !! identifier
       = Some timestamps ->
       timestamps <> []
       /\ Forall (fun x => (now - RateLimiter.windowMs self < x)%Z)
            timestamps.
Proof.
  split.
  - apply (serve_similar calls now); [| exact Hclock].
    repeat split. intros identifier. rewrite stored_cleanup.
    apply recent_recent. lia.
  - intros identifier timestamps. unfold RateLimiter.cleanup.
    cbn [RateLimiter.requests]. rewrite lookup_omap.
    destruct (RateLimiter.requests self !! identifier) as [requests0 |];
      [| discriminate].
    cbn [mbind option_bind].
    destruct (length _ =? 0)%nat eqn:Hlen; [discriminate |].
    intros [= <-]. apply Nat.eqb_neq in Hlen. split.
    + intros Hnil. now rewrite Hnil in Hlen.
    + apply List.Forall_forall. intros x Hx.
      apply filter_In in Hx as [_ Hx]. now apply Z.ltb_lt in Hx.
Qed.

Lemma cleanup_changes_no_answer_witness :
  Sorted Z.le (20%Z :: map fst [(25%Z, "a"%string)])
  /\ fst (serve
            (RateLimiter.cleanup
               (snd (serve (RateLimiter.new (Some 10%Z) (Some 1%Z))
                       [(0%Z, "a"%string)])) 20)
            [(25%Z, "a"%string)])
     = fst (serve
              (snd (serve (RateLimiter.new (Some 10%Z) (Some 1%Z))
                      [(0%Z, "a"%string)]))
              [(25%Z, "a"%string)]).
Proof.
  assert (Hclock : Sorted Z.le (20%Z :: map fst [(25%Z, "a"%string)])).
  { cbn [map fst]. repeat constructor; discriminate. }
  split; [exact Hclock |].
  exact (proj1 (cleanup_changes_no_answer _ 20 _ Hclock)).
Defined.
